(** * Client state and view controller of the task dashboard

    A shallow embedding of [static/js/app.js]: the page-wide variables become
    one record [App], the parts of the document the script writes become the
    record [Dom] inside it, and every function of the script becomes a
    computation in a state-and-exception monad over [App].

    A call to the backend is split where JavaScript splits it: the function
    that issues the request records it in [sent] and returns; the promise
    callbacks are a second computation ([..._settled]) that takes the
    backend's response as its argument and runs when the response arrives. *)

From Stdlib Require Import ZArith QArith List String Ascii Bool Lia Permutation.
From Stdlib Require Import Sorted.
Import ListNotations.
Local Open Scope string_scope.
Local Open Scope list_scope.
Local Open Scope Z_scope.

Set Implicit Arguments.

(** ** Data model *)

(** A session's user, as [handleLogin] builds it from the login response. *)
Module User.
Record t := mk { id : Z; username : string; role : string; email : string }.
End User.

(** A task as the user interface holds it (the result of [mapBackendTaskToUI]).
    [timestamp] is the time value, in milliseconds, that [new Date(task.timestamp)]
    denotes; amounts are JavaScript numbers holding whole values. *)
Module Task.
Record t := mk {
  id : Z; orderNo : string; customerName : string; contactNumber : string;
  serviceType : string; status : string; assignedTo : string; branch : string;
  paymode : string; servicePrice : Z; paidAmount : Z; serviceCharge : Z;
  description : string; edited : bool; editReason : option string;
  sharedWith : list string; date : string; timestamp : Z;
  takenOverBy : option string }.

Definition with_status (v : string) (x : t) : t :=
  mk (id x) (orderNo x) (customerName x) (contactNumber x) (serviceType x) v
     (assignedTo x) (branch x) (paymode x) (servicePrice x) (paidAmount x)
     (serviceCharge x) (description x) (edited x) (editReason x) (sharedWith x)
     (date x) (timestamp x) (takenOverBy x).
Definition with_edited (v : bool) (x : t) : t :=
  mk (id x) (orderNo x) (customerName x) (contactNumber x) (serviceType x)
     (status x) (assignedTo x) (branch x) (paymode x) (servicePrice x)
     (paidAmount x) (serviceCharge x) (description x) v (editReason x)
     (sharedWith x) (date x) (timestamp x) (takenOverBy x).
Definition with_editReason (v : option string) (x : t) : t :=
  mk (id x) (orderNo x) (customerName x) (contactNumber x) (serviceType x)
     (status x) (assignedTo x) (branch x) (paymode x) (servicePrice x)
     (paidAmount x) (serviceCharge x) (description x) (edited x) v
     (sharedWith x) (date x) (timestamp x) (takenOverBy x).
Definition with_takenOverBy (v : option string) (x : t) : t :=
  mk (id x) (orderNo x) (customerName x) (contactNumber x) (serviceType x)
     (status x) (assignedTo x) (branch x) (paymode x) (servicePrice x)
     (paidAmount x) (serviceCharge x) (description x) (edited x) (editReason x)
     (sharedWith x) (date x) (timestamp x) v.
Definition with_timestamp (v : Z) (x : t) : t :=
  mk (id x) (orderNo x) (customerName x) (contactNumber x) (serviceType x)
     (status x) (assignedTo x) (branch x) (paymode x) (servicePrice x)
     (paidAmount x) (serviceCharge x) (description x) (edited x) (editReason x)
     (sharedWith x) (date x) v (takenOverBy x).
End Task.

(** A task as [GET /api/tasks] returns it.  [shared_with] is [None] when the
    field is not an array. *)
Module BackendTask.
Record t := mk {
  id : Z; order_no : string; customer_name : string; contact_number : string;
  service_type : string; status : string; assigned_to : string;
  branch_code : string; paymode : string; service_price : Z; paid_amount : Z;
  service_charge : Z; description : string; edited : bool;
  edit_reason : option string; shared_with : option (list string);
  task_date : string; created_at : Z }.
End BackendTask.

Module Service.
Record t := mk {
  id : Z; name : string; price : Z; fee : Z; charge : Z;
  link : string; note : string }.
End Service.

(** An entry of [STAFF_LIST]. *)
Module Staff.
Record t := mk { name : string; role : string; email : string }.
End Staff.

(** [currentFilters]: each field is ['all'] or a concrete value. *)
Record Filters := {
  fDate : string; fBranch : string; fStaff : string;
  fStatus : string; fService : string }.

Definition noFilters : Filters :=
  {| fDate := "all"; fBranch := "all"; fStaff := "all";
     fStatus := "all"; fService := "all" |}.

(** What the [Date] library gives a handler: the current instant, and the local
    midnights [filterTasksByDate] derives from it with [setDate]. *)
Record Clock := { now : Z; today : Z; yesterday : Z; tomorrow : Z }.

(** The value of the [customDate] input read as a date, with the day after. *)
Record CustomDay := { custom : Z; nextDay : Z }.

(** ** Requests and responses *)

Inductive Method := GET | POST | PUT | DELETE.

(** The URLs the script builds; a template such as [`/api/tasks/${id}`] keeps
    its argument ([sharingTaskId] may still be [null] when it is read). *)
Inductive Endpoint :=
| api_login | api_logout | api_users
| api_tasks | api_task (id : Z) | api_task_share (id : option Z)
| api_services | api_service (id : Z)
| api_dashboard_stats | api_dashboard_top_performers
| api_dashboard_overdue_tasks.

(** The object [mapUIToBackendTask] returns.  [branch_code] is
    [d.branchCode || d.branch]: absent when the form field is empty. *)
Record TaskPayload := {
  p_customer_name : string; p_contact_number : string; p_service_type : string;
  p_assigned_to : string; p_branch_code : option string; p_paymode : string;
  p_service_price : Z; p_paid_amount : Z; p_service_charge : Z;
  p_description : string }.

(** The values [saveService] reads from the service form. *)
Record ServiceData := {
  sd_name : string; sd_price : Z; sd_fee : Z; sd_charge : Z;
  sd_link : string; sd_note : string }.

Inductive Body :=
| NoBody
| LoginBody (username password : string)
| TaskBody (payload : TaskPayload) (edit_reason : option string)
| StatusBody (status : string)
| ShareBody (staff_name : string)
| ServiceBody (data : ServiceData).

Record Request := { method : Method; url : Endpoint; body : Body }.

(** How a request ends: a 2xx answer with its JSON, a 401, or any other
    failure with the message [apiFetch] throws for it. *)
Inductive Response (A : Type) :=
| Ok (data : A)
| Unauthorized
| Failed (message : string).
Arguments Unauthorized {A}.
Arguments Failed {A} message.

Record Stats := {
  total_tasks : Z; tasks_today : Z; completed_tasks : Z;
  total_revenue : option Z }.

Record Winner := {
  w_name : string; w_completed_tasks : Z; w_total_revenue : option Z;
  w_score : Z }.

Record OverdueInfo := {
  o_order_no : string; o_customer_name : string; o_service_type : string;
  o_status : string; o_assigned_to : string; o_task_date : string;
  o_hours_overdue : Z }.

(** ** The document *)

(** Elements whose [hidden] class the script toggles. *)
Inductive ElemId :=
| loginPage | navigation | dashboardPage | tasksPage | staffPage | reportsPage
| databasePage | staffPanelPage | staffNav | reportsNav | databaseNav
| revenueCard | actionsHeader | addStaffBtn | addServiceBtn
| taskFormContainer | serviceFormContainer | overdueTasksContainer
| winnersContainer.

Definition ElemId_eq_dec (a b : ElemId) : {a = b} + {a <> b}.
Proof. decide equality. Defined.

(** Modals shown with [style.display = 'flex']. *)
Inductive ModalId := editReasonModal | shareTaskModal | statusUpdateModal.

Definition ModalId_eq_dec (a b : ModalId) : {a = b} + {a <> b}.
Proof. decide equality. Defined.

(** Elements whose [textContent] the script writes. *)
Inductive TextId :=
| userRoleDisplay | formTitle | serviceFormTitle
| totalTasks | tasksToday | completedTasks | totalRevenue
| statusOrderNo | statusNewStatus
| currentStaffName | staffTotalTasks | staffPendingTasks | staffMyTasks
| staffExtraTasks.

Definition TextId_eq_dec (a b : TextId) : {a = b} + {a <> b}.
Proof. decide equality. Defined.

(** Written text: a string, a number, or an amount [`₹${n.toLocaleString()}`]. *)
Inductive Content := Str (s : string) | Num (n : Z) | Rupees (n : Z).

Inductive DataAttr := data_id | data_task_id.

(** The controls of an actions cell or of a task card. *)
Inductive Control :=
| Button (cls : string) (attr : DataAttr) (taskId : Z)
| StatusSelect (attr : DataAttr) (taskId : Z) (value : string).

(** A [<tr>] built by [createTaskRow]: the task whose fields fill the cells,
    the edit indicator, and the actions cell when there is one. *)
Record Row := {
  rowTask : Task.t; editIndicator : bool; actionsCell : option (list Control) }.

(** A row of the overdue table: built by [renderTasks] from a cached task and
    the whole hours since its timestamp, or by [updateOverdueTasks] from the
    backend's list. *)
Inductive OverdueRow :=
| OverdueOfTask (task : Task.t) (hours : Z)
| OverdueOfBackend (info : OverdueInfo).

Record WinnerCard := {
  wc_place : nat; wc_name : string; wc_completed : Z;
  wc_revenue : option Content; wc_score : Z }.

Record ReportCard := {
  rc_name : string; rc_total : nat; rc_completed : nat;
  rc_revenue : option Content }.

Record AlertCard := { ac_name : string; ac_overdue : list Task.t }.

(** A card of the staff panel built by [createTaskCard]. *)
Record TaskCard := {
  cardTask : Task.t; cardType : string; takenOverBadge : bool;
  cardControls : list Control }.

(** An item of the service list: the service, whether the edit and delete
    buttons of the service are present, and the duplicate warning. *)
Record ServiceItem := {
  itemService : Service.t; itemButtons : bool; duplicate : bool }.

Record StaffCard := { sc_name : string; sc_role : string; sc_email : string }.

(** An entry of the share modal: [dataset.staff] and the [selected] class. *)
Record StaffItem := { dataset_staff : string; selected : bool }.

Record ServiceOption := { so_name : string; so_serviceId : Z }.

(** The ten fields of the task form, as [saveTask] reads them
    ([parseFloat(...) || 0] already applied to the three amounts). *)
Record TaskData := {
  branchCode : string; customerName : string; contactNumber : string;
  serviceType : string; assignedTo : string; paymode : string;
  servicePrice : Z; paidAmount : Z; serviceCharge : Z; description : string }.

Inductive ToastType := ToastSuccess | ToastError | ToastWarning.

Record Toast := { toastMessage : string; toastType : ToastType }.

(** The containers that hold status selects. *)
Inductive Container :=
| InTaskTableBody | InAllTasks | InMyTasks | InExtraTasks.

Record Dom := {
  hidden : ElemId -> bool;
  shown : ModalId -> bool;
  text : TextId -> option Content;
  taskTableBody : list Row;
  recentTasksTable : list Row;
  overdueTasksTable : list OverdueRow;
  winnersCards : list WinnerCard;
  staffPerformanceCards : list ReportCard;
  staffAlertsContainer : list AlertCard;
  allTasksContainer : list TaskCard;
  myTasksContainer : list TaskCard;
  extraTasksContainer : list TaskCard;
  serviceListContainer : list ServiceItem;
  staffListContainer : list StaffCard;
  staffListModal : list StaffItem;
  assignedToSelect : list string;
  filterStaff : list string;
  serviceTypeSelect : list ServiceOption;
  filterService : list string;
  taskForm : TaskData;
  serviceForm : ServiceData;
  editReason : string;
  filterInputs : Filters;
  customDate : option CustomDay;
  (** the order in which the page lays out the four containers above; the
      script never changes it *)
  documentOrder : list Container;
  (** every notification [showToast] has shown, oldest first *)
  toasts : list Toast }.

(** The page-wide variables, the document, the requests issued so far
    (oldest first) and the session storage entry ['currentUser']. *)
Record App := {
  tasks : list Task.t;
  serviceDatabase : list Service.t;
  STAFF_LIST : list Staff.t;
  currentUser : option User.t;
  currentPage : string;
  editingTaskId : option Z;
  currentEditReason : string;
  sharingTaskId : option Z;
  editingServiceId : option Z;
  currentFilters : Filters;
  dom : Dom;
  sent : list Request;
  sessionStorage : option User.t }.

(** ** Field updates *)

Definition with_hidden (v : ElemId -> bool) (s : Dom) : Dom :=
  Build_Dom v (shown s) (text s) (taskTableBody s) (recentTasksTable s)
    (overdueTasksTable s) (winnersCards s) (staffPerformanceCards s)
    (staffAlertsContainer s) (allTasksContainer s) (myTasksContainer s)
    (extraTasksContainer s) (serviceListContainer s) (staffListContainer s)
    (staffListModal s) (assignedToSelect s) (filterStaff s) (serviceTypeSelect s)
    (filterService s) (taskForm s) (serviceForm s) (editReason s) (filterInputs s)
    (customDate s) (documentOrder s) (toasts s).
Definition with_shown (v : ModalId -> bool) (s : Dom) : Dom :=
  Build_Dom (hidden s) v (text s) (taskTableBody s) (recentTasksTable s)
    (overdueTasksTable s) (winnersCards s) (staffPerformanceCards s)
    (staffAlertsContainer s) (allTasksContainer s) (myTasksContainer s)
    (extraTasksContainer s) (serviceListContainer s) (staffListContainer s)
    (staffListModal s) (assignedToSelect s) (filterStaff s) (serviceTypeSelect s)
    (filterService s) (taskForm s) (serviceForm s) (editReason s) (filterInputs s)
    (customDate s) (documentOrder s) (toasts s).
Definition with_text (v : TextId -> option Content) (s : Dom) : Dom :=
  Build_Dom (hidden s) (shown s) v (taskTableBody s) (recentTasksTable s)
    (overdueTasksTable s) (winnersCards s) (staffPerformanceCards s)
    (staffAlertsContainer s) (allTasksContainer s) (myTasksContainer s)
    (extraTasksContainer s) (serviceListContainer s) (staffListContainer s)
    (staffListModal s) (assignedToSelect s) (filterStaff s) (serviceTypeSelect s)
    (filterService s) (taskForm s) (serviceForm s) (editReason s) (filterInputs s)
    (customDate s) (documentOrder s) (toasts s).
Definition with_taskTableBody (v : list Row) (s : Dom) : Dom :=
  Build_Dom (hidden s) (shown s) (text s) v (recentTasksTable s) (overdueTasksTable s)
    (winnersCards s) (staffPerformanceCards s) (staffAlertsContainer s)
    (allTasksContainer s) (myTasksContainer s) (extraTasksContainer s)
    (serviceListContainer s) (staffListContainer s) (staffListModal s)
    (assignedToSelect s) (filterStaff s) (serviceTypeSelect s) (filterService s)
    (taskForm s) (serviceForm s) (editReason s) (filterInputs s) (customDate s)
    (documentOrder s) (toasts s).
Definition with_recentTasksTable (v : list Row) (s : Dom) : Dom :=
  Build_Dom (hidden s) (shown s) (text s) (taskTableBody s) v (overdueTasksTable s)
    (winnersCards s) (staffPerformanceCards s) (staffAlertsContainer s)
    (allTasksContainer s) (myTasksContainer s) (extraTasksContainer s)
    (serviceListContainer s) (staffListContainer s) (staffListModal s)
    (assignedToSelect s) (filterStaff s) (serviceTypeSelect s) (filterService s)
    (taskForm s) (serviceForm s) (editReason s) (filterInputs s) (customDate s)
    (documentOrder s) (toasts s).
Definition with_overdueTasksTable (v : list OverdueRow) (s : Dom) : Dom :=
  Build_Dom (hidden s) (shown s) (text s) (taskTableBody s) (recentTasksTable s) v
    (winnersCards s) (staffPerformanceCards s) (staffAlertsContainer s)
    (allTasksContainer s) (myTasksContainer s) (extraTasksContainer s)
    (serviceListContainer s) (staffListContainer s) (staffListModal s)
    (assignedToSelect s) (filterStaff s) (serviceTypeSelect s) (filterService s)
    (taskForm s) (serviceForm s) (editReason s) (filterInputs s) (customDate s)
    (documentOrder s) (toasts s).
Definition with_winnersCards (v : list WinnerCard) (s : Dom) : Dom :=
  Build_Dom (hidden s) (shown s) (text s) (taskTableBody s) (recentTasksTable s)
    (overdueTasksTable s) v (staffPerformanceCards s) (staffAlertsContainer s)
    (allTasksContainer s) (myTasksContainer s) (extraTasksContainer s)
    (serviceListContainer s) (staffListContainer s) (staffListModal s)
    (assignedToSelect s) (filterStaff s) (serviceTypeSelect s) (filterService s)
    (taskForm s) (serviceForm s) (editReason s) (filterInputs s) (customDate s)
    (documentOrder s) (toasts s).
Definition with_staffPerformanceCards (v : list ReportCard) (s : Dom) : Dom :=
  Build_Dom (hidden s) (shown s) (text s) (taskTableBody s) (recentTasksTable s)
    (overdueTasksTable s) (winnersCards s) v (staffAlertsContainer s)
    (allTasksContainer s) (myTasksContainer s) (extraTasksContainer s)
    (serviceListContainer s) (staffListContainer s) (staffListModal s)
    (assignedToSelect s) (filterStaff s) (serviceTypeSelect s) (filterService s)
    (taskForm s) (serviceForm s) (editReason s) (filterInputs s) (customDate s)
    (documentOrder s) (toasts s).
Definition with_staffAlertsContainer (v : list AlertCard) (s : Dom) : Dom :=
  Build_Dom (hidden s) (shown s) (text s) (taskTableBody s) (recentTasksTable s)
    (overdueTasksTable s) (winnersCards s) (staffPerformanceCards s) v
    (allTasksContainer s) (myTasksContainer s) (extraTasksContainer s)
    (serviceListContainer s) (staffListContainer s) (staffListModal s)
    (assignedToSelect s) (filterStaff s) (serviceTypeSelect s) (filterService s)
    (taskForm s) (serviceForm s) (editReason s) (filterInputs s) (customDate s)
    (documentOrder s) (toasts s).
Definition with_allTasksContainer (v : list TaskCard) (s : Dom) : Dom :=
  Build_Dom (hidden s) (shown s) (text s) (taskTableBody s) (recentTasksTable s)
    (overdueTasksTable s) (winnersCards s) (staffPerformanceCards s)
    (staffAlertsContainer s) v (myTasksContainer s) (extraTasksContainer s)
    (serviceListContainer s) (staffListContainer s) (staffListModal s)
    (assignedToSelect s) (filterStaff s) (serviceTypeSelect s) (filterService s)
    (taskForm s) (serviceForm s) (editReason s) (filterInputs s) (customDate s)
    (documentOrder s) (toasts s).
Definition with_myTasksContainer (v : list TaskCard) (s : Dom) : Dom :=
  Build_Dom (hidden s) (shown s) (text s) (taskTableBody s) (recentTasksTable s)
    (overdueTasksTable s) (winnersCards s) (staffPerformanceCards s)
    (staffAlertsContainer s) (allTasksContainer s) v (extraTasksContainer s)
    (serviceListContainer s) (staffListContainer s) (staffListModal s)
    (assignedToSelect s) (filterStaff s) (serviceTypeSelect s) (filterService s)
    (taskForm s) (serviceForm s) (editReason s) (filterInputs s) (customDate s)
    (documentOrder s) (toasts s).
Definition with_extraTasksContainer (v : list TaskCard) (s : Dom) : Dom :=
  Build_Dom (hidden s) (shown s) (text s) (taskTableBody s) (recentTasksTable s)
    (overdueTasksTable s) (winnersCards s) (staffPerformanceCards s)
    (staffAlertsContainer s) (allTasksContainer s) (myTasksContainer s) v
    (serviceListContainer s) (staffListContainer s) (staffListModal s)
    (assignedToSelect s) (filterStaff s) (serviceTypeSelect s) (filterService s)
    (taskForm s) (serviceForm s) (editReason s) (filterInputs s) (customDate s)
    (documentOrder s) (toasts s).
Definition with_serviceListContainer (v : list ServiceItem) (s : Dom) : Dom :=
  Build_Dom (hidden s) (shown s) (text s) (taskTableBody s) (recentTasksTable s)
    (overdueTasksTable s) (winnersCards s) (staffPerformanceCards s)
    (staffAlertsContainer s) (allTasksContainer s) (myTasksContainer s)
    (extraTasksContainer s) v (staffListContainer s) (staffListModal s)
    (assignedToSelect s) (filterStaff s) (serviceTypeSelect s) (filterService s)
    (taskForm s) (serviceForm s) (editReason s) (filterInputs s) (customDate s)
    (documentOrder s) (toasts s).
Definition with_staffListContainer (v : list StaffCard) (s : Dom) : Dom :=
  Build_Dom (hidden s) (shown s) (text s) (taskTableBody s) (recentTasksTable s)
    (overdueTasksTable s) (winnersCards s) (staffPerformanceCards s)
    (staffAlertsContainer s) (allTasksContainer s) (myTasksContainer s)
    (extraTasksContainer s) (serviceListContainer s) v (staffListModal s)
    (assignedToSelect s) (filterStaff s) (serviceTypeSelect s) (filterService s)
    (taskForm s) (serviceForm s) (editReason s) (filterInputs s) (customDate s)
    (documentOrder s) (toasts s).
Definition with_staffListModal (v : list StaffItem) (s : Dom) : Dom :=
  Build_Dom (hidden s) (shown s) (text s) (taskTableBody s) (recentTasksTable s)
    (overdueTasksTable s) (winnersCards s) (staffPerformanceCards s)
    (staffAlertsContainer s) (allTasksContainer s) (myTasksContainer s)
    (extraTasksContainer s) (serviceListContainer s) (staffListContainer s) v
    (assignedToSelect s) (filterStaff s) (serviceTypeSelect s) (filterService s)
    (taskForm s) (serviceForm s) (editReason s) (filterInputs s) (customDate s)
    (documentOrder s) (toasts s).
Definition with_assignedToSelect (v : list string) (s : Dom) : Dom :=
  Build_Dom (hidden s) (shown s) (text s) (taskTableBody s) (recentTasksTable s)
    (overdueTasksTable s) (winnersCards s) (staffPerformanceCards s)
    (staffAlertsContainer s) (allTasksContainer s) (myTasksContainer s)
    (extraTasksContainer s) (serviceListContainer s) (staffListContainer s)
    (staffListModal s) v (filterStaff s) (serviceTypeSelect s) (filterService s)
    (taskForm s) (serviceForm s) (editReason s) (filterInputs s) (customDate s)
    (documentOrder s) (toasts s).
Definition with_filterStaff (v : list string) (s : Dom) : Dom :=
  Build_Dom (hidden s) (shown s) (text s) (taskTableBody s) (recentTasksTable s)
    (overdueTasksTable s) (winnersCards s) (staffPerformanceCards s)
    (staffAlertsContainer s) (allTasksContainer s) (myTasksContainer s)
    (extraTasksContainer s) (serviceListContainer s) (staffListContainer s)
    (staffListModal s) (assignedToSelect s) v (serviceTypeSelect s) (filterService s)
    (taskForm s) (serviceForm s) (editReason s) (filterInputs s) (customDate s)
    (documentOrder s) (toasts s).
Definition with_serviceTypeSelect (v : list ServiceOption) (s : Dom) : Dom :=
  Build_Dom (hidden s) (shown s) (text s) (taskTableBody s) (recentTasksTable s)
    (overdueTasksTable s) (winnersCards s) (staffPerformanceCards s)
    (staffAlertsContainer s) (allTasksContainer s) (myTasksContainer s)
    (extraTasksContainer s) (serviceListContainer s) (staffListContainer s)
    (staffListModal s) (assignedToSelect s) (filterStaff s) v (filterService s)
    (taskForm s) (serviceForm s) (editReason s) (filterInputs s) (customDate s)
    (documentOrder s) (toasts s).
Definition with_filterService (v : list string) (s : Dom) : Dom :=
  Build_Dom (hidden s) (shown s) (text s) (taskTableBody s) (recentTasksTable s)
    (overdueTasksTable s) (winnersCards s) (staffPerformanceCards s)
    (staffAlertsContainer s) (allTasksContainer s) (myTasksContainer s)
    (extraTasksContainer s) (serviceListContainer s) (staffListContainer s)
    (staffListModal s) (assignedToSelect s) (filterStaff s) (serviceTypeSelect s) v
    (taskForm s) (serviceForm s) (editReason s) (filterInputs s) (customDate s)
    (documentOrder s) (toasts s).
Definition with_taskForm (v : TaskData) (s : Dom) : Dom :=
  Build_Dom (hidden s) (shown s) (text s) (taskTableBody s) (recentTasksTable s)
    (overdueTasksTable s) (winnersCards s) (staffPerformanceCards s)
    (staffAlertsContainer s) (allTasksContainer s) (myTasksContainer s)
    (extraTasksContainer s) (serviceListContainer s) (staffListContainer s)
    (staffListModal s) (assignedToSelect s) (filterStaff s) (serviceTypeSelect s)
    (filterService s) v (serviceForm s) (editReason s) (filterInputs s) (customDate s)
    (documentOrder s) (toasts s).
Definition with_serviceForm (v : ServiceData) (s : Dom) : Dom :=
  Build_Dom (hidden s) (shown s) (text s) (taskTableBody s) (recentTasksTable s)
    (overdueTasksTable s) (winnersCards s) (staffPerformanceCards s)
    (staffAlertsContainer s) (allTasksContainer s) (myTasksContainer s)
    (extraTasksContainer s) (serviceListContainer s) (staffListContainer s)
    (staffListModal s) (assignedToSelect s) (filterStaff s) (serviceTypeSelect s)
    (filterService s) (taskForm s) v (editReason s) (filterInputs s) (customDate s)
    (documentOrder s) (toasts s).
Definition with_editReason (v : string) (s : Dom) : Dom :=
  Build_Dom (hidden s) (shown s) (text s) (taskTableBody s) (recentTasksTable s)
    (overdueTasksTable s) (winnersCards s) (staffPerformanceCards s)
    (staffAlertsContainer s) (allTasksContainer s) (myTasksContainer s)
    (extraTasksContainer s) (serviceListContainer s) (staffListContainer s)
    (staffListModal s) (assignedToSelect s) (filterStaff s) (serviceTypeSelect s)
    (filterService s) (taskForm s) (serviceForm s) v (filterInputs s) (customDate s)
    (documentOrder s) (toasts s).
Definition with_filterInputs (v : Filters) (s : Dom) : Dom :=
  Build_Dom (hidden s) (shown s) (text s) (taskTableBody s) (recentTasksTable s)
    (overdueTasksTable s) (winnersCards s) (staffPerformanceCards s)
    (staffAlertsContainer s) (allTasksContainer s) (myTasksContainer s)
    (extraTasksContainer s) (serviceListContainer s) (staffListContainer s)
    (staffListModal s) (assignedToSelect s) (filterStaff s) (serviceTypeSelect s)
    (filterService s) (taskForm s) (serviceForm s) (editReason s) v (customDate s)
    (documentOrder s) (toasts s).
Definition with_customDate (v : option CustomDay) (s : Dom) : Dom :=
  Build_Dom (hidden s) (shown s) (text s) (taskTableBody s) (recentTasksTable s)
    (overdueTasksTable s) (winnersCards s) (staffPerformanceCards s)
    (staffAlertsContainer s) (allTasksContainer s) (myTasksContainer s)
    (extraTasksContainer s) (serviceListContainer s) (staffListContainer s)
    (staffListModal s) (assignedToSelect s) (filterStaff s) (serviceTypeSelect s)
    (filterService s) (taskForm s) (serviceForm s) (editReason s) (filterInputs s) v
    (documentOrder s) (toasts s).
Definition with_documentOrder (v : list Container) (s : Dom) : Dom :=
  Build_Dom (hidden s) (shown s) (text s) (taskTableBody s) (recentTasksTable s)
    (overdueTasksTable s) (winnersCards s) (staffPerformanceCards s)
    (staffAlertsContainer s) (allTasksContainer s) (myTasksContainer s)
    (extraTasksContainer s) (serviceListContainer s) (staffListContainer s)
    (staffListModal s) (assignedToSelect s) (filterStaff s) (serviceTypeSelect s)
    (filterService s) (taskForm s) (serviceForm s) (editReason s) (filterInputs s)
    (customDate s) v (toasts s).
Definition with_toasts (v : list Toast) (s : Dom) : Dom :=
  Build_Dom (hidden s) (shown s) (text s) (taskTableBody s) (recentTasksTable s)
    (overdueTasksTable s) (winnersCards s) (staffPerformanceCards s)
    (staffAlertsContainer s) (allTasksContainer s) (myTasksContainer s)
    (extraTasksContainer s) (serviceListContainer s) (staffListContainer s)
    (staffListModal s) (assignedToSelect s) (filterStaff s) (serviceTypeSelect s)
    (filterService s) (taskForm s) (serviceForm s) (editReason s) (filterInputs s)
    (customDate s) (documentOrder s) v.

Definition with_tasks (v : list Task.t) (s : App) : App :=
  Build_App v (serviceDatabase s) (STAFF_LIST s) (currentUser s) (currentPage s)
    (editingTaskId s) (currentEditReason s) (sharingTaskId s) (editingServiceId s)
    (currentFilters s) (dom s) (sent s) (sessionStorage s).
Definition with_serviceDatabase (v : list Service.t) (s : App) : App :=
  Build_App (tasks s) v (STAFF_LIST s) (currentUser s) (currentPage s) (editingTaskId
    s) (currentEditReason s) (sharingTaskId s) (editingServiceId s) (currentFilters s)
    (dom s) (sent s) (sessionStorage s).
Definition with_STAFF_LIST (v : list Staff.t) (s : App) : App :=
  Build_App (tasks s) (serviceDatabase s) v (currentUser s) (currentPage s)
    (editingTaskId s) (currentEditReason s) (sharingTaskId s) (editingServiceId s)
    (currentFilters s) (dom s) (sent s) (sessionStorage s).
Definition with_currentUser (v : option User.t) (s : App) : App :=
  Build_App (tasks s) (serviceDatabase s) (STAFF_LIST s) v (currentPage s)
    (editingTaskId s) (currentEditReason s) (sharingTaskId s) (editingServiceId s)
    (currentFilters s) (dom s) (sent s) (sessionStorage s).
Definition with_currentPage (v : string) (s : App) : App :=
  Build_App (tasks s) (serviceDatabase s) (STAFF_LIST s) (currentUser s) v
    (editingTaskId s) (currentEditReason s) (sharingTaskId s) (editingServiceId s)
    (currentFilters s) (dom s) (sent s) (sessionStorage s).
Definition with_editingTaskId (v : option Z) (s : App) : App :=
  Build_App (tasks s) (serviceDatabase s) (STAFF_LIST s) (currentUser s) (currentPage
    s) v (currentEditReason s) (sharingTaskId s) (editingServiceId s) (currentFilters
    s) (dom s) (sent s) (sessionStorage s).
Definition with_currentEditReason (v : string) (s : App) : App :=
  Build_App (tasks s) (serviceDatabase s) (STAFF_LIST s) (currentUser s) (currentPage
    s) (editingTaskId s) v (sharingTaskId s) (editingServiceId s) (currentFilters s)
    (dom s) (sent s) (sessionStorage s).
Definition with_sharingTaskId (v : option Z) (s : App) : App :=
  Build_App (tasks s) (serviceDatabase s) (STAFF_LIST s) (currentUser s) (currentPage
    s) (editingTaskId s) (currentEditReason s) v (editingServiceId s) (currentFilters
    s) (dom s) (sent s) (sessionStorage s).
Definition with_editingServiceId (v : option Z) (s : App) : App :=
  Build_App (tasks s) (serviceDatabase s) (STAFF_LIST s) (currentUser s) (currentPage
    s) (editingTaskId s) (currentEditReason s) (sharingTaskId s) v (currentFilters s)
    (dom s) (sent s) (sessionStorage s).
Definition with_currentFilters (v : Filters) (s : App) : App :=
  Build_App (tasks s) (serviceDatabase s) (STAFF_LIST s) (currentUser s) (currentPage
    s) (editingTaskId s) (currentEditReason s) (sharingTaskId s) (editingServiceId s) v
    (dom s) (sent s) (sessionStorage s).
Definition with_dom (v : Dom) (s : App) : App :=
  Build_App (tasks s) (serviceDatabase s) (STAFF_LIST s) (currentUser s) (currentPage
    s) (editingTaskId s) (currentEditReason s) (sharingTaskId s) (editingServiceId s)
    (currentFilters s) v (sent s) (sessionStorage s).
Definition with_sent (v : list Request) (s : App) : App :=
  Build_App (tasks s) (serviceDatabase s) (STAFF_LIST s) (currentUser s) (currentPage
    s) (editingTaskId s) (currentEditReason s) (sharingTaskId s) (editingServiceId s)
    (currentFilters s) (dom s) v (sessionStorage s).
Definition with_sessionStorage (v : option User.t) (s : App) : App :=
  Build_App (tasks s) (serviceDatabase s) (STAFF_LIST s) (currentUser s) (currentPage
    s) (editingTaskId s) (currentEditReason s) (sharingTaskId s) (editingServiceId s)
    (currentFilters s) (dom s) (sent s) v.

(** ** Strings *)

(** A string is the sequence of its UTF-16 code units, and a code unit is an
    [ascii]: the strings of the model are the strings whose code units are
    below U+0100 (Basic Latin and Latin-1 Supplement), each code unit being
    the code point of the same number. *)

(** [toLowerCase] on one code unit.  The upper-case letters below U+0100 are
    U+0041 to U+005A (A to Z), U+00C0 to U+00D6 (A with grave to O with
    diaeresis) and U+00D8 to U+00DE (O with stroke to thorn); the lower-case
    form of each is 32 further.  U+00D7, the multiplication sign, is no
    letter, and every other code unit is left as it is. *)
Definition lowerAscii (c : ascii) : ascii :=
  let n := nat_of_ascii c in
  if orb (andb (Nat.leb 65 n) (Nat.leb n 90))
         (orb (andb (Nat.leb 192 n) (Nat.leb n 214))
              (andb (Nat.leb 216 n) (Nat.leb n 222)))
  then ascii_of_nat (n + 32) else c.

(** [toUpperCase] on one code unit.  The lower-case letters below U+0100
    whose upper-case form is 32 before them are U+0061 to U+007A, U+00E0 to
    U+00F6 and U+00F8 to U+00FE; the sharp s, U+00DF, becomes SS.  The
    upper-case forms of U+00B5 and U+00FF are U+039C and U+0178, which no
    string of the model holds: the model leaves these two as they are. *)
Definition upperAscii (c : ascii) : string :=
  let n := nat_of_ascii c in
  if Nat.eqb n 223 then "SS"%string
  else if orb (andb (Nat.leb 97 n) (Nat.leb n 122))
              (orb (andb (Nat.leb 224 n) (Nat.leb n 246))
                   (andb (Nat.leb 248 n) (Nat.leb n 254)))
  then String (ascii_of_nat (n - 32)) EmptyString
  else String c EmptyString.

Fixpoint toLowerCase (s : string) : string :=
  match s with
  | EmptyString => EmptyString
  | String c s' => String (lowerAscii c) (toLowerCase s')
  end.

(** [s.charAt(0).toUpperCase() + s.slice(1)] *)
Definition capitalize (s : string) : string :=
  match s with
  | EmptyString => EmptyString
  | String c s' => append (upperAscii c) s'
  end.

(** What [trim] strips is the white space and the line terminators of the
    language.  Below U+0100 these are tab (U+0009), line feed (U+000A),
    vertical tab (U+000B), form feed (U+000C), carriage return (U+000D),
    space (U+0020) and no-break space (U+00A0). *)
Definition isWhiteSpace (c : ascii) : bool :=
  let n := nat_of_ascii c in
  orb (andb (Nat.leb 9 n) (Nat.leb n 13)) (orb (Nat.eqb n 32) (Nat.eqb n 160)).

Fixpoint trimStart (s : string) : string :=
  match s with
  | EmptyString => EmptyString
  | String c s' => if isWhiteSpace c then trimStart s' else s
  end.

Fixpoint trimEnd (s : string) : string :=
  match s with
  | EmptyString => EmptyString
  | String c s' =>
      match trimEnd s' with
      | EmptyString => if isWhiteSpace c then EmptyString else String c EmptyString
      | rest => String c rest
      end
  end.

Definition trim (s : string) : string := trimEnd (trimStart s).

(** Strict equality of two strings. *)
Notation "a === b" := (String.eqb a b) (at level 70, no associativity).

Definition includes (x : string) (l : list string) : bool :=
  existsb (fun y => y === x) l.

(** ** Arrays *)

Fixpoint findIndex {A} (p : A -> bool) (l : list A) : option nat :=
  match l with
  | [] => None
  | x :: l' =>
      if p x then Some O
      else match findIndex p l' with Some i => Some (S i) | None => None end
  end.

(** [l[i] = f(l[i])] for an index inside the array. *)
Fixpoint updateAt {A} (i : nat) (f : A -> A) (l : list A) : list A :=
  match l, i with
  | [], _ => []
  | x :: l', O => f x :: l'
  | x :: l', S i' => x :: updateAt i' f l'
  end.

(** [Array.prototype.sort] with a comparator is a stable sort: [a] stays before
    [b] unless [cmp a b > 0].  For a consistent comparator every stable sort
    returns the array this insertion sort returns. *)
Fixpoint insertSorted {A} (cmp : A -> A -> Z) (x : A) (l : list A) : list A :=
  match l with
  | [] => [x]
  | y :: l' => if cmp x y <=? 0 then x :: l else y :: insertSorted cmp x l'
  end.

Definition sort {A} (cmp : A -> A -> Z) (l : list A) : list A :=
  fold_right (insertSorted cmp) [] l.

(** [Array.from(new Set(l))]: the first occurrence of every value, in order. *)
Fixpoint unique (seen l : list string) : list string :=
  match l with
  | [] => []
  | x :: l' => if includes x seen then unique seen l' else x :: unique (x :: seen) l'
  end.

(** ** The monad: state [App], exceptions with their message *)

Inductive Outcome (A : Type) :=
| Returned (a : A)
| Thrown (message : string).
Arguments Thrown {A} message.

Definition M (A : Type) : Type := App -> Outcome A * App.

Definition ret {A} (a : A) : M A := fun s => (Returned a, s).

Definition bind {A B} (m : M A) (k : A -> M B) : M B :=
  fun s =>
    match m s with
    | (Returned a, s') => k a s'
    | (Thrown e, s') => (Thrown e, s')
    end.

Definition throw {A} (message : string) : M A := fun s => (Thrown message, s).

(** [try { m } catch (err) { h err.message }], also [promise.catch]. *)
Definition tryCatch {A} (m : M A) (h : string -> M A) : M A :=
  fun s =>
    match m s with
    | (Returned a, s') => (Returned a, s')
    | (Thrown e, s') => h e s'
    end.

Definition gets {A} (f : App -> A) : M A := fun s => (Returned (f s), s).

Definition modify (f : App -> App) : M unit := fun s => (Returned tt, f s).

Notation "x <- m ;; k" := (bind m (fun x => k))
  (at level 61, m at next level, right associativity).
Notation "m ;; k" := (bind m (fun _ => k))
  (at level 61, right associativity).

(** The state a computation leaves, whether it returned or threw. *)
Definition exec {A} (m : M A) (s : App) : App := snd (m s).

Fixpoint forEach {A} (l : list A) (f : A -> M unit) : M unit :=
  match l with
  | [] => ret tt
  | x :: l' => f x ;; forEach l' f
  end.

Definition when (b : bool) (m : M unit) : M unit := if b then m else ret tt.

(** Reading a property of [currentUser] throws when it is [null]. *)
Definition theUser : M User.t :=
  cu <- gets currentUser ;;
  match cu with
  | Some u => ret u
  | None => throw "Cannot read properties of null"
  end.

(** *** Writing the document *)

Definition modifyDom (f : Dom -> Dom) : M unit :=
  modify (fun s => with_dom (f (dom s)) s).

Definition getsDom {A} (f : Dom -> A) : M A := gets (fun s => f (dom s)).

Definition setHidden (e : ElemId) (b : bool) : M unit :=
  modifyDom (fun d =>
    with_hidden (fun x => if ElemId_eq_dec x e then b else hidden d x) d).

(** [e.classList.add('hidden')] and [e.classList.remove('hidden')] *)
Definition hide (e : ElemId) : M unit := setHidden e true.
Definition unhide (e : ElemId) : M unit := setHidden e false.

(** [m.style.display = 'flex'] ([true]) or ['none'] ([false]) *)
Definition setDisplay (m : ModalId) (b : bool) : M unit :=
  modifyDom (fun d =>
    with_shown (fun x => if ModalId_eq_dec x m then b else shown d x) d).

Definition setText (t : TextId) (c : Content) : M unit :=
  modifyDom (fun d =>
    with_text (fun x => if TextId_eq_dec x t then Some c else text d x) d).

Definition showToast (message : string) (type : ToastType) : M unit :=
  modifyDom (fun d =>
    with_toasts (toasts d ++ [{| toastMessage := message; toastType := type |}]) d).

(** *** Calling the backend *)

(** The part of [apiFetch] that runs at once: [fetch] is called with the
    given method, URL and body. *)
Definition apiFetch (m : Method) (u : Endpoint) (b : Body) : M unit :=
  modify (fun s => with_sent (sent s ++ [{| method := m; url := u; body := b |}]) s).

Definition showLogin : M unit :=
  unhide loginPage ;;
  hide navigation ;;
  hide dashboardPage ;;
  hide tasksPage ;;
  hide staffPage ;;
  hide reportsPage ;;
  hide databasePage ;;
  hide staffPanelPage.

Definition handleLogout : M unit :=
  apiFetch POST api_logout NoBody ;;
  modify (with_currentUser None) ;;
  modify (with_sessionStorage None) ;;
  showLogin ;;
  showToast "You have been logged out." ToastWarning.

(** The rest of [apiFetch], run when the response arrives: a 401 logs the
    user out and throws; any other failure throws its message. *)
Definition settle {A} (r : Response A) : M A :=
  match r with
  | Ok data => ret data
  | Unauthorized =>
      showToast "Session expired. Please log in again." ToastWarning ;;
      handleLogout ;;
      throw "Unauthorized"
  | Failed message => throw message
  end.

(** The [.catch(() => {})] on the logout request. *)
Definition handleLogout_settled (r : Response unit) : M unit :=
  tryCatch (settle r) (fun _ => ret tt).

(** ** Tasks from and to the backend *)

Definition mapBackendTaskToUI (t : BackendTask.t) : Task.t :=
  {| Task.id := BackendTask.id t;
     Task.orderNo := BackendTask.order_no t;
     Task.customerName := BackendTask.customer_name t;
     Task.contactNumber := BackendTask.contact_number t;
     Task.serviceType := BackendTask.service_type t;
     Task.status := BackendTask.status t;
     Task.assignedTo := BackendTask.assigned_to t;
     Task.branch := BackendTask.branch_code t;
     Task.paymode := BackendTask.paymode t;
     Task.servicePrice := BackendTask.service_price t;
     Task.paidAmount := BackendTask.paid_amount t;
     Task.serviceCharge := BackendTask.service_charge t;
     Task.description := BackendTask.description t;
     Task.edited := BackendTask.edited t;
     Task.editReason := BackendTask.edit_reason t;
     Task.sharedWith :=
       match BackendTask.shared_with t with Some l => l | None => [] end;
     Task.date := BackendTask.task_date t;
     Task.timestamp := BackendTask.created_at t;
     Task.takenOverBy := None |}.

Definition mapUIToBackendTask (d : TaskData) : TaskPayload :=
  {| p_customer_name := customerName d;
     p_contact_number := contactNumber d;
     p_service_type := serviceType d;
     p_assigned_to := assignedTo d;
     p_branch_code := if branchCode d === "" then None else Some (branchCode d);
     p_paymode := paymode d;
     p_service_price := servicePrice d;
     p_paid_amount := paidAmount d;
     p_service_charge := serviceCharge d;
     p_description := description d |}.

(** ** The staff panel *)

(** [o === s] for a field that is [null] or a string. *)
Definition isString (o : option string) (s : string) : bool :=
  match o with Some x => x === s | None => false end.

Definition isNull {A} (o : option A) : bool :=
  match o with Some _ => false | None => true end.

Definition statusOptions : list string :=
  ["Received"; "Pending"; "In Progress"; "Completed"; "Hold"; "Cancelled"].

(** The value a status select shows once built: the option marked [selected],
    or the first option when the status matches none. *)
Definition selectedStatus (status : string) : string :=
  if includes status statusOptions then status else "Received".

(** The card [createTaskCard] builds for the user [u]. *)
Definition taskCardFor (u : User.t) (task : Task.t) (type : string) : TaskCard :=
  let isMyTask :=
    orb (Task.assignedTo task === User.username u)
        (isString (Task.takenOverBy task) (User.username u)) in
  let isTakenOver := isString (Task.takenOverBy task) (User.username u) in
  let canTakeOver := andb (negb isMyTask) (isNull (Task.takenOverBy task)) in
  {| cardTask := task;
     cardType := type;
     takenOverBadge := isTakenOver;
     cardControls :=
       (if canTakeOver
        then [Button "takeover-btn" data_task_id (Task.id task)] else [])
       ++ (if isMyTask
           then [Button "edit-btn" data_task_id (Task.id task);
                 StatusSelect data_task_id (Task.id task)
                              (selectedStatus (Task.status task))]
           else []) |}.

Definition createTaskCard (task : Task.t) (type : string) : M TaskCard :=
  u <- theUser ;;
  ret (taskCardFor u task type).

Definition populateAllTasks : M unit :=
  modifyDom (with_allTasksContainer []) ;;
  ts <- gets tasks ;;
  forEach ts (fun task =>
    taskCard <- createTaskCard task "all" ;;
    modifyDom (fun d => with_allTasksContainer (allTasksContainer d ++ [taskCard]) d)).

Definition populateMyTasks : M unit :=
  modifyDom (with_myTasksContainer []) ;;
  ts <- gets tasks ;;
  u <- theUser ;;
  let myTasks :=
    filter (fun task => orb (Task.assignedTo task === User.username u)
                            (isString (Task.takenOverBy task) (User.username u))) ts in
  forEach myTasks (fun task =>
    taskCard <- createTaskCard task "my" ;;
    modifyDom (fun d => with_myTasksContainer (myTasksContainer d ++ [taskCard]) d)).

(** When nothing was taken over the container gets a paragraph saying so,
    which is no card. *)
Definition populateExtraTasks : M unit :=
  modifyDom (with_extraTasksContainer []) ;;
  ts <- gets tasks ;;
  u <- theUser ;;
  let extraTasks :=
    filter (fun task => isString (Task.takenOverBy task) (User.username u)) ts in
  forEach extraTasks (fun task =>
    taskCard <- createTaskCard task "extra" ;;
    modifyDom (fun d =>
      with_extraTasksContainer (extraTasksContainer d ++ [taskCard]) d)).

Definition isStaff (cu : option User.t) : bool :=
  match cu with Some u => User.role u === "staff" | None => false end.

Definition updateStaffPanel : M unit :=
  cu <- gets currentUser ;;
  match cu with
  | None => ret tt
  | Some u =>
      if negb (User.role u === "staff") then ret tt
      else
        setText currentStaffName (Str (User.username u)) ;;
        ts <- gets tasks ;;
        let totalTasks := List.length ts in
        let pendingTasks :=
          List.length (filter (fun task => Task.status task === "Pending") ts) in
        let myTasks :=
          List.length (filter (fun task =>
            orb (Task.assignedTo task === User.username u)
                (isString (Task.takenOverBy task) (User.username u))) ts) in
        let extraTasks :=
          List.length (filter (fun task =>
            isString (Task.takenOverBy task) (User.username u)) ts) in
        setText staffTotalTasks (Num (Z.of_nat totalTasks)) ;;
        setText staffPendingTasks (Num (Z.of_nat pendingTasks)) ;;
        setText staffMyTasks (Num (Z.of_nat myTasks)) ;;
        setText staffExtraTasks (Num (Z.of_nat extraTasks)) ;;
        populateAllTasks ;;
        populateMyTasks ;;
        populateExtraTasks
  end.

Definition takeOverTask (taskId : Z) : M unit :=
  ts <- gets tasks ;;
  match findIndex (fun t => Task.id t =? taskId) ts with
  | None => ret tt
  | Some taskIndex =>
      u <- theUser ;;
      modify (fun s => with_tasks
        (updateAt taskIndex (Task.with_takenOverBy (Some (User.username u))) (tasks s)) s) ;;
      modify (fun s => with_tasks
        (updateAt taskIndex (Task.with_edited true) (tasks s)) s) ;;
      modify (fun s => with_tasks
        (updateAt taskIndex
           (Task.with_editReason
              (Some ("Task taken over by " ++ User.username u)%string))
           (tasks s)) s) ;;
      updateStaffPanel ;;
      showToast "Task taken over successfully!" ToastSuccess
  end.

(** ** The task table *)

(** The actions cell [createTaskRow] builds for the user [u]: by role, and
    for the remaining roles by whether the user may edit the task. *)
Definition actionControls (u : User.t) (task : Task.t) : list Control :=
  let id := Task.id task in
  let select := StatusSelect data_id id (selectedStatus (Task.status task)) in
  if User.role u === "admin" then
    [Button "edit-btn" data_id id; Button "delete-btn" data_id id;
     Button "share-task-btn" data_id id]
  else if User.role u === "manager" then
    [Button "edit-btn" data_id id; Button "share-task-btn" data_id id]
  else
    let canEdit :=
      orb (Task.assignedTo task === User.username u)
          (includes (User.username u) (Task.sharedWith task)) in
    if canEdit then
      [Button "edit-btn" data_id id; Button "share-task-btn" data_id id; select]
    else
      [select; Button "share-task-btn" data_id id].

Definition createTaskRow (task : Task.t) (includeActions : bool) : M Row :=
  if includeActions then
    u <- theUser ;;
    ret {| rowTask := task; editIndicator := Task.edited task;
           actionsCell := Some (actionControls u task) |}
  else
    ret {| rowTask := task; editIndicator := Task.edited task;
           actionsCell := None |}.

Definition filterTasksByDate (clk : Clock) (customDateValue : option CustomDay)
    (tasks : list Task.t) (dateFilter : string) : list Task.t :=
  if dateFilter === "today" then
    filter (fun task =>
      let taskDate := Task.timestamp task in
      andb (today clk <=? taskDate) (taskDate <? tomorrow clk)) tasks
  else if dateFilter === "yesterday" then
    filter (fun task =>
      let taskDate := Task.timestamp task in
      andb (yesterday clk <=? taskDate) (taskDate <? today clk)) tasks
  else if dateFilter === "tomorrow" then
    filter (fun task =>
      let taskDate := Task.timestamp task in
      andb (tomorrow clk <=? taskDate)
           (taskDate <? tomorrow clk + 24 * 60 * 60 * 1000)) tasks
  else if dateFilter === "custom" then
    match customDateValue with
    | Some c =>
        filter (fun task =>
          let taskDate := Task.timestamp task in
          andb (custom c <=? taskDate) (taskDate <? nextDay c)) tasks
    | None => tasks
    end
  else tasks.

(** [(now - taskTime) / (1000 * 60 * 60)], a quotient of two whole numbers of
    milliseconds. *)
Definition hoursDiff (clk : Clock) (task : Task.t) : Q :=
  (inject_Z (now clk - Task.timestamp task) / inject_Z (1000 * 60 * 60))%Q.

(** The callback of the two [filter] calls that pick the overdue tasks, in
    [renderTasks] and in [updateStaffAlerts]. *)
Definition isOverdue (clk : Clock) (task : Task.t) : bool :=
  andb (orb (orb (Task.status task === "Pending") (Task.status task === "In Progress"))
            (Task.status task === "Hold"))
       (negb (Qle_bool (hoursDiff clk task) (inject_Z 24))).

(** The comparator [(a, b) => new Date(b.timestamp) - new Date(a.timestamp)]. *)
Definition newestFirst (a b : Task.t) : Z := Task.timestamp b - Task.timestamp a.

(** The chain of filters at the head of [renderTasks]. *)
Definition filteredTasks (clk : Clock) (customDateValue : option CustomDay)
    (currentFilters : Filters) (tasks : list Task.t) : list Task.t :=
  let filteredTasks := tasks in
  let filteredTasks :=
    if negb (fDate currentFilters === "all")
    then filterTasksByDate clk customDateValue filteredTasks (fDate currentFilters)
    else filteredTasks in
  let filteredTasks :=
    if negb (fBranch currentFilters === "all")
    then filter (fun task => Task.branch task === fBranch currentFilters) filteredTasks
    else filteredTasks in
  let filteredTasks :=
    if negb (fStaff currentFilters === "all")
    then filter (fun task => Task.assignedTo task === fStaff currentFilters) filteredTasks
    else filteredTasks in
  let filteredTasks :=
    if negb (fStatus currentFilters === "all")
    then filter (fun task => Task.status task === fStatus currentFilters) filteredTasks
    else filteredTasks in
  if negb (fService currentFilters === "all")
  then filter (fun task => Task.serviceType task === fService currentFilters) filteredTasks
  else filteredTasks.

Definition renderTasks (clk : Clock) : M unit :=
  modifyDom (with_taskTableBody []) ;;
  modifyDom (with_recentTasksTable []) ;;
  modifyDom (with_overdueTasksTable []) ;;
  ts <- gets tasks ;;
  cf <- gets currentFilters ;;
  cd <- getsDom customDate ;;
  let sortedTasks := sort newestFirst (filteredTasks clk cd cf ts) in
  let recentTasks := firstn 10 sortedTasks in
  forEach recentTasks (fun task =>
    row <- createTaskRow task false ;;
    modifyDom (fun d => with_recentTasksTable (recentTasksTable d ++ [row]) d)) ;;
  let overdueTasks := filter (isOverdue clk) sortedTasks in
  (if (0 <? List.length overdueTasks)%nat then
     unhide overdueTasksContainer ;;
     forEach overdueTasks (fun task =>
       let hours := (now clk - Task.timestamp task) / (1000 * 60 * 60) in
       modifyDom (fun d =>
         with_overdueTasksTable (overdueTasksTable d ++ [OverdueOfTask task hours]) d))
   else hide overdueTasksContainer) ;;
  forEach sortedTasks (fun task =>
    row <- createTaskRow task true ;;
    modifyDom (fun d => with_taskTableBody (taskTableBody d ++ [row]) d)).

(** ** The dashboard *)

Definition updateOverdueTasks : M unit :=
  modifyDom (with_overdueTasksTable []) ;;
  apiFetch GET api_dashboard_overdue_tasks NoBody.

(** The response is [None] when it is not an array. *)
Definition updateOverdueTasks_settled (r : Response (option (list OverdueInfo)))
    : M unit :=
  tryCatch
    (list <- settle r ;;
     match list with
     | Some (task :: rest) =>
         unhide overdueTasksContainer ;;
         forEach (task :: rest) (fun task =>
           modifyDom (fun d =>
             with_overdueTasksTable (overdueTasksTable d ++ [OverdueOfBackend task]) d))
     | _ => hide overdueTasksContainer
     end)
    (fun _ => hide overdueTasksContainer).

Definition updateWinners : M unit :=
  modifyDom (with_winnersCards []) ;;
  apiFetch GET api_dashboard_top_performers NoBody.

Definition orZero (o : option Z) : Z :=
  match o with Some v => v | None => 0 end.

(** The callbacks of [updateWinners], then the next link of the chain in
    [updateDashboard], which calls [updateOverdueTasks]. *)
Definition updateWinners_settled (r : Response (option (list Winner))) : M unit :=
  tryCatch
    (top <- settle r ;;
     match top with
     | Some (w :: rest) =>
         unhide winnersContainer ;;
         forEach (combine (seq 0 (List.length (w :: rest))) (w :: rest))
           (fun '(index, winner) =>
              u <- theUser ;;
              let card :=
                {| wc_place := index;
                   wc_name := w_name winner;
                   wc_completed := w_completed_tasks winner;
                   wc_revenue :=
                     if User.role u === "admin"
                     then Some (Rupees (orZero (w_total_revenue winner)))
                     else None;
                   wc_score := w_score winner |} in
              modifyDom (fun d => with_winnersCards (winnersCards d ++ [card]) d))
     | _ => hide winnersContainer
     end)
    (fun _ => hide winnersContainer) ;;
  updateOverdueTasks.

Definition updateDashboard : M unit :=
  apiFetch GET api_dashboard_stats NoBody.

Definition updateDashboard_settled (r : Response Stats) : M unit :=
  tryCatch
    (stats <- settle r ;;
     setText totalTasks (Num (total_tasks stats)) ;;
     setText tasksToday (Num (tasks_today stats)) ;;
     setText completedTasks (Num (completed_tasks stats)) ;;
     u <- theUser ;;
     when (User.role u === "admin")
          (setText totalRevenue (Rupees (orZero (total_revenue stats)))) ;;
     updateWinners)
    (fun _ => ret tt).

(** ** Loading the tasks *)

Definition fetchTasksAndRender : M unit :=
  apiFetch GET api_tasks NoBody.

Definition fetchTasksAndRender_settled (clk : Clock)
    (r : Response (list BackendTask.t)) : M unit :=
  tryCatch
    (data <- settle r ;;
     modify (with_tasks (map mapBackendTaskToUI data)) ;;
     renderTasks clk ;;
     updateDashboard)
    (fun message =>
       showToast ("Failed to load tasks: " ++ message)%string ToastError).

(** ** Status changes *)

(** [tasks[i].field = v] throws when [tasks[i]] is [undefined]. *)
Definition assignTask (i : nat) (f : Task.t -> Task.t) : M unit :=
  ts <- gets tasks ;;
  match nth_error ts i with
  | Some _ => modify (with_tasks (updateAt i f ts))
  | None => throw "Cannot set properties of undefined"
  end.

(** [select.value = v] selects the option with that value, or none. *)
Definition assignedValue (v : string) : string :=
  if includes v statusOptions then v else "".

Fixpoint setFirstSelect (id : Z) (v : string) (cs : list Control)
    : option (list Control) :=
  match cs with
  | [] => None
  | StatusSelect a i old :: cs' =>
      if i =? id then Some (StatusSelect a i (assignedValue v) :: cs')
      else option_map (cons (StatusSelect a i old)) (setFirstSelect id v cs')
  | c :: cs' => option_map (cons c) (setFirstSelect id v cs')
  end.

Fixpoint setFirstSelectInRows (id : Z) (v : string) (rows : list Row)
    : option (list Row) :=
  match rows with
  | [] => None
  | r :: rows' =>
      match option_map (setFirstSelect id v) (actionsCell r) with
      | Some (Some cs) =>
          Some ({| rowTask := rowTask r; editIndicator := editIndicator r;
                   actionsCell := Some cs |} :: rows')
      | _ => option_map (cons r) (setFirstSelectInRows id v rows')
      end
  end.

Fixpoint setFirstSelectInCards (id : Z) (v : string) (cards : list TaskCard)
    : option (list TaskCard) :=
  match cards with
  | [] => None
  | c :: cards' =>
      match setFirstSelect id v (cardControls c) with
      | Some cs =>
          Some ({| cardTask := cardTask c; cardType := cardType c;
                   takenOverBadge := takenOverBadge c; cardControls := cs |}
                :: cards')
      | None => option_map (cons c) (setFirstSelectInCards id v cards')
      end
  end.

(** [document.querySelector('.status-select[data-task-id="id"],
    .status-select[data-id="id"]')] followed by [selectElement.value = v]:
    the first status select of that task in document order gets the value. *)
Fixpoint revertStatusSelect (id : Z) (v : string) (order : list Container)
    (d : Dom) : Dom :=
  match order with
  | [] => d
  | c :: order' =>
      let next := revertStatusSelect id v order' d in
      match c with
      | InTaskTableBody =>
          match setFirstSelectInRows id v (taskTableBody d) with
          | Some rows => with_taskTableBody rows d
          | None => next
          end
      | InAllTasks =>
          match setFirstSelectInCards id v (allTasksContainer d) with
          | Some cards => with_allTasksContainer cards d
          | None => next
          end
      | InMyTasks =>
          match setFirstSelectInCards id v (myTasksContainer d) with
          | Some cards => with_myTasksContainer cards d
          | None => next
          end
      | InExtraTasks =>
          match setFirstSelectInCards id v (extraTasksContainer d) with
          | Some cards => with_extraTasksContainer cards d
          | None => next
          end
      end
  end.

(** The part of [updateTaskStatus] that runs at once.  It returns what the
    promise callbacks keep from it: [taskIndex] and [oldStatus], when the
    request was sent. *)
Definition updateTaskStatus (id : Z) (newStatus : string)
    : M (option (nat * string)) :=
  ts <- gets tasks ;;
  match findIndex (fun t => Task.id t =? id) ts with
  | None => showToast "Task not found" ToastError ;; ret None
  | Some taskIndex =>
      match nth_error ts taskIndex with
      | None => throw "Cannot read properties of undefined"
      | Some t =>
          let oldStatus := Task.status t in
          apiFetch PUT (api_task id) (StatusBody newStatus) ;;
          ret (Some (taskIndex, oldStatus))
      end
  end.

Definition updateTaskStatus_settled (clk : Clock) (id : Z) (newStatus : string)
    (taskIndex : nat) (oldStatus : string) (r : Response unit) : M unit :=
  tryCatch
    (settle r ;;
     assignTask taskIndex (Task.with_status newStatus) ;;
     assignTask taskIndex (Task.with_edited true) ;;
     assignTask taskIndex
       (Task.with_editReason
          (Some ("Status changed from " ++ oldStatus ++ " to " ++ newStatus)%string)) ;;
     ts <- gets tasks ;;
     match nth_error ts taskIndex with
     | None => throw "Cannot read properties of undefined"
     | Some t => setText statusOrderNo (Str (Task.orderNo t))
     end ;;
     setText statusNewStatus (Str newStatus) ;;
     setDisplay statusUpdateModal true ;;
     renderTasks clk ;;
     updateDashboard ;;
     updateStaffPanel ;;
     showToast "Task status updated successfully!" ToastSuccess)
    (fun message =>
       showToast ("Failed to update task status: " ++ message)%string ToastError ;;
       modifyDom (fun d => revertStatusSelect id oldStatus (documentOrder d) d)).

(** ** Lists of staff and services *)

Definition populateStaffDropdown : M unit :=
  modifyDom (with_assignedToSelect []) ;;
  modifyDom (with_filterStaff []) ;;
  apiFetch GET api_users NoBody.

Definition addStaffOption (name : string) : M unit :=
  modifyDom (fun d => with_assignedToSelect (assignedToSelect d ++ [name]) d) ;;
  modifyDom (fun d => with_filterStaff (filterStaff d ++ [name]) d).

Definition populateStaffDropdown_settled (r : Response (list User.t)) : M unit :=
  tryCatch
    (users <- settle r ;;
     modify (with_STAFF_LIST
       (map (fun u => {| Staff.name := User.username u; Staff.role := User.role u;
                         Staff.email := User.email u |}) users)) ;;
     staff <- gets STAFF_LIST ;;
     forEach (filter (fun s => Staff.role s === "staff") staff)
       (fun staff => addStaffOption (Staff.name staff)))
    (fun _ =>
       cu <- gets currentUser ;;
       match cu with
       | Some u => when (User.role u === "staff") (addStaffOption (User.username u))
       | None => ret tt
       end).

Definition populateServiceDropdown : M unit :=
  modifyDom (with_serviceTypeSelect []) ;;
  modifyDom (with_filterService []) ;;
  services <- gets serviceDatabase ;;
  forEach services (fun service =>
    modifyDom (fun d => with_serviceTypeSelect
      (serviceTypeSelect d ++ [{| so_name := Service.name service;
                                  so_serviceId := Service.id service |}]) d) ;;
    modifyDom (fun d => with_filterService
      (filterService d ++ [Service.name service]) d)).

Definition populateFilterDropdowns : M unit := ret tt.

Definition populateStaffList : M unit :=
  modifyDom (with_staffListContainer []) ;;
  apiFetch GET api_users NoBody.

Definition addStaffCard (name role email : string) : M unit :=
  modifyDom (fun d => with_staffListContainer
    (staffListContainer d ++
     [{| sc_name := name; sc_role := capitalize role; sc_email := email |}]) d).

Definition populateStaffList_settled (r : Response (list User.t)) : M unit :=
  tryCatch
    (users <- settle r ;;
     forEach users (fun user =>
       addStaffCard (User.username user) (User.role user) (User.email user)))
    (fun _ =>
       staff <- gets STAFF_LIST ;;
       forEach staff (fun staff =>
         addStaffCard (Staff.name staff) (Staff.role staff) (Staff.email staff))).

(** The [filter] that looks for another service of the same name. *)
Definition duplicates (serviceDatabase : list Service.t) (service : Service.t)
    : list Service.t :=
  filter (fun s =>
    andb (toLowerCase (Service.name s) === toLowerCase (Service.name service))
         (negb (Service.id s =? Service.id service))) serviceDatabase.

Definition populateServiceDatabase : M unit :=
  modifyDom (with_serviceListContainer []) ;;
  services <- gets serviceDatabase ;;
  forEach services (fun service =>
    u <- theUser ;;
    let serviceItem :=
      {| itemService := service;
         itemButtons := negb (User.role u === "staff");
         duplicate := (0 <? List.length (duplicates services service))%nat |} in
    modifyDom (fun d =>
      with_serviceListContainer (serviceListContainer d ++ [serviceItem]) d)).

Definition loadServicesFromBackend : M unit :=
  apiFetch GET api_services NoBody.

Definition loadServicesFromBackend_settled (r : Response (list Service.t)) : M unit :=
  tryCatch
    (data <- settle r ;;
     modify (with_serviceDatabase data) ;;
     populateServiceDatabase ;;
     populateServiceDropdown)
    (fun _ => ret tt).

(** ** The task form *)

(** A form after [reset()]. *)
Definition emptyTaskData : TaskData :=
  {| branchCode := ""; customerName := ""; contactNumber := ""; serviceType := "";
     assignedTo := ""; paymode := ""; servicePrice := 0; paidAmount := 0;
     serviceCharge := 0; description := "" |}.

Definition emptyServiceData : ServiceData :=
  {| sd_name := ""; sd_price := 0; sd_fee := 0; sd_charge := 0;
     sd_link := ""; sd_note := "" |}.

Definition showTaskForm : M unit :=
  unhide taskFormContainer ;;
  setText formTitle (Str "Create New Task") ;;
  modifyDom (with_taskForm emptyTaskData) ;;
  modify (with_editingTaskId None).

Definition hideTaskForm : M unit := hide taskFormContainer.

Definition showServiceForm : M unit :=
  unhide serviceFormContainer ;;
  setText serviceFormTitle (Str "Add New Service") ;;
  modifyDom (with_serviceForm emptyServiceData) ;;
  modify (with_editingServiceId None).

Definition hideServiceForm : M unit := hide serviceFormContainer.

Definition saveTask : M unit :=
  taskData <- getsDom taskForm ;;
  let payload := mapUIToBackendTask taskData in
  id <- gets editingTaskId ;;
  reason <- gets currentEditReason ;;
  match id with
  | None => apiFetch POST api_tasks (TaskBody payload None)
  | Some id => apiFetch PUT (api_task id) (TaskBody payload (Some reason))
  end.

Definition saveTask_settled (r : Response unit) : M unit :=
  tryCatch
    (settle r ;;
     id <- gets editingTaskId ;;
     showToast (if isNull id then "Task created successfully!"
                else "Task updated successfully!") ToastSuccess ;;
     hideTaskForm ;;
     modifyDom (with_editReason "") ;;
     modify (with_currentEditReason "") ;;
     modify (with_editingTaskId None) ;;
     fetchTasksAndRender)
    (fun message => showToast ("Failed to save task: " ++ message)%string ToastError).

Definition handleTaskSubmit : M unit :=
  id <- gets editingTaskId ;;
  match id with
  | Some _ =>
      u <- theUser ;;
      if User.role u === "staff" then setDisplay editReasonModal true
      else saveTask
  | None => saveTask
  end.

Definition saveTaskWithReason : M unit :=
  value <- getsDom editReason ;;
  modify (with_currentEditReason (trim value)) ;;
  reason <- gets currentEditReason ;;
  if reason === "" then
    showToast "Please provide a reason for the change." ToastError
  else
    setDisplay editReasonModal false ;;
    saveTask.

Definition editTask (id : Z) : M unit :=
  ts <- gets tasks ;;
  match find (fun t => Task.id t =? id) ts with
  | None => ret tt
  | Some task =>
      u <- theUser ;;
      if andb (User.role u === "staff")
              (andb (negb (Task.assignedTo task === User.username u))
                    (negb (includes (User.username u) (Task.sharedWith task))))
      then showToast "You can only edit tasks assigned to you or shared with you"
                     ToastError
      else
        modifyDom (with_taskForm
          {| branchCode := Task.branch task;
             customerName := Task.customerName task;
             contactNumber := Task.contactNumber task;
             serviceType := Task.serviceType task;
             assignedTo := Task.assignedTo task;
             paymode := Task.paymode task;
             servicePrice := Task.servicePrice task;
             paidAmount := Task.paidAmount task;
             serviceCharge := Task.serviceCharge task;
             description := Task.description task |}) ;;
        setText formTitle (Str "Edit Task") ;;
        modify (with_editingTaskId (Some id)) ;;
        unhide taskFormContainer
  end.

(** [confirmed] is the answer to the [confirm] dialog. *)
Definition deleteTask (id : Z) (confirmed : bool) : M unit :=
  when confirmed (apiFetch DELETE (api_task id) NoBody).

Definition deleteTask_settled (clk : Clock) (id : Z) (r : Response unit) : M unit :=
  tryCatch
    (settle r ;;
     modify (fun s => with_tasks (filter (fun t => negb (Task.id t =? id)) (tasks s)) s) ;;
     renderTasks clk ;;
     updateDashboard ;;
     showToast "Task deleted successfully!" ToastSuccess)
    (fun message => showToast ("Failed to delete task: " ++ message)%string ToastError).

(** ** Services *)

Definition saveService : M unit :=
  serviceData <- getsDom serviceForm ;;
  id <- gets editingServiceId ;;
  match id with
  | None => apiFetch POST api_services (ServiceBody serviceData)
  | Some id => apiFetch PUT (api_service id) (ServiceBody serviceData)
  end.

Definition saveService_settled (r : Response unit) : M unit :=
  tryCatch
    (settle r ;;
     id <- gets editingServiceId ;;
     showToast (if isNull id then "Service added successfully!"
                else "Service updated successfully!") ToastSuccess ;;
     hideServiceForm ;;
     modify (with_editingServiceId None) ;;
     loadServicesFromBackend)
    (fun message =>
       showToast ("Failed to save service: " ++ message)%string ToastError).

Definition handleServiceSubmit : M unit := saveService.

Definition editService (id : Z) : M unit :=
  services <- gets serviceDatabase ;;
  match find (fun s => Service.id s =? id) services with
  | None => ret tt
  | Some service =>
      modifyDom (with_serviceForm
        {| sd_name := Service.name service; sd_price := Service.price service;
           sd_fee := Service.fee service; sd_charge := Service.charge service;
           sd_link := Service.link service; sd_note := Service.note service |}) ;;
      setText serviceFormTitle (Str "Edit Service") ;;
      modify (with_editingServiceId (Some id)) ;;
      unhide serviceFormContainer
  end.

Definition deleteService (id : Z) (confirmed : bool) : M unit :=
  when confirmed (apiFetch DELETE (api_service id) NoBody).

Definition deleteService_settled (r : Response unit) : M unit :=
  tryCatch
    (settle r ;;
     showToast "Service deleted successfully!" ToastSuccess ;;
     loadServicesFromBackend)
    (fun message =>
       showToast ("Failed to delete service: " ++ message)%string ToastError).

(** ** Sharing *)

Definition showShareModal (id : Z) : M unit :=
  modify (with_sharingTaskId (Some id)) ;;
  modifyDom (with_staffListModal []) ;;
  ts <- gets tasks ;;
  let task := find (fun t => Task.id t =? id) ts in
  staffList <- gets STAFF_LIST ;;
  forEach staffList (fun staff =>
    match task with
    | None => throw "Cannot read properties of undefined"
    | Some task =>
        when (andb (negb (Staff.name staff === Task.assignedTo task))
                   (Staff.role staff === "staff"))
          (modifyDom (fun d => with_staffListModal
             (staffListModal d ++
              [{| dataset_staff := Staff.name staff; selected := false |}]) d))
    end) ;;
  setDisplay shareTaskModal true.

(** A click on the [i]-th entry of the share modal. *)
Definition selectStaffItem (i : nat) : M unit :=
  modifyDom (fun d => with_staffListModal
    (map (fun '(k, item) =>
            {| dataset_staff := dataset_staff item; selected := Nat.eqb k i |})
         (combine (seq 0 (List.length (staffListModal d))) (staffListModal d))) d).

(** The part of [shareTask] that runs at once; it returns [staffName] when the
    request was sent. *)
Definition shareTask : M (option string) :=
  items <- getsDom staffListModal ;;
  match find selected items with
  | None =>
      showToast "Please select a staff member to share with." ToastError ;;
      ret None
  | Some selectedStaffItem =>
      let staffName := dataset_staff selectedStaffItem in
      id <- gets sharingTaskId ;;
      apiFetch POST (api_task_share id) (ShareBody staffName) ;;
      ret (Some staffName)
  end.

Definition shareTask_failed (message : string) : M unit :=
  showToast ("Failed to share task: " ++ message)%string ToastError.

(** The first [then] of [shareTask], with the final [catch]. *)
Definition shareTask_settled (staffName : string) (r : Response unit) : M unit :=
  tryCatch
    (settle r ;;
     setDisplay shareTaskModal false ;;
     showToast ("Task shared with " ++ staffName ++ " successfully!")%string
               ToastSuccess ;;
     fetchTasksAndRender)
    shareTask_failed.

(** The second [then] of [shareTask], run once the refetch it waits for is
    over. *)
Definition shareTask_refetched : M unit :=
  tryCatch
    (page <- gets currentPage ;;
     when (page === "staff-panel") updateStaffPanel)
    shareTask_failed.

(** ** Filters *)

Definition applyTaskFilters (clk : Clock) : M unit :=
  inputs <- getsDom filterInputs ;;
  modify (with_currentFilters
    {| fDate := fDate inputs; fBranch := fBranch inputs; fStaff := fStaff inputs;
       fStatus := fStatus inputs; fService := fService inputs |}) ;;
  renderTasks clk ;;
  showToast "Filters applied successfully!" ToastSuccess.

Definition resetTaskFilters (clk : Clock) : M unit :=
  modifyDom (with_filterInputs noFilters) ;;
  modify (with_currentFilters noFilters) ;;
  renderTasks clk ;;
  showToast "Filters reset successfully!" ToastSuccess.

(** ** Staff alerts and reports *)

(** [Array.from(new Set(tasks.map(t => t.assignedTo).filter(Boolean)))] *)
Definition staffUsernames (tasks : list Task.t) : list string :=
  unique [] (filter (fun name => negb (name === "")) (map Task.assignedTo tasks)).

Definition updateStaffAlerts (clk : Clock) : M unit :=
  modifyDom (with_staffAlertsContainer []) ;;
  ts <- gets tasks ;;
  forEach (staffUsernames ts) (fun name =>
    let staffTasks := filter (fun task => Task.assignedTo task === name) ts in
    let overdueTasks := filter (isOverdue clk) staffTasks in
    when (0 <? List.length overdueTasks)%nat
      (modifyDom (fun d => with_staffAlertsContainer
         (staffAlertsContainer d ++
          [{| ac_name := name; ac_overdue := overdueTasks |}]) d))).

Definition updateReports : M unit :=
  modifyDom (with_staffPerformanceCards []) ;;
  ts <- gets tasks ;;
  forEach (staffUsernames ts) (fun name =>
    let staffTasks := filter (fun task => Task.assignedTo task === name) ts in
    let completedTasks :=
      List.length (filter (fun task => Task.status task === "Completed") staffTasks) in
    let totalRevenue :=
      fold_left (fun sum task => sum + Task.paidAmount task) staffTasks 0 in
    u <- theUser ;;
    let card :=
      {| rc_name := name; rc_total := List.length staffTasks;
         rc_completed := completedTasks;
         rc_revenue :=
           if User.role u === "admin" then Some (Rupees totalRevenue) else None |} in
    modifyDom (fun d =>
      with_staffPerformanceCards (staffPerformanceCards d ++ [card]) d)).

(** ** Session and navigation *)

(** The [active] class of the navigation links is not part of [Dom]. *)
Definition navigateToPage (clk : Clock) (page : string) : M unit :=
  hide dashboardPage ;;
  hide tasksPage ;;
  hide staffPage ;;
  hide reportsPage ;;
  hide databasePage ;;
  hide staffPanelPage ;;
  (if page === "dashboard" then unhide dashboardPage ;; updateDashboard
   else if page === "tasks" then unhide tasksPage
   else if page === "staff" then unhide staffPage ;; updateStaffAlerts clk
   else if page === "reports" then unhide reportsPage ;; updateReports
   else if page === "database" then unhide databasePage
   else if page === "staff-panel" then unhide staffPanelPage ;; updateStaffPanel
   else ret tt) ;;
  modify (with_currentPage page).

Definition showApp (clk : Clock) : M unit :=
  hide loginPage ;;
  unhide navigation ;;
  u <- theUser ;;
  setText userRoleDisplay (Str (capitalize (User.role u) ++ " User")%string) ;;
  (if User.role u === "admin" then
     unhide staffNav ;; unhide reportsNav ;; unhide databaseNav ;;
     unhide revenueCard ;; unhide actionsHeader ;; unhide addStaffBtn ;;
     unhide addServiceBtn
   else if User.role u === "manager" then
     unhide staffNav ;; unhide reportsNav ;; unhide databaseNav ;;
     hide revenueCard ;; unhide actionsHeader ;; hide addStaffBtn ;;
     unhide addServiceBtn
   else
     hide staffNav ;; hide reportsNav ;; hide databaseNav ;;
     hide revenueCard ;; hide actionsHeader ;; hide addStaffBtn ;;
     hide addServiceBtn) ;;
  populateStaffDropdown ;;
  populateStaffList ;;
  populateServiceDropdown ;;
  populateServiceDatabase ;;
  populateFilterDropdowns ;;
  page <- gets currentPage ;;
  navigateToPage clk page ;;
  fetchTasksAndRender ;;
  loadServicesFromBackend ;;
  updateDashboard.

Definition handleLogin (username password : string) : M unit :=
  apiFetch POST api_login (LoginBody username password).

(** The response carries [res.user], or nothing. *)
Definition handleLogin_settled (clk : Clock) (r : Response (option User.t))
    : M unit :=
  tryCatch
    (res <- settle r ;;
     match res with
     | None => throw "Invalid server response"
     | Some user =>
         let u := {| User.username := User.username user; User.role := User.role user;
                     User.id := User.id user; User.email := User.email user |} in
         modify (with_currentUser (Some u)) ;;
         modify (with_sessionStorage (Some u)) ;;
         showApp clk ;;
         showToast "Login successful!" ToastSuccess
     end)
    (fun message =>
       showToast (if message === "" then "Invalid credentials. Please try again."
                  else message) ToastError).

Definition initApp (clk : Clock) : M unit :=
  savedUser <- gets sessionStorage ;;
  match savedUser with
  | Some u => modify (with_currentUser (Some u)) ;; showApp clk
  | None => showLogin
  end.

(** ** Events

    Everything that makes the script run: the listeners it installs on the
    page and the callbacks of its requests.  A [..Settled] event carries the
    backend's response, and the variables its callback closed over when the
    request was sent. *)

(** The user picks [newStatus] in the status select of one actions cell or
    card: the control shows it, and the [change] listener gets the task id. *)
Fixpoint pickStatus (newStatus : string) (cs : list Control)
    : option (Z * list Control) :=
  match cs with
  | [] => None
  | StatusSelect a id _ :: cs' => Some (id, StatusSelect a id newStatus :: cs')
  | c :: cs' =>
      match pickStatus newStatus cs' with
      | Some (id, cs'') => Some (id, c :: cs'')
      | None => None
      end
  end.

Definition pickStatusInRow (newStatus : string) (r : Row) : option (Z * Row) :=
  match actionsCell r with
  | Some cs =>
      match pickStatus newStatus cs with
      | Some (id, cs') =>
          Some (id, {| rowTask := rowTask r; editIndicator := editIndicator r;
                       actionsCell := Some cs' |})
      | None => None
      end
  | None => None
  end.

Definition pickStatusInCard (newStatus : string) (c : TaskCard)
    : option (Z * TaskCard) :=
  match pickStatus newStatus (cardControls c) with
  | Some (id, cs') =>
      Some (id, {| cardTask := cardTask c; cardType := cardType c;
                   takenOverBadge := takenOverBadge c; cardControls := cs' |})
  | None => None
  end.

Definition pickAt {A} (pick : A -> option (Z * A)) (k : nat) (l : list A)
    : option (Z * list A) :=
  match nth_error l k with
  | Some x =>
      match pick x with
      | Some (id, x') => Some (id, updateAt k (fun _ => x') l)
      | None => None
      end
  | None => None
  end.

(** The [k]-th row or card of the container [c] has its select changed; the
    result is the task id the listener passes on, when there is such a
    select. *)
Definition changeSelect (c : Container) (k : nat) (newStatus : string)
    : M (option Z) :=
  d <- gets dom ;;
  match c with
  | InTaskTableBody =>
      match pickAt (pickStatusInRow newStatus) k (taskTableBody d) with
      | Some (id, rows) => modifyDom (with_taskTableBody rows) ;; ret (Some id)
      | None => ret None
      end
  | InAllTasks =>
      match pickAt (pickStatusInCard newStatus) k (allTasksContainer d) with
      | Some (id, cards) => modifyDom (with_allTasksContainer cards) ;; ret (Some id)
      | None => ret None
      end
  | InMyTasks =>
      match pickAt (pickStatusInCard newStatus) k (myTasksContainer d) with
      | Some (id, cards) => modifyDom (with_myTasksContainer cards) ;; ret (Some id)
      | None => ret None
      end
  | InExtraTasks =>
      match pickAt (pickStatusInCard newStatus) k (extraTasksContainer d) with
      | Some (id, cards) => modifyDom (with_extraTasksContainer cards) ;; ret (Some id)
      | None => ret None
      end
  end.

Definition onStatusChange (c : Container) (k : nat) (newStatus : string)
    : M (option (nat * string)) :=
  picked <- changeSelect c k newStatus ;;
  match picked with
  | Some id => updateTaskStatus id newStatus
  | None => ret None
  end.

Inductive Event :=
| DOMContentLoaded
| SubmitLogin (username password : string)
| LoginSettled (r : Response (option User.t))
| ClickLogout
| LogoutSettled (r : Response unit)
| ClickNavLink (page : string)
| StaffDropdownSettled (r : Response (list User.t))
| StaffListSettled (r : Response (list User.t))
| TasksSettled (r : Response (list BackendTask.t))
| ServicesSettled (r : Response (list Service.t))
| StatsSettled (r : Response Stats)
| TopPerformersSettled (r : Response (option (list Winner)))
| OverdueTasksSettled (r : Response (option (list OverdueInfo)))
| ClickAddTask
| ClickCancelTask
| InputTaskForm (d : TaskData)
| SubmitTaskForm
| InputEditReason (value : string)
| ClickSaveWithReason
| ClickCloseModal (m : ModalId)
| SaveTaskSettled (r : Response unit)
| ClickEdit (id : Z)
| ClickDelete (id : Z) (confirmed : bool)
| DeleteTaskSettled (id : Z) (r : Response unit)
| ClickShare (id : Z)
| ClickStaffItem (i : nat)
| ClickConfirmShare
| ShareSettled (staffName : string) (r : Response unit)
| ShareRefetched
| ChangeStatus (c : Container) (k : nat) (newStatus : string)
| StatusSettled (id : Z) (newStatus : string) (taskIndex : nat)
                (oldStatus : string) (r : Response unit)
| ClickTakeOver (taskId : Z)
| InputFilters (f : Filters) (customDateValue : option CustomDay)
| ClickApplyFilters
| ClickResetFilters
| ClickAddService
| ClickCancelService
| InputServiceForm (d : ServiceData)
| SubmitServiceForm
| SaveServiceSettled (r : Response unit)
| ClickEditService (id : Z)
| ClickDeleteService (id : Z) (confirmed : bool)
| DeleteServiceSettled (r : Response unit).

Definition discard {A} (m : M A) : M unit := m ;; ret tt.

(** The handler of an event. *)
Definition handler (clk : Clock) (e : Event) : M unit :=
  match e with
  | DOMContentLoaded => initApp clk
  | SubmitLogin username password => handleLogin username password
  | LoginSettled r => handleLogin_settled clk r
  | ClickLogout => handleLogout
  | LogoutSettled r => handleLogout_settled r
  | ClickNavLink page => navigateToPage clk page
  | StaffDropdownSettled r => populateStaffDropdown_settled r
  | StaffListSettled r => populateStaffList_settled r
  | TasksSettled r => fetchTasksAndRender_settled clk r
  | ServicesSettled r => loadServicesFromBackend_settled r
  | StatsSettled r => updateDashboard_settled r
  | TopPerformersSettled r => updateWinners_settled r
  | OverdueTasksSettled r => updateOverdueTasks_settled r
  | ClickAddTask => showTaskForm
  | ClickCancelTask => hideTaskForm
  | InputTaskForm d => modifyDom (with_taskForm d)
  | SubmitTaskForm => handleTaskSubmit
  | InputEditReason value => modifyDom (with_editReason value)
  | ClickSaveWithReason => saveTaskWithReason
  | ClickCloseModal m => setDisplay m false
  | SaveTaskSettled r => saveTask_settled r
  | ClickEdit id => editTask id
  | ClickDelete id confirmed => deleteTask id confirmed
  | DeleteTaskSettled id r => deleteTask_settled clk id r
  | ClickShare id => showShareModal id
  | ClickStaffItem i => selectStaffItem i
  | ClickConfirmShare => discard shareTask
  | ShareSettled staffName r => shareTask_settled staffName r
  | ShareRefetched => shareTask_refetched
  | ChangeStatus c k newStatus => discard (onStatusChange c k newStatus)
  | StatusSettled id newStatus taskIndex oldStatus r =>
      updateTaskStatus_settled clk id newStatus taskIndex oldStatus r
  | ClickTakeOver taskId => takeOverTask taskId
  | InputFilters f customDateValue =>
      modifyDom (with_filterInputs f) ;; modifyDom (with_customDate customDateValue)
  | ClickApplyFilters => applyTaskFilters clk
  | ClickResetFilters => resetTaskFilters clk
  | ClickAddService => showServiceForm
  | ClickCancelService => hideServiceForm
  | InputServiceForm d => modifyDom (with_serviceForm d)
  | SubmitServiceForm => handleServiceSubmit
  | SaveServiceSettled r => saveService_settled r
  | ClickEditService id => editService id
  | ClickDeleteService id confirmed => deleteService id confirmed
  | DeleteServiceSettled r => deleteService_settled r
  end.

(** One event runs to completion; an exception no callback catches ends the
    handler and leaves the state as it is by then. *)
Definition step (s : App) (ce : Clock * Event) : App :=
  exec (handler (fst ce) (snd ce)) s.

Definition run (s : App) (trace : list (Clock * Event)) : App :=
  fold_left step trace s.

(** ** Notions the statements use *)

(** The predicate each case of [filterTasksByDate] filters with; the cases
    that return the array as it is accept every task. *)
Definition dateMatches (clk : Clock) (customDateValue : option CustomDay)
    (dateFilter : string) (task : Task.t) : bool :=
  let taskDate := Task.timestamp task in
  if dateFilter === "today" then
    andb (today clk <=? taskDate) (taskDate <? tomorrow clk)
  else if dateFilter === "yesterday" then
    andb (yesterday clk <=? taskDate) (taskDate <? today clk)
  else if dateFilter === "tomorrow" then
    andb (tomorrow clk <=? taskDate) (taskDate <? tomorrow clk + 86400000)
  else if dateFilter === "custom" then
    match customDateValue with
    | Some c => andb (custom c <=? taskDate) (taskDate <? nextDay c)
    | None => true
    end
  else true.

(** The predicates of the filters that are not ['all']. *)
Definition activePredicates (clk : Clock) (customDateValue : option CustomDay)
    (f : Filters) : list (Task.t -> bool) :=
  (if fDate f === "all" then []
   else [dateMatches clk customDateValue (fDate f)])
  ++ (if fBranch f === "all" then []
      else [fun task => Task.branch task === fBranch f])
  ++ (if fStaff f === "all" then []
      else [fun task => Task.assignedTo task === fStaff f])
  ++ (if fStatus f === "all" then []
      else [fun task => Task.status task === fStatus f])
  ++ (if fService f === "all" then []
      else [fun task => Task.serviceType task === fService f]).

(** A task satisfies every predicate of the list. *)
Definition satisfiesAll (preds : list (Task.t -> bool)) (task : Task.t) : bool :=
  forallb (fun p => p task) preds.

(** The tasks a table shows, row by row. *)
Definition renderedTasks (rows : list Row) : list Task.t := map rowTask rows.

(** The row [createTaskRow] returns while [u] is logged in. *)
Definition rowFor (u : User.t) (includeActions : bool) (task : Task.t) : Row :=
  {| rowTask := task; editIndicator := Task.edited task;
     actionsCell := if includeActions then Some (actionControls u task) else None |}.


(** The overdue row [renderTasks] builds: the task and the whole hours since
    its timestamp ([Math.floor]). *)
Definition overdueRowFor (clk : Clock) (task : Task.t) : OverdueRow :=
  OverdueOfTask task ((now clk - Task.timestamp task) / (1000 * 60 * 60)).

(** The alert cards show the task: the card of its assignee lists it. *)
Definition alerted (cards : list AlertCard) (task : Task.t) : Prop :=
  exists card,
    In card cards /\ ac_name card = Task.assignedTo task /\ In task (ac_overdue card).

(** The view [renderTasks] computes from the state: filtered, newest first. *)
Definition sortedTasks (clk : Clock) (s : App) : list Task.t :=
  sort newestFirst
       (filteredTasks clk (customDate (dom s)) (currentFilters s) (tasks s)).

(** The state [renderTasks] leaves while [u] is logged in. *)
Definition rendered (clk : Clock) (u : User.t) (s : App) : App :=
  let sorted := sortedTasks clk s in
  let overdue := filter (isOverdue clk) sorted in
  with_dom
    (with_taskTableBody (map (rowFor u true) sorted)
       (with_overdueTasksTable (map (overdueRowFor clk) overdue)
          (with_hidden
             (fun x => if ElemId_eq_dec x overdueTasksContainer
                       then negb (0 <? List.length overdue)%nat
                       else hidden (dom s) x)
             (with_recentTasksTable (map (rowFor u false) (firstn 10 sorted))
                (dom s)))))
    s.


(** ** Sample data *)

(** The script's variables as it declares them, and a document in which the
    script has written nothing yet. *)
Definition emptyDom : Dom :=
  {| hidden := fun _ => false; shown := fun _ => false; text := fun _ => None;
     taskTableBody := []; recentTasksTable := []; overdueTasksTable := [];
     winnersCards := []; staffPerformanceCards := []; staffAlertsContainer := [];
     allTasksContainer := []; myTasksContainer := []; extraTasksContainer := [];
     serviceListContainer := []; staffListContainer := []; staffListModal := [];
     assignedToSelect := []; filterStaff := []; serviceTypeSelect := [];
     filterService := []; taskForm := emptyTaskData; serviceForm := emptyServiceData;
     editReason := ""; filterInputs := noFilters; customDate := None;
     documentOrder := [InTaskTableBody; InAllTasks; InMyTasks; InExtraTasks];
     toasts := [] |}.

Definition emptyApp : App :=
  {| tasks := []; serviceDatabase := []; STAFF_LIST := []; currentUser := None;
     currentPage := "dashboard"; editingTaskId := None; currentEditReason := "";
     sharingTaskId := None; editingServiceId := None; currentFilters := noFilters;
     dom := emptyDom; sent := []; sessionStorage := None |}.

Definition admin : User.t :=
  {| User.id := 1; User.username := "root"; User.role := "admin";
     User.email := "root@example.org" |}.

Definition alice : User.t :=
  {| User.id := 2; User.username := "alice"; User.role := "staff";
     User.email := "alice@example.org" |}.

Definition sampleTask (id : Z) (status assignedTo branch : string)
    (sharedWith : list string) (timestamp : Z) : Task.t :=
  {| Task.id := id; Task.orderNo := "ORD"; Task.customerName := "Customer";
     Task.contactNumber := "0000"; Task.serviceType := "Passport";
     Task.status := status; Task.assignedTo := assignedTo; Task.branch := branch;
     Task.paymode := "cash"; Task.servicePrice := 100; Task.paidAmount := 100;
     Task.serviceCharge := 10; Task.description := ""; Task.edited := false;
     Task.editReason := None; Task.sharedWith := sharedWith; Task.date := "";
     Task.timestamp := timestamp; Task.takenOverBy := None |}.

Definition hour : Z := 1000 * 60 * 60.

(** A clock at [100] hours, with the midnights around it. *)
Definition sampleClock : Clock :=
  {| now := 100 * hour; today := 96 * hour; yesterday := 72 * hour;
     tomorrow := 120 * hour |}.

(** Alice is logged in; three tasks are cached: 25, 23 and 50 hours old. *)
Definition aliceApp : App :=
  with_tasks [sampleTask 1 "Pending" "alice" "B1" [] (75 * hour);
              sampleTask 2 "Pending" "bob" "B2" [] (77 * hour);
              sampleTask 3 "Completed" "alice" "B1" ["bob"] (50 * hour)]
    (with_currentUser (Some alice) emptyApp).


(** Alice's state with the staff filter set to her own name. *)
Definition aliceFiltered : App :=
  with_currentFilters
    {| fDate := "all"; fBranch := "all"; fStaff := "alice"; fStatus := "all";
       fService := "all" |} aliceApp.

(** Alice's state with the staff filter set to bob: of the three cached
    tasks the view holds the second only. *)
Definition aliceFilteredByBob : App :=
  with_currentFilters
    {| fDate := "all"; fBranch := "all"; fStaff := "bob"; fStatus := "all";
       fService := "all" |} aliceApp.


(** The statuses of a task that is still open. *)
Definition openStatuses : list string := ["Pending"; "In Progress"; "Hold"].


(** The request that fetches the task list. *)
Definition getTasks : Request :=
  {| method := GET; url := api_tasks; body := NoBody |}.

Definition getStats : Request :=
  {| method := GET; url := api_dashboard_stats; body := NoBody |}.

(** Between the two states the task list was requested again. *)
Definition refetched (before after : App) : Prop :=
  exists requests, sent after = sent before ++ requests /\ In getTasks requests.

(** The administrator is logged in, with the three sample tasks cached. *)
Definition adminApp : App := with_currentUser (Some admin) aliceApp.


(** The test of [blank], below, as a function. *)
Fixpoint allWhiteSpace (s : string) : bool :=
  match s with
  | EmptyString => true
  | String c s' => andb (isWhiteSpace c) (allWhiteSpace s')
  end.

(** Alice edits task 1: the form holds its fields and [editingTaskId] its id. *)
Definition aliceEditing : App := exec (editTask 1) aliceApp.

Definition reasonRequired : Toast :=
  {| toastMessage := "Please provide a reason for the change.";
     toastType := ToastError |}.

(** The code points below U+0100 that are white space or a line terminator
    of the language: tab, line feed, vertical tab, form feed, carriage
    return, space and no-break space. *)
Definition whiteSpaceCodes : list nat := [9; 10; 11; 12; 13; 32; 160]%nat.

(** The string is empty or holds white space only. *)
Fixpoint blank (s : string) : Prop :=
  match s with
  | EmptyString => True
  | String c s' => In (nat_of_ascii c) whiteSpaceCodes /\ blank s'
  end.

(** [t] is [v] without the white space at its two ends: [v] is [t] between
    two blank strings, and [t] neither starts nor ends with white space. *)
Definition stripped (v t : string) : Prop :=
  (exists before after, v = (before ++ t ++ after)%string /\ blank before /\ blank after)
  /\ (forall c rest, t = String c rest -> ~ In (nat_of_ascii c) whiteSpaceCodes)
  /\ (forall front c, t = (front ++ String c "")%string -> ~ In (nat_of_ascii c) whiteSpaceCodes).

(** Alice edits task 1 and has typed [reason] in the reason modal. *)
Definition aliceGivesReason (reason : string) : App :=
  with_dom (with_editReason reason (dom aliceEditing)) aliceEditing.

(** A no-break space followed by a space. *)
Definition noBreakSpaces : string := String (ascii_of_nat 160) " ".


(** The item [populateServiceDatabase] builds for a service while [u] is
    logged in. *)
Definition serviceItemFor (u : User.t) (services : list Service.t)
    (service : Service.t) : ServiceItem :=
  {| itemService := service;
     itemButtons := negb (User.role u === "staff");
     duplicate := (0 <? List.length (duplicates services service))%nat |}.

(** The code points below U+0100 that are upper-case letters: U+0041 to
    U+005A, U+00C0 to U+00D6 and U+00D8 to U+00DE. *)
Definition upperCaseLetters : list nat := seq 65 26 ++ seq 192 23 ++ seq 216 7.

(** Two code units are the same letter up to case: they are equal, or one
    is an upper-case letter and the other its lower-case form, 32 further. *)
Definition sameLetter (a b : ascii) : Prop :=
  a = b
  \/ (In (nat_of_ascii a) upperCaseLetters
      /\ nat_of_ascii b = (nat_of_ascii a + 32)%nat)
  \/ (In (nat_of_ascii b) upperCaseLetters
      /\ nat_of_ascii a = (nat_of_ascii b + 32)%nat).

(** Two names are the same up to case: of one length, and code unit by code
    unit the same letter up to case. *)
Fixpoint sameUpToCase (x y : string) : Prop :=
  match x, y with
  | EmptyString, EmptyString => True
  | String a x', String b y' => sameLetter a b /\ sameUpToCase x' y'
  | _, _ => False
  end.

(** Another service, with a different id, has the same name up to case. *)
Definition hasNamesake (services : list Service.t) (service : Service.t) : Prop :=
  exists other,
    In other services
    /\ Service.id other <> Service.id service
    /\ sameUpToCase (Service.name other) (Service.name service).

Definition sampleService (id : Z) (name : string) : Service.t :=
  {| Service.id := id; Service.name := name; Service.price := 100; Service.fee := 10;
     Service.charge := 5; Service.link := ""; Service.note := "" |}.

Definition sampleServices : list Service.t :=
  [sampleService 1 "Passport"; sampleService 2 "passport"; sampleService 3 "Visa"].

(** ECOLE and ecole, the first letter with an acute accent: U+00C9, U+00E9. *)
Definition upperEcole : string := String (ascii_of_nat 201) "COLE".
Definition lowerEcole : string := String (ascii_of_nat 233) "cole".

Definition accentedServices : list Service.t :=
  [sampleService 1 upperEcole; sampleService 2 lowerEcole; sampleService 3 "Visa"].


(** ** What a staff session may not show *)

Definition isDeleteButton (c : Control) : bool :=
  match c with
  | Button cls _ _ => cls === "delete-btn"
  | StatusSelect _ _ _ => false
  end.

(** The delete buttons among some controls. *)
Definition deleteButtonsIn (cs : list Control) : nat :=
  List.length (filter isDeleteButton cs).

Definition rowDeleteButtons (r : Row) : nat :=
  match actionsCell r with
  | Some cs => deleteButtonsIn cs
  | None => O
  end.

Definition cardDeleteButtons (c : TaskCard) : nat :=
  deleteButtonsIn (cardControls c).

Definition sumOf {A} (f : A -> nat) (l : list A) : nat :=
  fold_right (fun x n => (f x + n)%nat) O l.

(** The delete buttons for tasks in all the views of the document: the two
    task tables and the three containers of the staff panel. *)
Definition deleteButtons (d : Dom) : nat :=
  (sumOf rowDeleteButtons (taskTableBody d)
   + sumOf rowDeleteButtons (recentTasksTable d)
   + sumOf cardDeleteButtons (allTasksContainer d)
   + sumOf cardDeleteButtons (myTasksContainer d)
   + sumOf cardDeleteButtons (extraTasksContainer d))%nat.

Definition figure (o : option Content) : nat :=
  match o with Some _ => 1%nat | None => O end.

(** The revenue figures in all the views of the document: the revenue card
    of the dashboard, the cards of the top performers and the report cards. *)
Definition revenueFigures (d : Dom) : nat :=
  (figure (text d totalRevenue)
   + sumOf (fun w => figure (wc_revenue w)) (winnersCards d)
   + sumOf (fun r => figure (rc_revenue r)) (staffPerformanceCards d))%nat.

(** Nobody, or a user whose role is staff. *)
Definition staffOrNobody (cu : option User.t) : Prop :=
  match cu with
  | Some u => User.role u = "staff"
  | None => True
  end.

(** Whoever logs in with this event has the staff role. *)
Definition staffLogin (e : Event) : Prop :=
  match e with
  | LoginSettled (Ok (Some user)) => User.role user = "staff"
  | _ => True
  end.

(** The state of a staff session in a document that holds at most [n] delete
    buttons and [r] revenue figures, with the revenue card hidden if [h]. *)
Definition staffView (n r : nat) (h : bool) (s : App) : Prop :=
  staffOrNobody (currentUser s)
  /\ staffOrNobody (sessionStorage s)
  /\ (deleteButtons (dom s) <= n)%nat
  /\ (revenueFigures (dom s) <= r)%nat
  /\ (h = true -> hidden (dom s) revenueCard = true).


(** ** Notions about computations *)

(** The computation changes nothing but the document. *)
Definition domOnly {A} (m : M A) : Prop :=
  forall s, snd (m s) = with_dom (dom (snd (m s))) s.

(** The computation leaves the part [proj] of the state as it is. *)
Definition keeps {A B} (proj : App -> B) (m : M A) : Prop :=
  forall s, proj (snd (m s)) = proj s.

(** From a state in [I] the computation ends in [I], and what it returns
    satisfies [R]. *)
Definition hoare (I : App -> Prop) {A} (R : A -> Prop) (m : M A) : Prop :=
  forall s, I s -> I (snd (m s)) /\ forall a, fst (m s) = Returned a -> R a.


(** What a staff session may run into: tasks arrive, the dashboard figures
    arrive with a revenue in them, the reports page is opened, a delete is
    answered. *)
Definition sampleBackendTask : BackendTask.t :=
  {| BackendTask.id := 7; BackendTask.order_no := "ORD7";
     BackendTask.customer_name := "Customer"; BackendTask.contact_number := "0000";
     BackendTask.service_type := "Visa"; BackendTask.status := "Pending";
     BackendTask.assigned_to := "alice"; BackendTask.branch_code := "B1";
     BackendTask.paymode := "cash"; BackendTask.service_price := 100;
     BackendTask.paid_amount := 100; BackendTask.service_charge := 10;
     BackendTask.description := ""; BackendTask.edited := false;
     BackendTask.edit_reason := None; BackendTask.shared_with := Some ["bob"];
     BackendTask.task_date := ""; BackendTask.created_at := 75 * hour |}.

Definition staffTrace : list (Clock * Event) :=
  [(sampleClock, TasksSettled (Ok [sampleBackendTask]));
   (sampleClock,
    StatsSettled (Ok {| total_tasks := 1; tasks_today := 1; completed_tasks := 0;
                        total_revenue := Some 5000 |}));
   (sampleClock,
    TopPerformersSettled
      (Ok (Some [{| w_name := "alice"; w_completed_tasks := 3;
                    w_total_revenue := Some 5000; w_score := 9 |}])));
   (sampleClock, ClickNavLink "reports");
   (sampleClock, ClickNavLink "staff-panel");
   (sampleClock, DeleteTaskSettled 7 (Ok tt))].


(** ** A status change that the backend refuses *)

(** The user changes the select of the [k]-th row or card of the container
    [c]; the request [updateTaskStatus] sends fails with [message] before
    anything else happens. *)
Definition statusChangeFails (clk : Clock) (c : Container) (k : nat)
    (newStatus message : string) : M unit :=
  picked <- changeSelect c k newStatus ;;
  match picked with
  | Some id =>
      request <- updateTaskStatus id newStatus ;;
      match request with
      | Some (taskIndex, oldStatus) =>
          updateTaskStatus_settled clk id newStatus taskIndex oldStatus
                                   (Failed message)
      | None => ret tt
      end
  | None => ret tt
  end.

Fixpoint selectValue (cs : list Control) : option string :=
  match cs with
  | [] => None
  | StatusSelect _ _ value :: _ => Some value
  | _ :: cs' => selectValue cs'
  end.

(** What the status select of the [k]-th row or card of [c] shows. *)
Definition selectShownIn (c : Container) (k : nat) (d : Dom) : option string :=
  match c with
  | InTaskTableBody =>
      match nth_error (taskTableBody d) k with
      | Some r => match actionsCell r with Some cs => selectValue cs | None => None end
      | None => None
      end
  | InAllTasks =>
      match nth_error (allTasksContainer d) k with
      | Some card => selectValue (cardControls card)
      | None => None
      end
  | InMyTasks =>
      match nth_error (myTasksContainer d) k with
      | Some card => selectValue (cardControls card)
      | None => None
      end
  | InExtraTasks =>
      match nth_error (extraTasksContainer d) k with
      | Some card => selectValue (cardControls card)
      | None => None
      end
  end.

Definition selectShown (c : Container) (k : nat) (s : App) : option string :=
  selectShownIn c k (dom s).

(** Alice's state once the task table and the staff panel are rendered, in a
    page that lays out its containers in the given order.  Task 1, pending
    and assigned to her, then has a status select in its row of the table
    (the second row), in its card under all tasks and in its card under her
    tasks (the first card of each). *)
Definition alicePanel (order : list Container) : App :=
  exec updateStaffPanel
    (exec (renderTasks sampleClock)
       (with_dom (with_documentOrder order emptyDom) aliceApp)).

(** Alice has picked Completed in the select of the first card of [c], the
    request was sent, and the notification of its failure is up. *)
Definition alicePicked (c : Container) (order : list Container) : App :=
  exec (showToast "Failed to update task status: Server error" ToastError)
    (exec (onStatusChange c 0 "Completed") (alicePanel order)).


(** What a confirmed status change writes into the task. *)
Definition statusChanged (oldStatus newStatus : string) (t : Task.t) : Task.t :=
  Task.with_editReason
    (Some ("Status changed from " ++ oldStatus ++ " to " ++ newStatus)%string)
    (Task.with_edited true (Task.with_status newStatus t)).


(** ** Sharing *)

(** The invariant of the data model: the assignee is not among the users the
    task is shared with. *)
Definition noSelfShare (t : Task.t) : Prop :=
  ~ In (Task.assignedTo t) (Task.sharedWith t).

(** The same for a task as the backend sends it. *)
Definition backendNoSelfShare (t : BackendTask.t) : Prop :=
  match BackendTask.shared_with t with
  | Some l => ~ In (BackendTask.assigned_to t) l
  | None => True
  end.

(** Every task list that arrives with this event satisfies the invariant. *)
Definition sendsNoSelfShare (e : Event) : Prop :=
  match e with
  | TasksSettled (Ok data) => Forall backendNoSelfShare data
  | _ => True
  end.

(** The entry of the share modal for a member of the staff list. *)
Definition staffItemFor (staff : Staff.t) : StaffItem :=
  {| dataset_staff := Staff.name staff; selected := false |}.

(** The test of [showShareModal]: a staff-role user other than the assignee. *)
Definition offered (task : Task.t) (staff : Staff.t) : bool :=
  andb (negb (Staff.name staff === Task.assignedTo task))
       (Staff.role staff === "staff").

(** The share request for a task and a user. *)
Definition shareRequest (id : option Z) (staffName : string) : Request :=
  {| method := POST; url := api_task_share id; body := ShareBody staffName |}.

(** A backend task that breaks the invariant. *)
Definition selfShared : BackendTask.t :=
  {| BackendTask.id := 9; BackendTask.order_no := "ORD9";
     BackendTask.customer_name := "Customer"; BackendTask.contact_number := "0000";
     BackendTask.service_type := "Visa"; BackendTask.status := "Pending";
     BackendTask.assigned_to := "alice"; BackendTask.branch_code := "B1";
     BackendTask.paymode := "cash"; BackendTask.service_price := 100;
     BackendTask.paid_amount := 100; BackendTask.service_charge := 10;
     BackendTask.description := ""; BackendTask.edited := false;
     BackendTask.edit_reason := None; BackendTask.shared_with := Some ["alice"];
     BackendTask.task_date := ""; BackendTask.created_at := 75 * hour |}.

(** Alice's state with a staff list of three: herself, Bob, and a manager. *)
Definition aliceWithStaff : App :=
  with_STAFF_LIST
    [{| Staff.name := "alice"; Staff.role := "staff"; Staff.email := "" |};
     {| Staff.name := "bob"; Staff.role := "staff"; Staff.email := "" |};
     {| Staff.name := "carol"; Staff.role := "manager"; Staff.email := "" |}]
    aliceApp.


(** What [shareTask] reads: the names in the share modal and the task the
    modal was opened for. *)
Definition shareTarget (s : App) : list string * option Z :=
  (map dataset_staff (staffListModal (dom s)), sharingTaskId s).

(** The event opens the share modal. *)
Definition opensShareModal (e : Event) : bool :=
  match e with
  | ClickShare _ => true
  | _ => false
  end.

(** Task 1 as the backend sends it once it is assigned to bob. *)
Definition reassignedToBob : BackendTask.t :=
  {| BackendTask.id := 1; BackendTask.order_no := "ORD";
     BackendTask.customer_name := "Customer"; BackendTask.contact_number := "0000";
     BackendTask.service_type := "Passport"; BackendTask.status := "Pending";
     BackendTask.assigned_to := "bob"; BackendTask.branch_code := "B1";
     BackendTask.paymode := "cash"; BackendTask.service_price := 100;
     BackendTask.paid_amount := 100; BackendTask.service_charge := 10;
     BackendTask.description := ""; BackendTask.edited := false;
     BackendTask.edit_reason := None; BackendTask.shared_with := None;
     BackendTask.task_date := ""; BackendTask.created_at := 75 * hour |}.

(** Alice opens the share modal for task 1, which is hers, and selects bob;
    before she confirms, a task list arrives in which the task is bob's. *)
Definition reassignedWhileSharing : list (Clock * Event) :=
  [(sampleClock, ClickShare 1); (sampleClock, ClickStaffItem 0);
   (sampleClock, TasksSettled (Ok [reassignedToBob]))].

(** The events whose handlers write the cached task list. *)
Definition writesTasks (e : Event) : bool :=
  match e with
  | TasksSettled _ | DeleteTaskSettled _ _ | StatusSettled _ _ _ _ _
  | ClickTakeOver _ => true
  | _ => false
  end.

(** ** The session *)

Definition logoutRequest : Request :=
  {| method := POST; url := api_logout; body := NoBody |}.

(** The six page sections. *)
Definition pages : list ElemId :=
  [dashboardPage; tasksPage; staffPage; reportsPage; databasePage; staffPanelPage].

(** The login view: the login page shows; the navigation and every page
    section are hidden. *)
Definition loginView (d : Dom) : Prop :=
  hidden d loginPage = false
  /\ hidden d navigation = true
  /\ Forall (fun p => hidden d p = true) pages.

Definition sessionExpired : Toast :=
  {| toastMessage := "Session expired. Please log in again.";
     toastType := ToastWarning |}.

Definition loggedOut : Toast :=
  {| toastMessage := "You have been logged out."; toastType := ToastWarning |}.

(** The event is a response with status 401. *)
Definition answers401 (e : Event) : bool :=
  match e with
  | LoginSettled Unauthorized | LogoutSettled Unauthorized
  | StaffDropdownSettled Unauthorized | StaffListSettled Unauthorized
  | TasksSettled Unauthorized | ServicesSettled Unauthorized
  | StatsSettled Unauthorized | TopPerformersSettled Unauthorized
  | OverdueTasksSettled Unauthorized | SaveTaskSettled Unauthorized
  | DeleteTaskSettled _ Unauthorized | ShareSettled _ Unauthorized
  | StatusSettled _ _ _ _ Unauthorized | SaveServiceSettled Unauthorized
  | DeleteServiceSettled Unauthorized => true
  | _ => false
  end.

(** The session has ended in [s'], and the cached tasks are [ts]. *)
Definition sessionEnded (ts : list Task.t) (s' : App) : Prop :=
  currentUser s' = None
  /\ sessionStorage s' = None
  /\ loginView (dom s')
  /\ In logoutRequest (sent s')
  /\ In sessionExpired (toasts (dom s'))
  /\ In loggedOut (toasts (dom s'))
  /\ tasks s' = ts.



(** The page loaded again in the same tab: the script's variables and the
    document start over; the session storage is what it was. *)
Definition reload (s : App) : App :=
  with_sessionStorage (sessionStorage s) emptyApp.

Definition request (m : Method) (u : Endpoint) : Request :=
  {| method := m; url := u; body := NoBody |}.

(** ** Navigation, staff panel and reports *)

(** The section the [switch] of [navigateToPage] shows for a page name. *)
Definition pageSection (page : string) : option ElemId :=
  if page === "dashboard" then Some dashboardPage
  else if page === "tasks" then Some tasksPage
  else if page === "staff" then Some staffPage
  else if page === "reports" then Some reportsPage
  else if page === "database" then Some databasePage
  else if page === "staff-panel" then Some staffPanelPage
  else None.

(** The tests of [updateStaffPanel] and of [createTaskCard]: the task is
    assigned to the user or taken over by the user. *)
Definition isMyTask (u : User.t) (task : Task.t) : bool :=
  orb (Task.assignedTo task === User.username u)
      (isString (Task.takenOverBy task) (User.username u)).

Definition isTakenOver (u : User.t) (task : Task.t) : bool :=
  isString (Task.takenOverBy task) (User.username u).

(** The card [updateReports] builds for a name while [u] is logged in. *)
Definition reportCardFor (u : User.t) (ts : list Task.t) (name : string)
    : ReportCard :=
  let staffTasks := filter (fun task => Task.assignedTo task === name) ts in
  {| rc_name := name;
     rc_total := List.length staffTasks;
     rc_completed :=
       List.length (filter (fun task => Task.status task === "Completed") staffTasks);
     rc_revenue :=
       if User.role u === "admin"
       then Some (Rupees (fold_left (fun sum task => sum + Task.paidAmount task)
                                    staffTasks 0))
       else None |}.

(** The buttons of a card of the staff panel. *)
Definition takeOverButton (task : Task.t) : Control :=
  Button "takeover-btn" data_task_id (Task.id task).

Definition cardEditButton (task : Task.t) : Control :=
  Button "edit-btn" data_task_id (Task.id task).

(** ** Editing and status changes *)

(** The edit button of a row of the task table. *)
Definition rowEditButton (task : Task.t) : Control :=
  Button "edit-btn" data_id (Task.id task).

Definition editRefused : Toast :=
  {| toastMessage := "You can only edit tasks assigned to you or shared with you";
     toastType := ToastError |}.

Definition statusRequest (id : Z) (newStatus : string) : Request :=
  {| method := PUT; url := api_task id; body := StatusBody newStatus |}.

(** ** The rendered tables *)

(** [a] is not older than [b]. *)
Definition notOlder (a b : Task.t) : Prop := Task.timestamp b <= Task.timestamp a.

(** What a row of the overdue table says: whole hours, for a task whose
    status is open. *)
Definition overdueRowOk (r : OverdueRow) : Prop :=
  match r with
  | OverdueOfTask task hours => 24 <= hours /\ In (Task.status task) openStatuses
  | OverdueOfBackend _ => False
  end.

(** ** The service catalog *)

(** [selectedOption] is the option the service select of the task form
    shows: one that [populateServiceDropdown] added, or the first option,
    which carries no service id. *)
Definition updateServiceDetails (selectedOption : option ServiceOption) : M unit :=
  match selectedOption with
  | Some o =>
      let serviceId := so_serviceId o in
      services <- gets serviceDatabase ;;
      match find (fun s => Service.id s =? serviceId) services with
      | Some service =>
          modifyDom (fun d => with_taskForm
            {| branchCode := branchCode (taskForm d);
               customerName := customerName (taskForm d);
               contactNumber := contactNumber (taskForm d);
               serviceType := serviceType (taskForm d);
               assignedTo := assignedTo (taskForm d);
               paymode := paymode (taskForm d);
               servicePrice := Service.price service;
               paidAmount := paidAmount (taskForm d);
               serviceCharge := serviceCharge (taskForm d);
               description := description (taskForm d) |} d) ;;
          modifyDom (fun d => with_taskForm
            {| branchCode := branchCode (taskForm d);
               customerName := customerName (taskForm d);
               contactNumber := contactNumber (taskForm d);
               serviceType := serviceType (taskForm d);
               assignedTo := assignedTo (taskForm d);
               paymode := paymode (taskForm d);
               servicePrice := servicePrice (taskForm d);
               paidAmount := paidAmount (taskForm d);
               serviceCharge := Service.charge service;
               description := description (taskForm d) |} d)
      | None => ret tt
      end
  | None => ret tt
  end.

(** The option [populateServiceDropdown] adds for a service. *)
Definition serviceOptionFor (service : Service.t) : ServiceOption :=
  {| so_name := Service.name service; so_serviceId := Service.id service |}.

(** The values [editService] writes into the service form. *)
Definition serviceDataOf (service : Service.t) : ServiceData :=
  {| sd_name := Service.name service; sd_price := Service.price service;
     sd_fee := Service.fee service; sd_charge := Service.charge service;
     sd_link := Service.link service; sd_note := Service.note service |}.

Definition serviceRequest (m : Method) (u : Endpoint) (data : ServiceData) : Request :=
  {| method := m; url := u; body := ServiceBody data |}.

(** ** The dashboard *)

(** The card [updateWinners] builds for the winner at [index] while [u] is
    logged in. *)
Definition winnerCardFor (u : User.t) (iw : nat * Winner) : WinnerCard :=
  {| wc_place := fst iw;
     wc_name := w_name (snd iw);
     wc_completed := w_completed_tasks (snd iw);
     wc_revenue :=
       if User.role u === "admin"
       then Some (Rupees (orZero (w_total_revenue (snd iw)))) else None;
     wc_score := w_score (snd iw) |}.

(** ** What the handlers leave alone *)

(** The events whose handlers may change who is logged in: the page is
    loaded, a login is answered, the user logs out, a request is answered
    with status 401. *)
Definition changesSession (e : Event) : bool :=
  match e with
  | DOMContentLoaded | LoginSettled _ | ClickLogout => true
  | _ => answers401 e
  end.

Definition selectStaff : Toast :=
  {| toastMessage := "Please select a staff member to share with.";
     toastType := ToastError |}.

(** ** The staff list *)



(** The administrator's state with the three sample services loaded. *)
Definition adminWithServices : App := with_serviceDatabase sampleServices adminApp.

Definition sampleStats : Stats :=
  {| total_tasks := 3; tasks_today := 1; completed_tasks := 1;
     total_revenue := None |}.

Definition sampleWinner : Winner :=
  {| w_name := "alice"; w_completed_tasks := 3; w_total_revenue := Some 5000;
     w_score := 9 |}.

(** What the document shows of the tasks table and of the top performers. *)
Definition tableAndWinners (s : App) : list Row * list WinnerCard * bool :=
  (taskTableBody (dom s), winnersCards (dom s), hidden (dom s) winnersContainer).

(** An administrator logs in and the task list, the figures of the dashboard
    and the top performers arrive. *)
Definition adminSession : list (Clock * Event) :=
  [(sampleClock, SubmitLogin "root" "secret");
   (sampleClock, LoginSettled (Ok (Some admin)));
   (sampleClock, TasksSettled (Ok [sampleBackendTask]));
   (sampleClock,
    StatsSettled (Ok {| total_tasks := 1; tasks_today := 1; completed_tasks := 0;
                        total_revenue := Some 5000 |}));
   (sampleClock, TopPerformersSettled (Ok (Some [sampleWinner])))].

(** The administrator logs out and alice, a staff user, logs in: from the
    dashboard, and from the tasks page. *)
Definition staffAfterAdmin : list (Clock * Event) :=
  adminSession
  ++ [(sampleClock, ClickLogout);
      (sampleClock, SubmitLogin "alice" "secret");
      (sampleClock, LoginSettled (Ok (Some alice)))].

Definition staffAfterAdminOnTasks : list (Clock * Event) :=
  adminSession
  ++ [(sampleClock, ClickNavLink "tasks");
      (sampleClock, ClickLogout);
      (sampleClock, SubmitLogin "alice" "secret");
      (sampleClock, LoginSettled (Ok (Some alice)))].

(** An overdue task as the backend reports it. *)
Definition sampleOverdue : OverdueInfo :=
  {| o_order_no := "ORD"; o_customer_name := "Customer"; o_service_type := "Passport";
     o_status := "Pending"; o_assigned_to := "alice"; o_task_date := "";
     o_hours_overdue := 25 |}.

(** * Properties *)

Unset Implicit Arguments.

(** ** Reasoning about computations *)

(** Projections of updated records. *)
Ltac fields :=
  cbn [fst snd hidden shown text taskTableBody recentTasksTable overdueTasksTable winnersCards
       staffPerformanceCards staffAlertsContainer allTasksContainer myTasksContainer
       extraTasksContainer serviceListContainer staffListContainer staffListModal
       assignedToSelect filterStaff serviceTypeSelect filterService taskForm
       serviceForm editReason filterInputs customDate documentOrder toasts tasks
       serviceDatabase STAFF_LIST currentUser currentPage editingTaskId
       currentEditReason sharingTaskId editingServiceId currentFilters dom sent
       sessionStorage with_hidden with_shown with_text with_taskTableBody
       with_recentTasksTable with_overdueTasksTable with_winnersCards
       with_staffPerformanceCards with_staffAlertsContainer with_allTasksContainer
       with_myTasksContainer with_extraTasksContainer with_serviceListContainer
       with_staffListContainer with_staffListModal with_assignedToSelect
       with_filterStaff with_serviceTypeSelect with_filterService with_taskForm
       with_serviceForm with_editReason with_filterInputs with_customDate
       with_documentOrder with_toasts with_tasks with_serviceDatabase with_STAFF_LIST
       with_currentUser with_currentPage with_editingTaskId with_currentEditReason
       with_sharingTaskId with_editingServiceId with_currentFilters with_dom with_sent
       with_sessionStorage] in *.

(** The three laws of a list-valued field of the document. *)
Ltac lens :=
  intros; try match goal with d : Dom |- _ => destruct d end; reflexivity.

Lemma with_dom_dom (s : App) : with_dom (dom s) s = s.
Proof. destruct s; reflexivity. Qed.

Lemma with_dom_twice (d d' : Dom) (s : App) :
  with_dom d (with_dom d' s) = with_dom d s.
Proof. reflexivity. Qed.

(** Two loop bodies that agree on the states satisfying an invariant the
    second body keeps give the same loop. *)
Lemma forEach_ext (I : App -> Prop) {A} (f g : A -> M unit) :
  (forall x s, I s -> f x s = g x s) ->
  (forall x s, I s -> I (snd (g x s))) ->
  forall l s, I s -> forEach l f s = forEach l g s.
Proof.
  intros Hfg Hinv l; induction l as [|x l IH]; intros s Hs; [reflexivity|].
  simpl. unfold bind. rewrite (Hfg x s Hs).
  specialize (Hinv x s Hs).
  destruct (g x s) as [[[]|e] s']; simpl in *; auto.
Qed.

(** A loop that appends one element per item to a list of the document. *)
Lemma forEach_append {A B} (get : Dom -> list B) (set : list B -> Dom -> Dom)
    (h : A -> B) :
  (forall v d, get (set v d) = v) ->
  (forall v w d, set v (set w d) = set v d) ->
  (forall d, set (get d) d = d) ->
  forall l s,
    forEach l (fun x => modifyDom (fun d => set (get d ++ [h x]) d)) s
    = (Returned tt, with_dom (set (get (dom s) ++ map h l) (dom s)) s).
Proof.
  intros Hgs Hss Hsg l; induction l as [|x l IH]; intros s.
  - simpl. rewrite app_nil_r, Hsg, with_dom_dom. reflexivity.
  - simpl. unfold bind at 1. unfold modifyDom at 1, modify at 1.
    rewrite IH. destruct s; simpl. rewrite Hgs, Hss, <- app_assoc. reflexivity.
Qed.

Lemma createTaskRow_user (u : User.t) (task : Task.t) (b : bool) (s : App) :
  currentUser s = Some u ->
  createTaskRow task b s = (Returned (rowFor u b task), s).
Proof.
  intros H. unfold createTaskRow, rowFor.
  destruct b; [|reflexivity].
  cbv [bind theUser gets]. rewrite H. reflexivity.
Qed.

Lemma bind_eq {A B} (m : M A) (k : A -> M B) (s s' : App) (a : A) :
  m s = (Returned a, s') -> bind m k s = k a s'.
Proof. intros H. unfold bind. rewrite H. reflexivity. Qed.

(** One statement of a sequence, whose effect [tac] computes. *)
Tactic Notation "mstep" tactic3(tac) := erewrite bind_eq; [| tac].

Lemma currentUser_with_dom (d : Dom) (s : App) :
  currentUser (with_dom d s) = currentUser s.
Proof. reflexivity. Qed.

Lemma forEach_createTaskRow (get : Dom -> list Row) (set : list Row -> Dom -> Dom)
    (u : User.t) (b : bool) :
  (forall v d, get (set v d) = v) ->
  (forall v w d, set v (set w d) = set v d) ->
  (forall d, set (get d) d = d) ->
  forall l s,
    currentUser s = Some u ->
    forEach l (fun task =>
      row <- createTaskRow task b ;;
      modifyDom (fun d => set (get d ++ [row]) d)) s
    = (Returned tt, with_dom (set (get (dom s) ++ map (rowFor u b) l) (dom s)) s).
Proof.
  intros L1 L2 L3 l s H.
  rewrite <- (forEach_append get set (rowFor u b)) by assumption.
  apply (forEach_ext (fun s => currentUser s = Some u)); [| |exact H].
  - intros x s0 H0. unfold bind. rewrite (createTaskRow_user u x b s0 H0). reflexivity.
  - intros x s0 H0. exact H0.
Qed.

Lemma renderTasks_logged_in (clk : Clock) (u : User.t) (s : App) :
  currentUser s = Some u ->
  renderTasks clk s = (Returned tt, rendered clk u s).
Proof.
  intros H. unfold renderTasks.
  do 6 (mstep reflexivity).
  cbv zeta.
  mstep (apply (forEach_createTaskRow recentTasksTable with_recentTasksTable u false);
         [lens | lens | lens | exact H]).
  unfold rendered. fields. fold (sortedTasks clk s).
  destruct (0 <? Datatypes.length (filter (isOverdue clk) (sortedTasks clk s)))%nat eqn:E;
    cbv iota.
  - mstep (mstep reflexivity;
           apply (forEach_append overdueTasksTable with_overdueTasksTable
                                 (overdueRowFor clk)); lens).
    rewrite (forEach_createTaskRow taskTableBody with_taskTableBody u true)
      by (lens || exact H).
    fields. reflexivity.
  - mstep reflexivity.
    rewrite (forEach_createTaskRow taskTableBody with_taskTableBody u true)
      by (lens || exact H).
    fields.
    destruct (filter (isOverdue clk) (sortedTasks clk s)) eqn:E2; [|discriminate].
    reflexivity.
Qed.

(** ** Filtering and sorting the cached tasks *)

Lemma filter_filter {A} (p q : A -> bool) (l : list A) :
  filter q (filter p l) = filter (fun x => andb (p x) (q x)) l.
Proof.
  induction l as [|x l IH]; simpl; [reflexivity|].
  destruct (p x); simpl; [destruct (q x)|]; rewrite IH; reflexivity.
Qed.

Lemma filter_true {A} (l : list A) : filter (fun _ => true) l = l.
Proof. induction l as [|x l IH]; simpl; [|rewrite IH]; reflexivity. Qed.

(** Every case of [filterTasksByDate] keeps the tasks [dateMatches] accepts. *)
Lemma filterTasksByDate_filter clk cd ts dateFilter :
  filterTasksByDate clk cd ts dateFilter = filter (dateMatches clk cd dateFilter) ts.
Proof.
  unfold filterTasksByDate, dateMatches.
  destruct (dateFilter === "today"); [reflexivity|].
  destruct (dateFilter === "yesterday"); [reflexivity|].
  destruct (dateFilter === "tomorrow"); [reflexivity|].
  destruct (dateFilter === "custom"); [destruct cd|]; try reflexivity;
    symmetry; apply filter_true.
Qed.

Lemma satisfiesAll_app ps qs task :
  satisfiesAll (ps ++ qs) task = andb (satisfiesAll ps task) (satisfiesAll qs task).
Proof. unfold satisfiesAll. apply forallb_app. Qed.

Lemma filter_optional (c : bool) (p : Task.t -> bool) (qs : list (Task.t -> bool)) ts :
  filter (satisfiesAll qs) (if negb c then filter p ts else ts)
  = filter (satisfiesAll ((if c then [] else [p]) ++ qs)) ts.
Proof.
  destruct c; simpl; [reflexivity|].
  rewrite filter_filter. apply filter_ext. intros a. reflexivity.
Qed.

(** The chain of [filter] calls keeps the tasks that satisfy every active
    predicate. *)
Lemma filteredTasks_filter clk cd f ts :
  filteredTasks clk cd f ts = filter (satisfiesAll (activePredicates clk cd f)) ts.
Proof.
  unfold filteredTasks, activePredicates. cbv zeta.
  rewrite filterTasksByDate_filter.
  rewrite <- (filter_optional (fDate f === "all")).
  rewrite <- (filter_optional (fBranch f === "all")).
  rewrite <- (filter_optional (fStaff f === "all")).
  rewrite <- (filter_optional (fStatus f === "all")).
  set (l := if negb (fStatus f === "all") then _ else _).
  destruct (fService f === "all"); simpl.
  - symmetry. apply filter_true.
  - apply filter_ext. intros a. unfold satisfiesAll. simpl.
    rewrite andb_true_r. reflexivity.
Qed.

Lemma insertSorted_perm {A} (cmp : A -> A -> Z) x l :
  Permutation (insertSorted cmp x l) (x :: l).
Proof.
  induction l as [|y l IH]; simpl; [reflexivity|].
  destruct (cmp x y <=? 0); [reflexivity|].
  rewrite IH. apply perm_swap.
Qed.

(** Sorting rearranges the array and nothing else. *)
Lemma sort_perm {A} (cmp : A -> A -> Z) l : Permutation (sort cmp l) l.
Proof.
  induction l as [|x l IH]; simpl; [reflexivity|].
  rewrite insertSorted_perm. constructor. exact IH.
Qed.

Lemma renderedTasks_rowFor u b l : renderedTasks (map (rowFor u b) l) = l.
Proof.
  unfold renderedTasks. rewrite map_map. simpl. apply map_id.
Qed.

Lemma satisfiesAll_forall preds task :
  satisfiesAll preds task = true <-> forall p, In p preds -> p task = true.
Proof. unfold satisfiesAll. apply forallb_forall. Qed.

(** C1. While a user is logged in, the task table [renderTasks] fills shows
    exactly the cached tasks that satisfy the predicate of every filter that
    is not ['all'] (date, branch, staff, status, service), newest first and
    each as often as the cache holds it; neither [renderTasks] nor
    [applyTaskFilters], which first takes the filters from the filter inputs,
    changes the cached list. *)
Theorem renderTasks_shows_filtered_tasks (clk : Clock) (s : App) (u : User.t) :
  currentUser s = Some u ->
  let view (f : Filters) :=
    filter (satisfiesAll (activePredicates clk (customDate (dom s)) f)) (tasks s) in
  let s1 := exec (renderTasks clk) s in
  let s2 := exec (applyTaskFilters clk) s in
  renderedTasks (taskTableBody (dom s1)) = sort newestFirst (view (currentFilters s))
  /\ Permutation (renderedTasks (taskTableBody (dom s1))) (view (currentFilters s))
  /\ (forall task,
        In task (renderedTasks (taskTableBody (dom s1))) <->
        In task (tasks s) /\
        forall p, In p (activePredicates clk (customDate (dom s)) (currentFilters s)) ->
                  p task = true)
  /\ tasks s1 = tasks s
  /\ currentFilters s2 = filterInputs (dom s)
  /\ Permutation (renderedTasks (taskTableBody (dom s2))) (view (filterInputs (dom s)))
  /\ tasks s2 = tasks s.
Proof.
  intros H view s1 s2.
  assert (E1 : renderedTasks (taskTableBody (dom s1))
               = sort newestFirst (view (currentFilters s))).
  { unfold s1, exec. rewrite (renderTasks_logged_in clk u s H).
    unfold rendered. fields. rewrite renderedTasks_rowFor.
    unfold sortedTasks. rewrite filteredTasks_filter. reflexivity. }
  assert (E2 : s2 = exec (showToast "Filters applied successfully!" ToastSuccess)
                      (rendered clk u (with_currentFilters (filterInputs (dom s)) s))).
  { unfold s2, exec, applyTaskFilters.
    do 2 (mstep reflexivity).
    mstep (apply (renderTasks_logged_in clk u); exact H).
    destruct s as [? ? ? ? ? ? ? ? ? ? d ? ?]; destruct d as [? ? ? ? ? ? ? ? ? ? ? ? ? ? ? ? ? ? ? ? ? ? fi ? ? ?].
    destruct fi. reflexivity. }
  split; [exact E1|]. split; [rewrite E1; apply sort_perm|].
  split.
  { intros task. rewrite E1.
    unfold view. rewrite <- satisfiesAll_forall, <- filter_In.
    split; apply Permutation_in; [|symmetry]; apply sort_perm. }
  split.
  { unfold s1, exec. rewrite (renderTasks_logged_in clk u s H). reflexivity. }
  rewrite E2. unfold exec, showToast, modifyDom, modify, rendered. fields.
  split; [reflexivity|]. split; [|reflexivity].
  rewrite renderedTasks_rowFor. unfold sortedTasks. fields.
  rewrite filteredTasks_filter. apply sort_perm.
Qed.

Lemma renderTasks_shows_filtered_tasks_witness :
  currentUser aliceFiltered = Some alice
  /\ renderedTasks (taskTableBody (dom (exec (renderTasks sampleClock) aliceFiltered)))
     = [sampleTask 1 "Pending" "alice" "B1" [] (75 * hour);
        sampleTask 3 "Completed" "alice" "B1" ["bob"] (50 * hour)].
Proof.
  split; [reflexivity|].
  destruct (renderTasks_shows_filtered_tasks sampleClock aliceFiltered alice eq_refl)
    as [E _].
  rewrite E. vm_compute. reflexivity.
Defined.

(** ** Overdue tasks *)

Lemma hoursDiff_over_24 clk task :
  Qle_bool (hoursDiff clk task) (inject_Z 24)
  = (now clk - Task.timestamp task <=? 24 * 60 * 60 * 1000).
Proof.
  unfold hoursDiff, Qle_bool, Qdiv, Qmult, Qinv, inject_Z. simpl.
  rewrite !Z.mul_1_r. reflexivity.
Qed.

Lemma isOverdue_iff clk task :
  isOverdue clk task = true <->
  In (Task.status task) openStatuses /\ now clk - Task.timestamp task > 24 * hour.
Proof.
  unfold isOverdue, openStatuses. rewrite hoursDiff_over_24.
  rewrite andb_true_iff, !orb_true_iff, !String.eqb_eq, negb_true_iff, Z.leb_gt.
  unfold hour. simpl In. split.
  - intros [[[E|E]|E] L]; split; auto; lia.
  - intros [[E|[E|[E|[]]]] L]; split; auto; lia.
Qed.

(** A loop that appends an element for the items that pass a test. *)
Lemma forEach_append_when {A B} (get : Dom -> list B) (set : list B -> Dom -> Dom)
    (c : A -> bool) (h : A -> B) :
  (forall v d, get (set v d) = v) ->
  (forall v w d, set v (set w d) = set v d) ->
  (forall d, set (get d) d = d) ->
  forall l s,
    forEach l (fun x => when (c x) (modifyDom (fun d => set (get d ++ [h x]) d))) s
    = (Returned tt,
       with_dom (set (get (dom s) ++ map h (filter c l)) (dom s)) s).
Proof.
  intros Hgs Hss Hsg l; induction l as [|x l IH]; intros s.
  - simpl. rewrite app_nil_r, Hsg, with_dom_dom. reflexivity.
  - simpl. unfold bind at 1. destruct (c x); simpl.
    + rewrite IH. destruct s; simpl. rewrite Hgs, Hss, <- app_assoc. reflexivity.
    + apply IH.
Qed.

Lemma includes_In (x : string) (l : list string) : includes x l = true <-> In x l.
Proof.
  unfold includes. rewrite existsb_exists. split.
  - intros (y & I & E). apply String.eqb_eq in E. subst. exact I.
  - intros I. exists x. split; [exact I|apply String.eqb_refl].
Qed.

(** [Array.from(new Set(l))] holds every value of [l] once. *)
Lemma unique_spec (l seen : list string) :
  NoDup (unique seen l)
  /\ forall x, In x (unique seen l) <-> In x l /\ ~ In x seen.
Proof.
  revert seen. induction l as [|y l IH]; intros seen; simpl.
  - split; [constructor|]. intros x. tauto.
  - destruct (includes y seen) eqn:E.
    + apply includes_In in E. destruct (IH seen) as [N S]. split; [exact N|].
      intros x. rewrite S. split; [tauto|].
      intros [[<-|I] Q]; [contradiction|tauto].
    + assert (Q : ~ In y seen) by (rewrite <- includes_In; congruence).
      destruct (IH (y :: seen)) as [N S]. split.
      * constructor; [|exact N]. rewrite S. simpl. tauto.
      * intros x. simpl. rewrite S. simpl. split.
        -- intros [<-|[I C]]; [tauto|]. split; [tauto|]. tauto.
        -- intros [[<-|I] C]; [tauto|].
           destruct (string_dec y x) as [<-|D]; [tauto|]. right. tauto.
Qed.

Lemma staffUsernames_spec (ts : list Task.t) :
  NoDup (staffUsernames ts)
  /\ forall name, In name (staffUsernames ts) <->
                  name <> "" /\ exists task, In task ts /\ Task.assignedTo task = name.
Proof.
  unfold staffUsernames.
  destruct (unique_spec
              (filter (fun name => negb (name === "")) (map Task.assignedTo ts)) [])
    as [N S].
  split; [exact N|]. intros name. rewrite S, filter_In, in_map_iff.
  rewrite negb_true_iff, String.eqb_neq. simpl. split.
  - intros [[(task & E & I) D] _]. split; [exact D|]. exists task. tauto.
  - intros [D (task & I & E)]. split; [|tauto]. split; [|exact D].
    exists task. tauto.
Qed.

Lemma updateStaffAlerts_result clk s :
  updateStaffAlerts clk s
  = (Returned tt,
     with_dom
       (with_staffAlertsContainer
          (map (fun name =>
                  {| ac_name := name;
                     ac_overdue :=
                       filter (isOverdue clk)
                              (filter (fun task => Task.assignedTo task === name)
                                      (tasks s)) |})
               (filter (fun name =>
                          (0 <? List.length
                                  (filter (isOverdue clk)
                                     (filter (fun task => Task.assignedTo task === name)
                                             (tasks s))))%nat)
                       (staffUsernames (tasks s))))
          (dom s)) s).
Proof.
  unfold updateStaffAlerts.
  do 2 (mstep reflexivity). fields.
  rewrite (forEach_append_when staffAlertsContainer with_staffAlertsContainer
             (fun name => (0 <? List.length
                                  (filter (isOverdue clk)
                                     (filter (fun task => Task.assignedTo task === name)
                                             (tasks s))))%nat)
             (fun name =>
                {| ac_name := name;
                   ac_overdue :=
                     filter (isOverdue clk)
                            (filter (fun task => Task.assignedTo task === name)
                                    (tasks s)) |})) by lens.
  fields. reflexivity.
Qed.

(** C2, as stated, fails for a task that a filter hides.  Task 1 is cached,
    Pending and 25 hours old; with the staff filter set to bob, [renderTasks]
    leaves the overdue table empty and its container hidden. *)
Lemma filtered_out_task_is_not_flagged :
  let task := sampleTask 1 "Pending" "alice" "B1" [] (75 * hour) in
  let s' := exec (renderTasks sampleClock) aliceFilteredByBob in
  In task (tasks aliceFilteredByBob)
  /\ In (Task.status task) openStatuses
  /\ now sampleClock - Task.timestamp task > 24 * hour
  /\ ~ In (overdueRowFor sampleClock task) (overdueTasksTable (dom s'))
  /\ overdueTasksTable (dom s') = []
  /\ hidden (dom s') overdueTasksContainer = true.
Proof.
  assert (E : overdueTasksTable
                (dom (exec (renderTasks sampleClock) aliceFilteredByBob)) = [])
    by (vm_compute; reflexivity).
  cbv zeta. rewrite E.
  split; [left; reflexivity|]. split; [left; reflexivity|].
  split; [vm_compute; reflexivity|]. split; [intros []|].
  split; [reflexivity|vm_compute; reflexivity].
Qed.

(** C2, amended.  The predicate is as claimed: a task is overdue exactly
    when its status is Pending, In Progress or Hold and more than 24 hours
    have passed since its timestamp; a Pending task 25 hours old is, one 23
    hours old is not.  While a user is logged in, [renderTasks] applies it to
    the filtered view, not to the cache: the overdue table holds a row for
    exactly the cached tasks that pass every active filter and that the
    predicate accepts, newest first, and with no filter set for exactly the
    cached tasks the predicate accepts.  [updateStaffAlerts] applies it to the whole cache, whatever the
    filters: there is one card for each assignee with an overdue task, and
    the cards list exactly the cached tasks with an assignee that the
    predicate accepts.  Both compute the flag again at each call and neither
    changes a cached task. *)
Theorem overdue_iff_open_older_and_in_view (clk : Clock) (s : App) (u : User.t) :
  currentUser s = Some u ->
  let overdue task :=
    In (Task.status task) openStatuses /\ now clk - Task.timestamp task > 24 * hour in
  (forall task, isOverdue clk task = true <-> overdue task)
  /\ (forall task,
        isOverdue clk (Task.with_status "Pending"
                         (Task.with_timestamp (now clk - 25 * hour) task)) = true
        /\ isOverdue clk (Task.with_status "Pending"
                            (Task.with_timestamp (now clk - 23 * hour) task)) = false)
  /\ (let s' := exec (renderTasks clk) s in
      overdueTasksTable (dom s')
      = map (overdueRowFor clk) (filter (isOverdue clk) (sortedTasks clk s))
      /\ (forall task,
            In (overdueRowFor clk task) (overdueTasksTable (dom s')) <->
            In task (tasks s)
            /\ (forall p, In p (activePredicates clk (customDate (dom s))
                                                 (currentFilters s)) -> p task = true)
            /\ overdue task)
      /\ (currentFilters s = noFilters ->
          forall task,
            In (overdueRowFor clk task) (overdueTasksTable (dom s')) <->
            In task (tasks s) /\ overdue task)
      /\ (hidden (dom s') overdueTasksContainer = true <->
          overdueTasksTable (dom s') = [])
      /\ tasks s' = tasks s)
  /\ (let s' := exec (updateStaffAlerts clk) s in
      let cards := staffAlertsContainer (dom s') in
      NoDup (map ac_name cards)
      /\ (forall task,
            alerted cards task <->
            In task (tasks s) /\ Task.assignedTo task <> "" /\ overdue task)
      /\ Forall (fun card =>
                   ac_overdue card <> []
                   /\ forall task,
                        In task (ac_overdue card) <->
                        In task (tasks s) /\ Task.assignedTo task = ac_name card
                        /\ overdue task) cards
      /\ tasks s' = tasks s).
Proof.
  intros H overdue.
  assert (V : forall task,
            In task (sortedTasks clk s) <->
            In task (tasks s)
            /\ forall p, In p (activePredicates clk (customDate (dom s))
                                                (currentFilters s)) -> p task = true).
  { intros task. unfold sortedTasks. rewrite filteredTasks_filter.
    rewrite <- satisfiesAll_forall, <- filter_In.
    split; apply Permutation_in; [|symmetry]; apply sort_perm. }
  assert (R : forall task,
            In (overdueRowFor clk task)
               (map (overdueRowFor clk) (filter (isOverdue clk) (sortedTasks clk s)))
            <-> In task (sortedTasks clk s) /\ overdue task).
  { intros task. rewrite in_map_iff. unfold overdue. rewrite <- isOverdue_iff. split.
    - intros [t [E I]]. injection E as E _. subst t. apply filter_In. exact I.
    - intros I. exists task. split; [reflexivity|]. apply filter_In. exact I. }
  split; [intros task; apply isOverdue_iff|]. split.
  { intros task. split.
    - apply isOverdue_iff. unfold openStatuses, hour. simpl. split; [auto|lia].
    - apply not_true_is_false. rewrite isOverdue_iff. unfold hour. simpl. lia. }
  split.
  - unfold exec. rewrite (renderTasks_logged_in clk u s H). unfold rendered. fields.
    split; [reflexivity|]. split.
    { intros task. rewrite R, V. tauto. }
    split.
    { intros F task. rewrite R, V, F. simpl. tauto. }
    split; [|reflexivity].
    destruct (ElemId_eq_dec overdueTasksContainer overdueTasksContainer) as [_|N];
      [|contradiction].
    destruct (filter (isOverdue clk) (sortedTasks clk s)); simpl;
      split; congruence.
  - unfold exec. rewrite updateStaffAlerts_result. fields.
    set (own name := filter (isOverdue clk)
                       (filter (fun task => Task.assignedTo task === name) (tasks s))).
    assert (O : forall name task,
              In task (own name) <->
              In task (tasks s) /\ Task.assignedTo task = name /\ overdue task).
    { intros name task. unfold own, overdue.
      rewrite !filter_In, String.eqb_eq, isOverdue_iff. tauto. }
    destruct (staffUsernames_spec (tasks s)) as [N S].
    split.
    { rewrite map_map. simpl. rewrite map_id. apply NoDup_filter. exact N. }
    split.
    { intros task. unfold alerted. split.
      - intros [card [I [E J]]]. apply in_map_iff in I.
        destruct I as [name [<- I]]. simpl in E, J.
        apply filter_In in I. destruct I as [I _]. apply S in I.
        apply O in J. destruct J as [J1 [J2 J3]].
        split; [exact J1|]. split; [|exact J3]. rewrite J2. tauto.
      - intros [I [D P]].
        assert (J : In task (own (Task.assignedTo task))) by (apply O; tauto).
        exists {| ac_name := Task.assignedTo task;
                  ac_overdue := own (Task.assignedTo task) |}.
        split; [|split; [reflexivity|exact J]].
        apply (in_map (fun name => {| ac_name := name; ac_overdue := own name |})).
        apply filter_In. split.
        + apply S. split; [exact D|]. exists task. tauto.
        + fold (own (Task.assignedTo task)).
          destruct (own (Task.assignedTo task)); [destruct J|reflexivity]. }
    split; [|reflexivity].
    apply Forall_forall. intros card I. apply in_map_iff in I.
    destruct I as [name [<- I]]. simpl.
    apply filter_In in I. destruct I as [_ L]. fold (own name) in L. split.
    + change (own name <> []). destruct (own name); [discriminate L|discriminate].
    + intros task. apply O.
Qed.

Lemma overdue_iff_open_older_and_in_view_witness :
  currentUser aliceFilteredByBob = Some alice
  /\ overdueTasksTable (dom (exec (renderTasks sampleClock) aliceFilteredByBob)) = []
  /\ map ac_name
         (staffAlertsContainer (dom (exec (updateStaffAlerts sampleClock)
                                          aliceFilteredByBob)))
     = ["alice"]
  /\ alerted (staffAlertsContainer (dom (exec (updateStaffAlerts sampleClock)
                                              aliceFilteredByBob)))
             (sampleTask 1 "Pending" "alice" "B1" [] (75 * hour)).
Proof.
  split; [reflexivity|].
  destruct (overdue_iff_open_older_and_in_view sampleClock aliceFilteredByBob alice
              eq_refl) as [_ [_ [[E _] [_ [A _]]]]].
  split; [rewrite E; vm_compute; reflexivity|].
  split; [vm_compute; reflexivity|].
  apply A. split; [left; reflexivity|].
  split; [discriminate|]. split; [left; reflexivity|vm_compute; reflexivity].
Defined.

(** ** Computations that write only the document *)

Lemma domOnly_ret {A} (a : A) : domOnly (ret a).
Proof. intros s. simpl. symmetry. apply with_dom_dom. Qed.

Lemma domOnly_throw {A} (e : string) : domOnly (@throw A e).
Proof. intros s. simpl. symmetry. apply with_dom_dom. Qed.

Lemma domOnly_gets {A} (f : App -> A) : domOnly (gets f).
Proof. intros s. simpl. symmetry. apply with_dom_dom. Qed.

Lemma domOnly_modifyDom (f : Dom -> Dom) : domOnly (modifyDom f).
Proof. intros s. reflexivity. Qed.

Lemma domOnly_bind {A B} (m : M A) (k : A -> M B) :
  domOnly m -> (forall a, domOnly (k a)) -> domOnly (bind m k).
Proof.
  intros Hm Hk s. unfold bind. specialize (Hm s).
  destruct (m s) as [[a|e] s1]; simpl in *; [|exact Hm].
  rewrite (Hk a s1). rewrite Hm at 2. reflexivity.
Qed.

Lemma domOnly_tryCatch {A} (m : M A) (h : string -> M A) :
  domOnly m -> (forall e, domOnly (h e)) -> domOnly (tryCatch m h).
Proof.
  intros Hm Hh s. unfold tryCatch. specialize (Hm s).
  destruct (m s) as [[a|e] s1]; simpl in *; [exact Hm|].
  rewrite (Hh e s1). rewrite Hm at 2. reflexivity.
Qed.

Lemma domOnly_forEach {A} (l : list A) (f : A -> M unit) :
  (forall x, domOnly (f x)) -> domOnly (forEach l f).
Proof.
  intros Hf. induction l as [|x l IH]; simpl.
  - apply domOnly_ret.
  - apply domOnly_bind; [apply Hf|intros _; exact IH].
Qed.

Lemma domOnly_theUser : domOnly theUser.
Proof.
  apply domOnly_bind; [apply domOnly_gets|].
  intros [u|]; [apply domOnly_ret|apply domOnly_throw].
Qed.

(** Takes a computation apart along its binds, loops and case distinctions. *)
Ltac dom_only :=
  repeat first
    [ apply domOnly_ret | apply domOnly_throw | apply domOnly_gets
    | apply domOnly_modifyDom | apply domOnly_theUser
    | apply domOnly_bind; [|intros ?]
    | apply domOnly_tryCatch; [|intros ?]
    | apply domOnly_forEach; intros ?
    | match goal with
      | |- domOnly (match ?x with _ => _ end) => destruct x
      | |- domOnly (let '(_, _) := ?x in _) => destruct x
      end ].

Lemma domOnly_showToast message type : domOnly (showToast message type).
Proof. apply domOnly_modifyDom. Qed.

Lemma domOnly_setText t c : domOnly (setText t c).
Proof. apply domOnly_modifyDom. Qed.

Lemma domOnly_setHidden e b : domOnly (setHidden e b).
Proof. apply domOnly_modifyDom. Qed.

Lemma domOnly_setDisplay m b : domOnly (setDisplay m b).
Proof. apply domOnly_modifyDom. Qed.

Lemma domOnly_updateStaffPanel : domOnly updateStaffPanel.
Proof.
  unfold updateStaffPanel, populateAllTasks, populateMyTasks, populateExtraTasks,
    createTaskCard, setText.
  dom_only.
Qed.

Lemma domOnly_renderTasks clk : domOnly (renderTasks clk).
Proof.
  unfold renderTasks, createTaskRow, hide, unhide, setHidden. dom_only.
Qed.

Lemma domOnly_updateStaffAlerts clk : domOnly (updateStaffAlerts clk).
Proof. unfold updateStaffAlerts, when. dom_only. Qed.

Lemma domOnly_updateReports : domOnly updateReports.
Proof. unfold updateReports. dom_only. Qed.

(** What a computation that writes only the document leaves as it was. *)
Lemma domOnly_frame {A} (m : M A) (s : App) :
  domOnly m ->
  tasks (snd (m s)) = tasks s /\ sent (snd (m s)) = sent s
  /\ currentUser (snd (m s)) = currentUser s
  /\ currentFilters (snd (m s)) = currentFilters s
  /\ STAFF_LIST (snd (m s)) = STAFF_LIST s
  /\ serviceDatabase (snd (m s)) = serviceDatabase s.
Proof. intros H. rewrite (H s). repeat split. Qed.

(** ** Taking a task over *)

Lemma findIndex_Some {A} (p : A -> bool) (l : list A) (i : nat) :
  findIndex p l = Some i ->
  exists x, nth_error l i = Some x /\ p x = true.
Proof.
  revert i. induction l as [|y l IH]; simpl; intros i H; [discriminate|].
  destruct (p y) eqn:E.
  - injection H as <-. exists y. split; [reflexivity|exact E].
  - destruct (findIndex p l) as [k|]; [|discriminate].
    injection H as <-. apply (IH k eq_refl).
Qed.

Lemma findIndex_None {A} (p : A -> bool) (l : list A) :
  findIndex p l = None <-> forall x, In x l -> p x = false.
Proof.
  induction l as [|y l IH]; simpl.
  - split; [intros _ x []|reflexivity].
  - destruct (p y) eqn:E.
    + split; [discriminate|]. intros H. rewrite (H y (or_introl eq_refl)) in E.
      discriminate.
    + destruct (findIndex p l) as [k|].
      * split; [discriminate|]. intros H.
        assert (N : Some k = None); [|discriminate].
        apply IH. intros x I. apply H. right. exact I.
      * split; [|reflexivity]. intros _ x [<-|I]; [exact E|].
        apply IH; [reflexivity|exact I].
Qed.

Lemma nth_error_updateAt_eq {A} (f : A -> A) (l : list A) (i : nat) :
  nth_error (updateAt i f l) i = option_map f (nth_error l i).
Proof.
  revert i. induction l as [|x l IH]; intros [|i]; simpl; auto.
Qed.

Lemma nth_error_updateAt_ne {A} (f : A -> A) (l : list A) (i j : nat) :
  j <> i -> nth_error (updateAt i f l) j = nth_error l j.
Proof.
  revert i j. induction l as [|x l IH]; intros [|i] [|j] H; simpl; auto.
  contradiction.
Qed.

Lemma length_updateAt {A} (f : A -> A) (l : list A) (i : nat) :
  List.length (updateAt i f l) = List.length l.
Proof.
  revert i. induction l as [|x l IH]; intros [|i]; simpl; auto.
Qed.

(** The state [takeOverTask] leaves, up to what [updateStaffPanel] and
    [showToast] write into the document. *)
Lemma takeOverTask_found (s : App) (u : User.t) (taskId : Z) (i : nat) :
  currentUser s = Some u ->
  findIndex (fun t => Task.id t =? taskId) (tasks s) = Some i ->
  exists d,
    exec (takeOverTask taskId) s
    = with_dom d
        (with_tasks
           (updateAt i
              (Task.with_editReason
                 (Some ("Task taken over by " ++ User.username u)%string))
              (updateAt i (Task.with_edited true)
                 (updateAt i (Task.with_takenOverBy (Some (User.username u)))
                           (tasks s)))) s).
Proof.
  intros H F. unfold exec, takeOverTask.
  mstep reflexivity. fields. rewrite F.
  mstep (unfold theUser; mstep reflexivity; fields; rewrite H; reflexivity).
  do 3 (mstep reflexivity). fields.
  match goal with |- exists d, snd (?m ?s0) = _ =>
    assert (D : domOnly m) by
      (apply domOnly_bind; [apply domOnly_updateStaffPanel|intros _;
                            apply domOnly_showToast]);
    exists (dom (snd (m s0))); rewrite (D s0) at 1
  end.
  reflexivity.
Qed.

Lemma sent_takeOverTask (s : App) (taskId : Z) :
  sent (exec (takeOverTask taskId) s) = sent s.
Proof.
  destruct (findIndex (fun t => Task.id t =? taskId) (tasks s)) as [i|] eqn:F.
  - destruct (currentUser s) as [u|] eqn:H.
    + destruct (takeOverTask_found s u taskId i H F) as [d ->]. reflexivity.
    + unfold exec, takeOverTask. mstep reflexivity. fields. rewrite F.
      cbv [bind theUser gets]. rewrite H. reflexivity.
  - unfold exec, takeOverTask. mstep reflexivity. fields. rewrite F. reflexivity.
Qed.

(** C7. [takeOverTask] sends nothing to the backend.  While a user is logged
    in and the cache holds a task with the given id, the first such task gets
    [takenOverBy] set to that user's name (and is marked edited, with the
    reason saying so); the task at every other position is left as it was. *)
Theorem takeOverTask_is_local (s : App) (taskId : Z) :
  let s' := exec (takeOverTask taskId) s in
  sent s' = sent s
  /\ forall u, currentUser s = Some u ->
     (exists t, In t (tasks s) /\ Task.id t = taskId) ->
     exists i task,
       nth_error (tasks s) i = Some task
       /\ Task.id task = taskId
       /\ nth_error (tasks s') i
          = Some (Task.with_editReason
                    (Some ("Task taken over by " ++ User.username u)%string)
                    (Task.with_edited true
                       (Task.with_takenOverBy (Some (User.username u)) task)))
       /\ (forall task', nth_error (tasks s') i = Some task' ->
             Task.takenOverBy task' = Some (User.username u))
       /\ (forall j, j <> i -> nth_error (tasks s') j = nth_error (tasks s) j)
       /\ List.length (tasks s') = List.length (tasks s).
Proof.
  intros s'. split; [apply sent_takeOverTask|].
  intros u H [t [I E]].
  destruct (findIndex (fun t => Task.id t =? taskId) (tasks s)) as [i|] eqn:F.
  - destruct (findIndex_Some _ _ _ F) as [task [N P]].
    apply Z.eqb_eq in P.
    destruct (takeOverTask_found s u taskId i H F) as [d R].
    assert (T : nth_error (tasks s') i
                = Some (Task.with_editReason
                          (Some ("Task taken over by " ++ User.username u)%string)
                          (Task.with_edited true
                             (Task.with_takenOverBy (Some (User.username u)) task)))).
    { unfold s'. rewrite R. fields. rewrite !nth_error_updateAt_eq, N. reflexivity. }
    exists i, task. repeat split; auto.
    + intros task' T'. rewrite T in T'. injection T' as <-. reflexivity.
    + intros j J. unfold s'. rewrite R. fields.
      rewrite !nth_error_updateAt_ne by exact J. reflexivity.
    + unfold s'. rewrite R. fields. rewrite !length_updateAt. reflexivity.
  - exfalso. rewrite findIndex_None in F. specialize (F t I). simpl in F.
    apply Z.eqb_neq in F. contradiction.
Qed.

Lemma takeOverTask_is_local_witness :
  currentUser aliceApp = Some alice
  /\ (exists t, In t (tasks aliceApp) /\ Task.id t = 2)
  /\ map Task.takenOverBy (tasks (exec (takeOverTask 2) aliceApp))
     = [None; Some "alice"; None]
  /\ sent (exec (takeOverTask 2) aliceApp) = [].
Proof.
  assert (P : exists t, In t (tasks aliceApp) /\ Task.id t = 2).
  { exists (sampleTask 2 "Pending" "bob" "B2" [] (77 * hour)).
    split; [right; left; reflexivity|reflexivity]. }
  split; [reflexivity|]. split; [exact P|].
  destruct (takeOverTask_is_local aliceApp 2) as [S T].
  destruct (T alice eq_refl P) as [i [task _]].
  split; [vm_compute; reflexivity|exact S].
Defined.

(** ** Computations that leave a part of the state alone *)

Lemma keeps_ret {A B} (proj : App -> B) (a : A) : keeps proj (ret a).
Proof. intros s. reflexivity. Qed.

Lemma keeps_throw {A B} (proj : App -> B) (e : string) : keeps proj (@throw A e).
Proof. intros s. reflexivity. Qed.

Lemma keeps_gets {A B} (proj : App -> B) (f : App -> A) : keeps proj (gets f).
Proof. intros s. reflexivity. Qed.

Lemma keeps_modify {B} (proj : App -> B) (f : App -> App) :
  (forall s, proj (f s) = proj s) -> keeps proj (modify f).
Proof. intros H s. apply H. Qed.

Lemma keeps_bind {A B C} (proj : App -> C) (m : M A) (k : A -> M B) :
  keeps proj m -> (forall a, keeps proj (k a)) -> keeps proj (bind m k).
Proof.
  intros Hm Hk s. unfold bind. specialize (Hm s).
  destruct (m s) as [[a|e] s1]; simpl in *; [|exact Hm].
  rewrite (Hk a s1). exact Hm.
Qed.

Lemma keeps_tryCatch {A C} (proj : App -> C) (m : M A) (h : string -> M A) :
  keeps proj m -> (forall e, keeps proj (h e)) -> keeps proj (tryCatch m h).
Proof.
  intros Hm Hh s. unfold tryCatch. specialize (Hm s).
  destruct (m s) as [[a|e] s1]; simpl in *; [exact Hm|].
  rewrite (Hh e s1). exact Hm.
Qed.

Lemma keeps_forEach {A C} (proj : App -> C) (l : list A) (f : A -> M unit) :
  (forall x, keeps proj (f x)) -> keeps proj (forEach l f).
Proof.
  intros Hf. induction l as [|x l IH]; simpl.
  - apply keeps_ret.
  - apply keeps_bind; [apply Hf|intros _; exact IH].
Qed.

Lemma keeps_domOnly {A C} (proj : App -> C) (m : M A) :
  (forall d s, proj (with_dom d s) = proj s) -> domOnly m -> keeps proj m.
Proof. intros H D s. rewrite (D s). apply H. Qed.

(** Takes a computation apart; what is left are the updates of the state. *)
Ltac keeps_tac :=
  repeat lazymatch goal with
    | |- keeps _ (ret _) => apply keeps_ret
    | |- keeps _ (throw _) => apply keeps_throw
    | |- keeps _ (gets _) => apply keeps_gets
    | |- keeps _ (modify _) => apply keeps_modify; intros ?; reflexivity
    | |- keeps _ (modifyDom _) =>
        unfold modifyDom; apply keeps_modify; intros ?; reflexivity
    | |- keeps _ (bind _ _) => apply keeps_bind; [|intros ?]
    | |- keeps _ (tryCatch _ _) => apply keeps_tryCatch; [|intros ?]
    | |- keeps _ (forEach _ _) => apply keeps_forEach; intros ?
    | |- keeps _ (renderTasks _) =>
        apply keeps_domOnly; [reflexivity|apply domOnly_renderTasks]
    | |- keeps _ updateStaffPanel =>
        apply keeps_domOnly; [reflexivity|apply domOnly_updateStaffPanel]
    | |- keeps _ (updateStaffAlerts _) =>
        apply keeps_domOnly; [reflexivity|apply domOnly_updateStaffAlerts]
    | |- keeps _ updateReports =>
        apply keeps_domOnly; [reflexivity|apply domOnly_updateReports]
    | |- keeps _ theUser =>
        apply keeps_domOnly; [reflexivity|apply domOnly_theUser]
    | |- keeps _ (match ?x with _ => _ end) => destruct x
    end.

Lemma keeps_tasks_handleLogout : keeps tasks handleLogout.
Proof.
  unfold handleLogout, showLogin, apiFetch, hide, unhide, setHidden, showToast.
  keeps_tac.
Qed.

Lemma keeps_tasks_settle {A} (r : Response A) : keeps tasks (settle r).
Proof.
  unfold settle. destruct r; [apply keeps_ret| |apply keeps_throw].
  apply keeps_bind; [unfold showToast; keeps_tac|intros _].
  apply keeps_bind; [apply keeps_tasks_handleLogout|intros _; apply keeps_throw].
Qed.

(** ** Refetching the tasks *)

Lemma fetchTasksAndRender_settled_tasks clk data s :
  tasks (exec (fetchTasksAndRender_settled clk (Ok data)) s)
  = map mapBackendTaskToUI data.
Proof.
  unfold exec, fetchTasksAndRender_settled, tryCatch.
  match goal with |- tasks (snd (let (o, s') := ?m s in _)) = _ =>
    assert (E : tasks (snd (m s)) = map mapBackendTaskToUI data)
  end.
  { do 2 (mstep reflexivity).
    match goal with |- tasks (snd (?m ?s0)) = _ =>
      assert (K : keeps tasks m) by (unfold updateDashboard, apiFetch; keeps_tac);
      rewrite (K s0)
    end. reflexivity. }
  match goal with |- tasks (snd (let (o, s') := ?m s in _)) = _ =>
    destruct (m s) as [[[]|e] s1]
  end; exact E.
Qed.

Lemma fetchTasksAndRender_settled_logged_in clk data s u :
  currentUser s = Some u ->
  fetchTasksAndRender_settled clk (Ok data) s
  = (Returned tt,
     with_sent (sent s ++ [{| method := GET; url := api_dashboard_stats;
                              body := NoBody |}])
       (rendered clk u (with_tasks (map mapBackendTaskToUI data) s))).
Proof.
  intros H. unfold fetchTasksAndRender_settled, tryCatch.
  do 2 (mstep reflexivity).
  mstep (apply (renderTasks_logged_in clk u); exact H).
  reflexivity.
Qed.

Lemma mapBackendTaskToUI_fields (bt : BackendTask.t) :
  Task.takenOverBy (mapBackendTaskToUI bt) = None
  /\ Task.sharedWith (mapBackendTaskToUI bt)
     = match BackendTask.shared_with bt with Some l => l | None => [] end
  /\ Task.edited (mapBackendTaskToUI bt) = BackendTask.edited bt
  /\ Task.editReason (mapBackendTaskToUI bt) = BackendTask.edit_reason bt.
Proof. repeat split. Qed.

(** C10. A task list that arrives replaces the cache by its image under
    [mapBackendTaskToUI], whatever the cache held: every task then has
    [takenOverBy] null, [sharedWith] is the backend's array or empty, and
    [edited] and [editReason] are the backend's, so what [takeOverTask] wrote
    is gone; no notification tells the user.  A successful save (create or
    edit) and a successful share each request the list again. *)
Theorem refetch_discards_take_over
    (clk : Clock) (s : App) (data : list BackendTask.t) (taskId : Z)
    (staffName : string) :
  let refetch := exec (fetchTasksAndRender_settled clk (Ok data)) in
  tasks (refetch s) = map mapBackendTaskToUI data
  /\ tasks (refetch (exec (takeOverTask taskId) s)) = map mapBackendTaskToUI data
  /\ Forall (fun t => Task.takenOverBy t = None) (tasks (refetch s))
  /\ (forall bt,
        Task.takenOverBy (mapBackendTaskToUI bt) = None
        /\ Task.sharedWith (mapBackendTaskToUI bt)
           = match BackendTask.shared_with bt with Some l => l | None => [] end
        /\ Task.edited (mapBackendTaskToUI bt) = BackendTask.edited bt
        /\ Task.editReason (mapBackendTaskToUI bt) = BackendTask.edit_reason bt)
  /\ (forall u, currentUser s = Some u -> toasts (dom (refetch s)) = toasts (dom s))
  /\ sent (exec (saveTask_settled (Ok tt)) s)
     = sent s ++ [{| method := GET; url := api_tasks; body := NoBody |}]
  /\ sent (exec (shareTask_settled staffName (Ok tt)) s)
     = sent s ++ [{| method := GET; url := api_tasks; body := NoBody |}].
Proof.
  intros refetch. unfold refetch.
  split; [apply fetchTasksAndRender_settled_tasks|].
  split; [apply fetchTasksAndRender_settled_tasks|].
  split.
  { rewrite fetchTasksAndRender_settled_tasks. apply Forall_forall.
    intros t I. apply in_map_iff in I. destruct I as [bt [<- _]]. reflexivity. }
  split; [apply mapBackendTaskToUI_fields|].
  split.
  { intros u H. unfold exec.
    rewrite (fetchTasksAndRender_settled_logged_in clk data s u H). reflexivity. }
  split; reflexivity.
Qed.

Lemma refetch_discards_take_over_witness :
  currentUser aliceApp = Some alice
  /\ toasts (dom (exec (fetchTasksAndRender_settled sampleClock (Ok []))
                       (exec (takeOverTask 2) aliceApp)))
     = toasts (dom (exec (takeOverTask 2) aliceApp))
  /\ tasks (exec (fetchTasksAndRender_settled sampleClock (Ok []))
                 (exec (takeOverTask 2) aliceApp)) = [].
Proof.
  split; [reflexivity|].
  destruct (refetch_discards_take_over sampleClock (exec (takeOverTask 2) aliceApp)
              [] 2 "bob") as [T [_ [_ [_ [S _]]]]].
  split; [exact (S alice eq_refl)|exact T].
Defined.

(** ** Saving and deleting a task *)

Lemma deleteTask_settled_logged_in clk id s u :
  currentUser s = Some u ->
  exec (deleteTask_settled clk id (Ok tt)) s
  = exec (showToast "Task deleted successfully!" ToastSuccess)
      (with_sent (sent s ++ [getStats])
         (rendered clk u
            (with_tasks (filter (fun t => negb (Task.id t =? id)) (tasks s)) s))).
Proof.
  intros H. unfold exec, deleteTask_settled, tryCatch.
  do 2 (mstep reflexivity).
  mstep (apply (renderTasks_logged_in clk u); exact H).
  reflexivity.
Qed.

(** C3 as stated fails for delete: after a delete the backend confirmed, the
    task list is not requested again; the cache is the old one without the
    deleted task. *)
Lemma delete_does_not_refetch :
  let before := exec (deleteTask 1 true) adminApp in
  let after := exec (deleteTask_settled sampleClock 1 (Ok tt)) before in
  ~ refetched adminApp after
  /\ sent after = [{| method := DELETE; url := api_task 1; body := NoBody |}; getStats]
  /\ tasks after = [sampleTask 2 "Pending" "bob" "B2" [] (77 * hour);
                    sampleTask 3 "Completed" "alice" "B1" ["bob"] (50 * hour)].
Proof.
  intros before after.
  assert (S : sent after
              = [{| method := DELETE; url := api_task 1; body := NoBody |}; getStats])
    by (vm_compute; reflexivity).
  split; [|split; [exact S|vm_compute; reflexivity]].
  intros [requests [E I]]. rewrite S in E. simpl in E. subst requests.
  destruct I as [I|[I|[]]]; discriminate.
Qed.

(** C3, amended.  Saving sends POST /api/tasks for a new task and
    PUT /api/tasks/:id for an edited one; when the backend confirms, the
    task list is requested again and the list that arrives replaces the
    cache.  Deleting sends DELETE /api/tasks/:id; when the backend confirms,
    the tasks with that id are removed from the cache and nothing but the
    dashboard figures is requested.  The cache stays as it is until the
    backend confirms, and when it refuses. *)
Theorem save_refetches_and_delete_patches
    (clk : Clock) (s : App) (u : User.t) (id : Z) (data : list BackendTask.t) :
  currentUser s = Some u ->
  let payload := mapUIToBackendTask (taskForm (dom s)) in
  (editingTaskId s = None ->
   sent (exec saveTask s)
   = sent s ++ [{| method := POST; url := api_tasks; body := TaskBody payload None |}])
  /\ (forall editing, editingTaskId s = Some editing ->
      sent (exec saveTask s)
      = sent s ++ [{| method := PUT; url := api_task editing;
                      body := TaskBody payload (Some (currentEditReason s)) |}])
  /\ tasks (exec saveTask s) = tasks s
  /\ sent (exec (saveTask_settled (Ok tt)) s) = sent s ++ [getTasks]
  /\ tasks (exec (saveTask_settled (Ok tt)) s) = tasks s
  /\ tasks (exec (fetchTasksAndRender_settled clk (Ok data)) s)
     = map mapBackendTaskToUI data
  /\ (forall message,
        sent (exec (saveTask_settled (Failed message)) s) = sent s
        /\ tasks (exec (saveTask_settled (Failed message)) s) = tasks s)
  /\ sent (exec (deleteTask id true) s)
     = sent s ++ [{| method := DELETE; url := api_task id; body := NoBody |}]
  /\ tasks (exec (deleteTask id true) s) = tasks s
  /\ exec (deleteTask id false) s = s
  /\ tasks (exec (deleteTask_settled clk id (Ok tt)) s)
     = filter (fun t => negb (Task.id t =? id)) (tasks s)
  /\ sent (exec (deleteTask_settled clk id (Ok tt)) s) = sent s ++ [getStats]
  /\ (forall message,
        sent (exec (deleteTask_settled clk id (Failed message)) s) = sent s
        /\ tasks (exec (deleteTask_settled clk id (Failed message)) s) = tasks s).
Proof.
  intros H payload.
  split.
  { intros E. unfold exec, saveTask. do 3 (mstep reflexivity). fields.
    rewrite E. reflexivity. }
  split.
  { intros editing E. unfold exec, saveTask. do 3 (mstep reflexivity). fields.
    rewrite E. reflexivity. }
  split.
  { unfold exec, saveTask. do 3 (mstep reflexivity). fields.
    destruct (editingTaskId s); reflexivity. }
  split; [reflexivity|]. split; [reflexivity|].
  split; [apply fetchTasksAndRender_settled_tasks|].
  split; [intros message; split; reflexivity|].
  split; [reflexivity|]. split; [reflexivity|]. split; [reflexivity|].
  rewrite (deleteTask_settled_logged_in clk id s u H).
  split; [reflexivity|]. split; [reflexivity|].
  intros message; split; reflexivity.
Qed.

Lemma save_refetches_and_delete_patches_witness :
  currentUser adminApp = Some admin
  /\ tasks (exec (deleteTask_settled sampleClock 3 (Ok tt)) adminApp)
     = filter (fun t => negb (Task.id t =? 3)) (tasks adminApp)
  /\ sent (exec (saveTask_settled (Ok tt)) adminApp) = sent adminApp ++ [getTasks].
Proof.
  split; [reflexivity|].
  destruct (save_refetches_and_delete_patches sampleClock adminApp admin 3 []
              eq_refl) as [_ [_ [_ [S [_ [_ [_ [_ [_ [_ [T _]]]]]]]]]]].
  split; [exact T|exact S].
Defined.

(** ** The reason for a staff edit *)

Lemma trimEnd_empty (t : string) : trimEnd t = "" <-> allWhiteSpace t = true.
Proof.
  induction t as [|c t IH]; simpl; [tauto|].
  destruct (trimEnd t) eqn:E.
  - destruct (isWhiteSpace c); simpl.
    + rewrite <- IH. tauto.
    + split; discriminate.
  - split; [discriminate|]. intros H. apply andb_true_iff in H.
    destruct H as [_ H]. apply IH in H. discriminate.
Qed.

Lemma allWhiteSpace_trimStart (v : string) :
  allWhiteSpace (trimStart v) = allWhiteSpace v.
Proof.
  induction v as [|c v IH]; simpl; [reflexivity|].
  destruct (isWhiteSpace c) eqn:E; simpl; [exact IH|].
  rewrite E. reflexivity.
Qed.

(** [trim] leaves nothing exactly of the strings that are white space only. *)
Lemma trim_empty (v : string) : trim v = "" <-> allWhiteSpace v = true.
Proof.
  unfold trim. rewrite trimEnd_empty, allWhiteSpace_trimStart. tauto.
Qed.

Lemma isWhiteSpace_spec (c : ascii) :
  isWhiteSpace c = true <-> In (nat_of_ascii c) whiteSpaceCodes.
Proof.
  unfold isWhiteSpace, whiteSpaceCodes. cbv zeta.
  rewrite !orb_true_iff, andb_true_iff, !Nat.leb_le, !Nat.eqb_eq.
  simpl. lia.
Qed.

Lemma allWhiteSpace_spec (s : string) : allWhiteSpace s = true <-> blank s.
Proof.
  induction s as [|c s IH]; cbn [allWhiteSpace blank]; [split; auto|].
  rewrite andb_true_iff, isWhiteSpace_spec, IH. tauto.
Qed.

Lemma blank_dec (s : string) : blank s \/ ~ blank s.
Proof.
  rewrite <- allWhiteSpace_spec. destruct (allWhiteSpace s); [left|right]; congruence.
Qed.

Lemma trimStart_spec (v : string) :
  (exists before, v = (before ++ trimStart v)%string /\ blank before)
  /\ (forall c rest, trimStart v = String c rest -> isWhiteSpace c = false).
Proof.
  induction v as [|c v [[before [E B]] N]]; simpl.
  - split; [exists ""; split; [reflexivity|exact I]|discriminate].
  - destruct (isWhiteSpace c) eqn:W.
    + split; [|exact N]. exists (String c before). simpl. split.
      * congruence.
      * split; [apply isWhiteSpace_spec; exact W|exact B].
    + split.
      * exists "". split; [reflexivity|exact I].
      * intros c0 rest Q. injection Q as <- _. exact W.
Qed.

Lemma trimEnd_spec (t : string) :
  (exists after, t = (trimEnd t ++ after)%string /\ blank after)
  /\ (forall front c, trimEnd t = (front ++ String c "")%string -> isWhiteSpace c = false)
  /\ (forall c rest, t = String c rest -> isWhiteSpace c = false ->
        exists rest', trimEnd t = String c rest').
Proof.
  induction t as [|c t [[after [E B]] [N F]]]; simpl.
  - split; [exists ""; split; [reflexivity|exact I]|].
    split; [|discriminate]. intros [|a front] c Q; discriminate.
  - destruct (trimEnd t) as [|a rest] eqn:T.
    + destruct (isWhiteSpace c) eqn:W.
      * split.
        { exists (String c after). simpl in *. split; [congruence|].
          split; [apply isWhiteSpace_spec; exact W|exact B]. }
        split; [intros [|a front] c0 Q; discriminate|].
        intros c0 rest Q W0. injection Q as <- _. congruence.
      * split.
        { exists after. simpl in *. split; [congruence|exact B]. }
        split.
        { intros [|a front] c0 Q; simpl in Q.
          - injection Q as <-. exact W.
          - injection Q as _ Q. destruct front; discriminate. }
        intros c0 rest Q _. injection Q as <- _. exists "". reflexivity.
    + split.
      { exists after. simpl in *. split; [congruence|exact B]. }
      split.
      { intros [|b front] c0 Q; simpl in Q.
        - discriminate.
        - injection Q as _ Q. apply (N front c0). exact Q. }
      intros c0 rest0 Q _. injection Q as <- _. exists (String a rest). reflexivity.
Qed.

(** [trim] strips the white space at the two ends, and nothing else. *)
Lemma trim_stripped (v : string) : stripped v (trim v).
Proof.
  unfold stripped, trim.
  destruct (trimStart_spec v) as [[before [E B]] N].
  destruct (trimEnd_spec (trimStart v)) as [[after [E' B']] [N' F]].
  split; [|split].
  - exists before, after. split; [|split; assumption].
    rewrite <- E'. exact E.
  - intros c rest Q W. apply isWhiteSpace_spec in W.
    destruct (trimStart v) as [|c0 rest0] eqn:T; [discriminate|].
    specialize (N c0 rest0 eq_refl).
    destruct (F c0 rest0 eq_refl N) as [rest' Q'].
    rewrite Q in Q'. injection Q' as -> _. congruence.
  - intros front c Q W. apply isWhiteSpace_spec in W.
    rewrite (N' front c Q) in W. discriminate.
Qed.

(** C5. When a staff user submits the form of a task being edited, the
    reason modal opens and nothing is sent.  Saving from the modal with a
    reason that is empty or holds white space only (tab, line feed, vertical
    tab, form feed, carriage return, space, no-break space) sends nothing and
    shows the error notification; with any other reason it sends
    PUT /api/tasks/:id whose body carries as [edit_reason] the reason without
    the white space at its two ends, which is not empty. *)
Theorem staff_edit_needs_reason (s : App) (u : User.t) (id : Z) :
  currentUser s = Some u ->
  User.role u = "staff" ->
  editingTaskId s = Some id ->
  let value := editReason (dom s) in
  shown (dom (exec handleTaskSubmit s)) editReasonModal = true
  /\ sent (exec handleTaskSubmit s) = sent s
  /\ (blank value ->
      sent (exec saveTaskWithReason s) = sent s
      /\ toasts (dom (exec saveTaskWithReason s)) = toasts (dom s) ++ [reasonRequired])
  /\ (~ blank value ->
      exists reason,
        sent (exec saveTaskWithReason s)
        = sent s ++ [{| method := PUT; url := api_task id;
                        body := TaskBody (mapUIToBackendTask (taskForm (dom s)))
                                         (Some reason) |}]
        /\ stripped value reason
        /\ reason <> ""
        /\ toasts (dom (exec saveTaskWithReason s)) = toasts (dom s)).
Proof.
  intros H R E value.
  assert (S1 : exec handleTaskSubmit s = exec (setDisplay editReasonModal true) s).
  { unfold exec, handleTaskSubmit. mstep reflexivity. fields. rewrite E.
    mstep (unfold theUser; mstep reflexivity; fields; rewrite H; reflexivity).
    rewrite R. reflexivity. }
  rewrite S1. split; [reflexivity|]. split; [reflexivity|].
  split.
  - intros W. apply allWhiteSpace_spec, trim_empty in W.
    unfold exec, saveTaskWithReason. do 3 (mstep reflexivity). fields.
    fold value. rewrite W. split; reflexivity.
  - intros W.
    assert (N : trim value <> "").
    { intros T. apply trim_empty, allWhiteSpace_spec in T. exact (W T). }
    exists (trim value).
    unfold exec, saveTaskWithReason. do 3 (mstep reflexivity). fields.
    fold value. apply String.eqb_neq in N. rewrite N.
    mstep reflexivity. unfold saveTask. do 3 (mstep reflexivity). fields.
    rewrite E. apply String.eqb_neq in N.
    split; [reflexivity|]. split; [apply trim_stripped|]. split; [exact N|reflexivity].
Qed.

Lemma staff_edit_needs_reason_witness :
  currentUser (aliceGivesReason noBreakSpaces) = Some alice
  /\ User.role alice = "staff"
  /\ editingTaskId (aliceGivesReason noBreakSpaces) = Some 1
  /\ blank noBreakSpaces
  /\ sent (exec saveTaskWithReason (aliceGivesReason noBreakSpaces))
     = sent (aliceGivesReason noBreakSpaces)
  /\ toasts (dom (exec saveTaskWithReason (aliceGivesReason noBreakSpaces)))
     = toasts (dom (aliceGivesReason noBreakSpaces)) ++ [reasonRequired].
Proof.
  split; [reflexivity|]. split; [reflexivity|]. split; [reflexivity|].
  assert (B : blank noBreakSpaces) by (vm_compute; tauto).
  split; [exact B|].
  destruct (staff_edit_needs_reason (aliceGivesReason noBreakSpaces) alice 1
              eq_refl eq_refl eq_refl) as [_ [_ [K _]]].
  exact (K B).
Defined.

(** ** Duplicate services *)

Lemma upperCaseLetters_spec (n : nat) :
  In n upperCaseLetters
  <-> ((65 <= n <= 90) \/ (192 <= n <= 214) \/ (216 <= n <= 222))%nat.
Proof.
  unfold upperCaseLetters. rewrite !in_app_iff, !in_seq. lia.
Qed.

Lemma ascii_eq_nat (a b : ascii) : a = b <-> nat_of_ascii a = nat_of_ascii b.
Proof.
  split; [congruence|]. intros E.
  rewrite <- (ascii_nat_embedding a), <- (ascii_nat_embedding b), E. reflexivity.
Qed.

Lemma lowerAscii_nat (c : ascii) :
  nat_of_ascii (lowerAscii c)
  = if orb (andb (Nat.leb 65 (nat_of_ascii c)) (Nat.leb (nat_of_ascii c) 90))
           (orb (andb (Nat.leb 192 (nat_of_ascii c)) (Nat.leb (nat_of_ascii c) 214))
                (andb (Nat.leb 216 (nat_of_ascii c)) (Nat.leb (nat_of_ascii c) 222)))
    then (nat_of_ascii c + 32)%nat else nat_of_ascii c.
Proof.
  unfold lowerAscii. cbv zeta.
  destruct (orb _ _) eqn:U; [|reflexivity].
  apply nat_ascii_embedding.
  rewrite !orb_true_iff, !andb_true_iff, !Nat.leb_le in U. lia.
Qed.

(** Two code units have one lower-case form exactly when they are the same
    letter up to case. *)
Lemma lowerAscii_same (a b : ascii) :
  lowerAscii a = lowerAscii b <-> sameLetter a b.
Proof.
  unfold sameLetter.
  rewrite !ascii_eq_nat, !lowerAscii_nat, !upperCaseLetters_spec.
  destruct (orb _ _) eqn:A; destruct (orb (andb (Nat.leb 65 (nat_of_ascii b)) _) _) eqn:B;
    repeat (rewrite ?orb_true_iff, ?orb_false_iff, ?andb_true_iff, ?andb_false_iff,
                    ?Nat.leb_le, ?Nat.leb_gt in A);
    repeat (rewrite ?orb_true_iff, ?orb_false_iff, ?andb_true_iff, ?andb_false_iff,
                    ?Nat.leb_le, ?Nat.leb_gt in B); lia.
Qed.

Lemma toLowerCase_same (x y : string) :
  toLowerCase x = toLowerCase y <-> sameUpToCase x y.
Proof.
  revert y. induction x as [|a x IH]; intros [|b y]; cbn [toLowerCase sameUpToCase].
  - split; auto.
  - split; [discriminate|tauto].
  - split; [discriminate|tauto].
  - rewrite <- IH, <- lowerAscii_same. split.
    + intros E. injection E as E1 E2. auto.
    + intros [E1 E2]. congruence.
Qed.

Lemma populateServiceDatabase_logged_in (s : App) (u : User.t) :
  currentUser s = Some u ->
  populateServiceDatabase s
  = (Returned tt,
     with_dom (with_serviceListContainer
                 (map (serviceItemFor u (serviceDatabase s)) (serviceDatabase s))
                 (dom s)) s).
Proof.
  intros H. unfold populateServiceDatabase.
  do 2 (mstep reflexivity). fields.
  rewrite (forEach_ext (fun s => currentUser s = Some u)
             _ (fun service => modifyDom (fun d =>
                  with_serviceListContainer
                    (serviceListContainer d
                     ++ [serviceItemFor u (serviceDatabase s) service]) d))).
  - rewrite (forEach_append serviceListContainer with_serviceListContainer
               (serviceItemFor u (serviceDatabase s))) by lens.
    fields. reflexivity.
  - intros x s0 H0. cbv [bind theUser gets]. rewrite H0. reflexivity.
  - intros x s0 H0. exact H0.
  - exact H.
Qed.

Lemma duplicates_nonempty (services : list Service.t) (service : Service.t) :
  (0 <? List.length (duplicates services service))%nat = true
  <-> hasNamesake services service.
Proof.
  unfold hasNamesake, duplicates. rewrite Nat.ltb_lt. split.
  - intros L.
    destruct (filter _ services) as [|other rest] eqn:E; [simpl in L; lia|].
    assert (I : In other (other :: rest)) by (left; reflexivity).
    rewrite <- E in I. apply filter_In in I. destruct I as [I P].
    apply andb_true_iff in P. destruct P as [P1 P2].
    apply String.eqb_eq, toLowerCase_same in P1.
    apply negb_true_iff, Z.eqb_neq in P2.
    exists other. auto.
  - intros [other [I [N E]]].
    assert (F : In other (filter
                 (fun s => andb (toLowerCase (Service.name s)
                                 === toLowerCase (Service.name service))
                                (negb (Service.id s =? Service.id service)))
                 services)).
    { apply filter_In. split; [exact I|]. apply andb_true_iff. split.
      - apply String.eqb_eq, toLowerCase_same. exact E.
      - apply negb_true_iff, Z.eqb_neq. exact N. }
    destruct (filter _ services); [destruct F|simpl; lia].
Qed.

(** C9. While a user is logged in, [populateServiceDatabase] renders one
    item per service of the catalog, in order, and an item carries the
    duplicate warning exactly when another service with a different id has
    the same name up to case: the two names have one length and, code unit by
    code unit, are equal or the upper- and lower-case form of one letter.
    Nothing is rejected: the catalog is the list the backend sent, and saving
    a service sends it whatever its name.  Of Passport, passport and Visa the
    first two are flagged, the third is not; so it is with ECOLE and ecole
    written with an accented first letter. *)
Theorem duplicate_warning_iff_namesake
    (s : App) (u : User.t) (data : list Service.t) :
  currentUser s = Some u ->
  let items := serviceListContainer (dom (exec populateServiceDatabase s)) in
  map itemService items = serviceDatabase s
  /\ Forall (fun item =>
               duplicate item = true
               <-> hasNamesake (serviceDatabase s) (itemService item)) items
  /\ serviceDatabase (exec (loadServicesFromBackend_settled (Ok data)) s) = data
  /\ map itemService
         (serviceListContainer
            (dom (exec (loadServicesFromBackend_settled (Ok data)) s))) = data
  /\ sent (exec saveService s)
     = sent s ++ [match editingServiceId s with
                  | None => {| method := POST; url := api_services;
                               body := ServiceBody (serviceForm (dom s)) |}
                  | Some id => {| method := PUT; url := api_service id;
                                  body := ServiceBody (serviceForm (dom s)) |}
                  end]
  /\ map duplicate
         (serviceListContainer
            (dom (exec populateServiceDatabase
                       (with_serviceDatabase sampleServices s))))
     = [true; true; false]
  /\ map duplicate
         (serviceListContainer
            (dom (exec populateServiceDatabase
                       (with_serviceDatabase accentedServices s))))
     = [true; true; false].
Proof.
  intros H items.
  assert (E : items = map (serviceItemFor u (serviceDatabase s)) (serviceDatabase s)).
  { unfold items, exec. rewrite (populateServiceDatabase_logged_in s u H).
    reflexivity. }
  split.
  { rewrite E, map_map. simpl. apply map_id. }
  split.
  { rewrite E. apply Forall_forall. intros item I. apply in_map_iff in I.
    destruct I as [service [<- _]]. simpl. apply duplicates_nonempty. }
  assert (L : exec (loadServicesFromBackend_settled (Ok data)) s
              = exec populateServiceDropdown
                  (with_dom (with_serviceListContainer
                               (map (serviceItemFor u data) data) (dom s))
                            (with_serviceDatabase data s))).
  { unfold exec, loadServicesFromBackend_settled, tryCatch.
    do 2 (mstep reflexivity).
    mstep (apply (populateServiceDatabase_logged_in _ u); exact H).
    fields. destruct (populateServiceDropdown _) as [[[]|e] s1]; reflexivity. }
  assert (K : forall s0, serviceDatabase (exec populateServiceDropdown s0)
                         = serviceDatabase s0
                         /\ serviceListContainer (dom (exec populateServiceDropdown s0))
                            = serviceListContainer (dom s0)).
  { intros s0. split.
    - apply (keeps_domOnly serviceDatabase populateServiceDropdown);
        [reflexivity|unfold populateServiceDropdown; dom_only].
    - assert (K2 : keeps (fun s => serviceListContainer (dom s))
                         populateServiceDropdown)
        by (unfold populateServiceDropdown, modifyDom; keeps_tac).
      exact (K2 s0). }
  split; [rewrite L; rewrite (proj1 (K _)); reflexivity|].
  split.
  { rewrite L, (proj2 (K _)). fields. rewrite map_map. simpl. apply map_id. }
  split.
  { unfold exec, saveService. do 2 (mstep reflexivity). fields.
    destruct (editingServiceId s); reflexivity. }
  unfold exec. rewrite !(populateServiceDatabase_logged_in _ u) by exact H.
  split; vm_compute; reflexivity.
Qed.

Lemma duplicate_warning_iff_namesake_witness :
  currentUser (with_serviceDatabase accentedServices aliceApp) = Some alice
  /\ Forall (fun item =>
               duplicate item = true
               <-> hasNamesake accentedServices (itemService item))
            (serviceListContainer
               (dom (exec populateServiceDatabase
                          (with_serviceDatabase accentedServices aliceApp))))
  /\ map duplicate
         (serviceListContainer
            (dom (exec populateServiceDatabase
                       (with_serviceDatabase accentedServices aliceApp))))
     = [true; true; false].
Proof.
  split; [reflexivity|].
  destruct (duplicate_warning_iff_namesake
              (with_serviceDatabase accentedServices aliceApp) alice [] eq_refl)
    as [_ [F _]].
  split; [exact F|]. vm_compute. reflexivity.
Defined.

(** ** Invariants of computations *)

Section Hoare.

Variable I : App -> Prop.

Lemma hoare_ret {A} (R : A -> Prop) (a : A) : R a -> hoare I R (ret a).
Proof.
  intros H s Hs. split; [exact Hs|]. simpl. intros b E. injection E as <-. exact H.
Qed.

Lemma hoare_throw {A} (R : A -> Prop) (e : string) : hoare I R (throw e).
Proof. intros s Hs. split; [exact Hs|]. simpl. discriminate. Qed.

Lemma hoare_gets {A} (f : App -> A) :
  hoare I (fun a => exists s, I s /\ a = f s) (gets f).
Proof.
  intros s Hs. split; [exact Hs|]. simpl. intros b E. injection E as <-.
  exists s. auto.
Qed.

Lemma hoare_modify (f : App -> App) :
  (forall s, I s -> I (f s)) -> hoare I (fun _ => True) (modify f).
Proof. intros H s Hs. split; [apply H; exact Hs|]. auto. Qed.

Lemma hoare_bind {A B} (R1 : A -> Prop) (R2 : B -> Prop) (m : M A) (k : A -> M B) :
  hoare I R1 m -> (forall a, R1 a -> hoare I R2 (k a)) -> hoare I R2 (bind m k).
Proof.
  intros Hm Hk s Hs. unfold bind. destruct (Hm s Hs) as [H1 H2].
  destruct (m s) as [[a|e] s1]; simpl in *.
  - apply (Hk a (H2 a eq_refl) s1 H1).
  - split; [exact H1|discriminate].
Qed.

Lemma hoare_tryCatch {A} (R1 R : A -> Prop) (m : M A) (h : string -> M A) :
  hoare I R1 m -> (forall a, R1 a -> R a) -> (forall e, hoare I R (h e)) ->
  hoare I R (tryCatch m h).
Proof.
  intros Hm W Hh s Hs. unfold tryCatch. destruct (Hm s Hs) as [H1 H2].
  destruct (m s) as [[a|e] s1]; simpl in *.
  - split; [exact H1|]. intros b E. injection E as <-. apply W, H2. reflexivity.
  - apply (Hh e s1 H1).
Qed.

Lemma hoare_forEach {A} (l : list A) (f : A -> M unit) :
  (forall x, In x l -> hoare I (fun _ => True) (f x)) ->
  hoare I (fun _ => True) (forEach l f).
Proof.
  induction l as [|x l IH]; intros Hf; simpl.
  - apply hoare_ret. exact Logic.I.
  - apply (hoare_bind (fun _ => True) (fun _ => True)).
    + apply Hf. left. reflexivity.
    + intros _ _. apply IH. intros y Hy. apply Hf. right. exact Hy.
Qed.

Lemma hoare_weaken {A} (R1 R2 : A -> Prop) (m : M A) :
  hoare I R1 m -> (forall a, R1 a -> R2 a) -> hoare I R2 m.
Proof.
  intros Hm W s Hs. destruct (Hm s Hs) as [H1 H2]. split; [exact H1|].
  intros a E. apply W, H2, E.
Qed.

End Hoare.

(** ** The views of a staff session *)

Lemma sumOf_app {A} (f : A -> nat) (l l' : list A) :
  sumOf f (l ++ l') = (sumOf f l + sumOf f l')%nat.
Proof. induction l as [|x l IH]; simpl; [reflexivity|]. rewrite IH. lia. Qed.

(** Closes the condition an update of the state has to meet to keep
    [staffView]. *)
Ltac sv_side :=
  let s := fresh "s" in
  intros s (?U & ?S & ?D & ?V & ?Hh);
  unfold staffView, deleteButtons, revenueFigures in *; fields;
  repeat split;
  first
    [ assumption
    | exact Logic.I
    | match goal with
      | |- (_ <= _)%nat =>
          rewrite ?sumOf_app;
          repeat match goal with H : User.role _ = _ |- _ => rewrite H end;
          cbn in *; lia
      | |- _ = true -> (if ElemId_eq_dec _ _ then _ else _) = true =>
          let E := fresh in
          intros E; destruct (ElemId_eq_dec _ _);
          first [reflexivity | discriminate | congruence | exact (Hh E)]
      end
    | idtac ].

(** The lemmas about the functions of the script are collected here as they
    are proved, and picked by the function at the head of the computation. *)
Create HintDb sv discriminated.
#[local] Hint Constants Opaque : sv.
#[local] Hint Variables Opaque : sv.
#[local] Hint Extern 1 (_ <> _) => discriminate : sv.

Ltac sv_known := solve [eauto 2 with sv nocore].

Ltac hoare_go :=
  repeat first
    [ apply hoare_ret; exact Logic.I
    | apply hoare_throw
    | sv_known
    | match goal with
      | |- hoare _ ?R (ret _) =>
          is_evar R; apply (hoare_ret _ (fun _ => True)); exact Logic.I
      | |- hoare _ _ (getsDom _) => unfold getsDom; apply hoare_gets
      | |- hoare _ _ (gets _) => apply hoare_gets
      | |- hoare _ _ (bind (gets _) _) =>
          eapply hoare_bind; [apply hoare_gets|intros ? (? & ? & ?)]
      | |- hoare _ _ (bind _ _) => eapply hoare_bind; [|intros ? ?; cbv beta in *]
      | |- hoare _ _ (tryCatch _ _) =>
          eapply hoare_tryCatch; [|intros ? ?; exact Logic.I|intros ?]
      | |- hoare _ _ (forEach _ _) => apply hoare_forEach; intros ? ?
      | |- hoare _ _ (when ?b _) => destruct b; unfold when
      | |- hoare _ _ (match ?x with _ => _ end) => destruct x eqn:?
      | |- hoare _ _ (modify _) => apply hoare_modify; sv_side
      | |- hoare _ _ (modifyDom _) => unfold modifyDom; apply hoare_modify; sv_side
      end ].

Lemma sv_showToast n r h message type :
  hoare (staffView n r h) (fun _ => True) (showToast message type).
Proof. unfold showToast, modifyDom. hoare_go. Qed.

#[local] Hint Resolve sv_showToast : sv.

Lemma sv_apiFetch n r h m u b :
  hoare (staffView n r h) (fun _ => True) (apiFetch m u b).
Proof. unfold apiFetch. hoare_go. Qed.

#[local] Hint Resolve sv_apiFetch : sv.

Lemma sv_setDisplay n r h m b :
  hoare (staffView n r h) (fun _ => True) (setDisplay m b).
Proof. unfold setDisplay, modifyDom. hoare_go. Qed.

#[local] Hint Resolve sv_setDisplay : sv.

Lemma sv_hide n r h e : hoare (staffView n r h) (fun _ => True) (hide e).
Proof. unfold hide, setHidden, modifyDom. hoare_go. Qed.

#[local] Hint Resolve sv_hide : sv.

Lemma sv_unhide n r h e :
  e <> revenueCard -> hoare (staffView n r h) (fun _ => True) (unhide e).
Proof. intros N. unfold unhide, setHidden, modifyDom. hoare_go. Qed.

#[local] Hint Resolve sv_unhide : sv.

Lemma sv_setText n r h t c :
  t <> totalRevenue -> hoare (staffView n r h) (fun _ => True) (setText t c).
Proof.
  intros N. unfold setText, modifyDom. hoare_go.
  destruct (TextId_eq_dec totalRevenue t); [congruence|assumption].
Qed.

#[local] Hint Resolve sv_setText : sv.

Lemma sv_theUser n r h :
  hoare (staffView n r h) (fun u => User.role u = "staff") theUser.
Proof.
  unfold theUser. eapply hoare_bind; [apply hoare_gets|].
  intros cu (s & (U & _) & ->). destruct (currentUser s) as [u|].
  - apply hoare_ret. exact U.
  - apply hoare_throw.
Qed.

#[local] Hint Resolve sv_theUser : sv.

Lemma sv_showLogin n r h : hoare (staffView n r h) (fun _ => True) showLogin.
Proof. unfold showLogin. hoare_go. Qed.

#[local] Hint Resolve sv_showLogin : sv.

Lemma sv_handleLogout n r h : hoare (staffView n r h) (fun _ => True) handleLogout.
Proof. unfold handleLogout. hoare_go. Qed.

#[local] Hint Resolve sv_handleLogout : sv.

Lemma sv_settle n r h {A} (resp : Response A) :
  hoare (staffView n r h) (fun a => resp = Ok a) (settle resp).
Proof.
  unfold settle. destruct resp; [apply hoare_ret; reflexivity| |apply hoare_throw].
  hoare_go.
Qed.

#[local] Hint Resolve sv_settle : sv.

Lemma sv_handleLogout_settled n r h resp :
  hoare (staffView n r h) (fun _ => True) (handleLogout_settled resp).
Proof. unfold handleLogout_settled. hoare_go. Qed.

#[local] Hint Resolve sv_handleLogout_settled : sv.

Lemma taskCardFor_no_delete u task type :
  cardDeleteButtons (taskCardFor u task type) = O.
Proof.
  unfold cardDeleteButtons, taskCardFor, deleteButtonsIn. cbn [cardControls].
  destruct (andb _ _); destruct (orb _ _); reflexivity.
Qed.

Lemma sv_createTaskCard n r h task type :
  hoare (staffView n r h) (fun c => cardDeleteButtons c = O)
        (createTaskCard task type).
Proof.
  unfold createTaskCard. eapply hoare_bind; [apply sv_theUser|intros u _].
  apply hoare_ret. apply taskCardFor_no_delete.
Qed.

#[local] Hint Resolve sv_createTaskCard : sv.

Lemma sv_updateStaffPanel n r h :
  hoare (staffView n r h) (fun _ => True) updateStaffPanel.
Proof.
  unfold updateStaffPanel, populateAllTasks, populateMyTasks, populateExtraTasks,
    modifyDom.
  hoare_go.
Qed.

#[local] Hint Resolve sv_updateStaffPanel : sv.

Lemma sv_takeOverTask n r h taskId :
  hoare (staffView n r h) (fun _ => True) (takeOverTask taskId).
Proof. unfold takeOverTask. hoare_go; apply sv_updateStaffPanel. Qed.

#[local] Hint Resolve sv_takeOverTask : sv.

Lemma actionControls_no_delete u task :
  User.role u = "staff" -> deleteButtonsIn (actionControls u task) = O.
Proof.
  intros R. unfold actionControls. rewrite R. cbn.
  destruct (orb _ _); reflexivity.
Qed.

Lemma sv_createTaskRow n r h task b :
  hoare (staffView n r h) (fun row => rowDeleteButtons row = O)
        (createTaskRow task b).
Proof.
  unfold createTaskRow. destruct b.
  - eapply hoare_bind; [apply sv_theUser|intros u R].
    apply hoare_ret. apply (actionControls_no_delete u task R).
  - apply hoare_ret. reflexivity.
Qed.

#[local] Hint Resolve sv_createTaskRow : sv.

Lemma sv_renderTasks n r h clk :
  hoare (staffView n r h) (fun _ => True) (renderTasks clk).
Proof. unfold renderTasks, modifyDom. hoare_go. Qed.

#[local] Hint Resolve sv_renderTasks : sv.

Lemma sv_updateOverdueTasks n r h :
  hoare (staffView n r h) (fun _ => True) updateOverdueTasks.
Proof. unfold updateOverdueTasks, modifyDom. hoare_go. Qed.

#[local] Hint Resolve sv_updateOverdueTasks : sv.

Lemma sv_updateOverdueTasks_settled n r h resp :
  hoare (staffView n r h) (fun _ => True) (updateOverdueTasks_settled resp).
Proof. unfold updateOverdueTasks_settled, modifyDom. hoare_go. Qed.

#[local] Hint Resolve sv_updateOverdueTasks_settled : sv.

Lemma sv_updateWinners n r h :
  hoare (staffView n r h) (fun _ => True) updateWinners.
Proof. unfold updateWinners, modifyDom. hoare_go. Qed.

#[local] Hint Resolve sv_updateWinners : sv.

Lemma sv_updateWinners_settled n r h resp :
  hoare (staffView n r h) (fun _ => True) (updateWinners_settled resp).
Proof. unfold updateWinners_settled, modifyDom. hoare_go. Qed.

#[local] Hint Resolve sv_updateWinners_settled : sv.

Lemma sv_updateDashboard_settled n r h resp :
  hoare (staffView n r h) (fun _ => True) (updateDashboard_settled resp).
Proof.
  unfold updateDashboard_settled.
  eapply hoare_tryCatch; [|intros ? ?; exact Logic.I|intros ?; hoare_go].
  eapply hoare_bind; [apply sv_settle|intros stats _].
  do 3 (eapply hoare_bind; [apply sv_setText; discriminate|intros _ _]).
  eapply hoare_bind; [apply sv_theUser|intros u R].
  rewrite R. change ("staff" === "admin") with false. unfold when. hoare_go.
Qed.

#[local] Hint Resolve sv_updateDashboard_settled : sv.

Lemma sv_fetchTasksAndRender_settled n r h clk resp :
  hoare (staffView n r h) (fun _ => True) (fetchTasksAndRender_settled clk resp).
Proof. unfold fetchTasksAndRender_settled, updateDashboard. hoare_go. Qed.

#[local] Hint Resolve sv_fetchTasksAndRender_settled : sv.

Lemma sv_assignTask n r h i f :
  hoare (staffView n r h) (fun _ => True) (assignTask i f).
Proof. unfold assignTask. hoare_go. Qed.

#[local] Hint Resolve sv_assignTask : sv.

Lemma setFirstSelect_buttons id v cs cs' :
  setFirstSelect id v cs = Some cs' -> deleteButtonsIn cs' = deleteButtonsIn cs.
Proof.
  revert cs'. induction cs as [|c cs IH]; intros cs' E; simpl in E; [discriminate|].
  destruct c as [cls a i|a i old].
  - destruct (setFirstSelect id v cs) as [cs1|]; [|discriminate].
    injection E as <-. unfold deleteButtonsIn in *. simpl.
    destruct (cls === "delete-btn"); simpl; rewrite (IH cs1 eq_refl); reflexivity.
  - destruct (i =? id).
    + injection E as <-. reflexivity.
    + destruct (setFirstSelect id v cs) as [cs1|]; [|discriminate].
      injection E as <-. unfold deleteButtonsIn in *. simpl. apply IH. reflexivity.
Qed.

Lemma setFirstSelectInRows_buttons id v rows rows' :
  setFirstSelectInRows id v rows = Some rows' ->
  sumOf rowDeleteButtons rows' = sumOf rowDeleteButtons rows.
Proof.
  revert rows'. induction rows as [|x rows IH]; intros rows' E; simpl in E;
    [discriminate|].
  destruct (actionsCell x) as [cs|] eqn:C; simpl in E.
  - destruct (setFirstSelect id v cs) as [cs1|] eqn:F.
    + injection E as <-. simpl. unfold rowDeleteButtons at 1 3. simpl. rewrite C.
      rewrite (setFirstSelect_buttons id v cs cs1 F). reflexivity.
    + destruct (setFirstSelectInRows id v rows) as [rows1|]; [|discriminate].
      injection E as <-. simpl. rewrite (IH rows1 eq_refl). reflexivity.
  - destruct (setFirstSelectInRows id v rows) as [rows1|]; [|discriminate].
    injection E as <-. simpl. rewrite (IH rows1 eq_refl). reflexivity.
Qed.

Lemma setFirstSelectInCards_buttons id v cards cards' :
  setFirstSelectInCards id v cards = Some cards' ->
  sumOf cardDeleteButtons cards' = sumOf cardDeleteButtons cards.
Proof.
  revert cards'. induction cards as [|x cards IH]; intros cards' E; simpl in E;
    [discriminate|].
  destruct (setFirstSelect id v (cardControls x)) as [cs1|] eqn:F.
  - injection E as <-. simpl. unfold cardDeleteButtons at 1 3. simpl.
    rewrite (setFirstSelect_buttons id v _ cs1 F). reflexivity.
  - destruct (setFirstSelectInCards id v cards) as [cards1|]; [|discriminate].
    injection E as <-. simpl. rewrite (IH cards1 eq_refl). reflexivity.
Qed.

Lemma revertStatusSelect_view id v order d :
  deleteButtons (revertStatusSelect id v order d) = deleteButtons d
  /\ revenueFigures (revertStatusSelect id v order d) = revenueFigures d
  /\ hidden (revertStatusSelect id v order d) = hidden d.
Proof.
  induction order as [|c order IH]; simpl; [auto|].
  destruct c.
  - destruct (setFirstSelectInRows id v (taskTableBody d)) as [rows|] eqn:E; [|exact IH].
    unfold deleteButtons. fields.
    rewrite (setFirstSelectInRows_buttons id v _ rows E). auto.
  - destruct (setFirstSelectInCards id v (allTasksContainer d)) as [cards|] eqn:E;
      [|exact IH].
    unfold deleteButtons. fields.
    rewrite (setFirstSelectInCards_buttons id v _ cards E). auto.
  - destruct (setFirstSelectInCards id v (myTasksContainer d)) as [cards|] eqn:E;
      [|exact IH].
    unfold deleteButtons. fields.
    rewrite (setFirstSelectInCards_buttons id v _ cards E). auto.
  - destruct (setFirstSelectInCards id v (extraTasksContainer d)) as [cards|] eqn:E;
      [|exact IH].
    unfold deleteButtons. fields.
    rewrite (setFirstSelectInCards_buttons id v _ cards E). auto.
Qed.

Lemma sv_revertStatusSelect n r h id v :
  hoare (staffView n r h) (fun _ => True)
        (modifyDom (fun d => revertStatusSelect id v (documentOrder d) d)).
Proof.
  apply hoare_modify. intros s (U & S & D & V & Hh).
  destruct (revertStatusSelect_view id v (documentOrder (dom s)) (dom s))
    as (E1 & E2 & E3).
  unfold staffView. fields. rewrite E1, E2, E3. auto.
Qed.

#[local] Hint Resolve sv_revertStatusSelect : sv.

Lemma sv_updateTaskStatus_settled n r h clk id newStatus taskIndex oldStatus resp :
  hoare (staffView n r h) (fun _ => True)
        (updateTaskStatus_settled clk id newStatus taskIndex oldStatus resp).
Proof.
  unfold updateTaskStatus_settled, updateDashboard. hoare_go.
Qed.

#[local] Hint Resolve sv_updateTaskStatus_settled : sv.


Lemma sv_updateTaskStatus n r h id newStatus :
  hoare (staffView n r h) (fun _ => True) (updateTaskStatus id newStatus).
Proof. unfold updateTaskStatus. hoare_go. Qed.
#[local] Hint Resolve sv_updateTaskStatus : sv.

Lemma sv_populateStaffDropdown n r h :
  hoare (staffView n r h) (fun _ => True) populateStaffDropdown.
Proof. unfold populateStaffDropdown. hoare_go. Qed.
#[local] Hint Resolve sv_populateStaffDropdown : sv.

Lemma sv_populateStaffDropdown_settled n r h resp :
  hoare (staffView n r h) (fun _ => True) (populateStaffDropdown_settled resp).
Proof. unfold populateStaffDropdown_settled, addStaffOption. hoare_go. Qed.
#[local] Hint Resolve sv_populateStaffDropdown_settled : sv.

Lemma sv_populateServiceDropdown n r h :
  hoare (staffView n r h) (fun _ => True) populateServiceDropdown.
Proof. unfold populateServiceDropdown. hoare_go. Qed.
#[local] Hint Resolve sv_populateServiceDropdown : sv.

Lemma sv_populateStaffList n r h :
  hoare (staffView n r h) (fun _ => True) populateStaffList.
Proof. unfold populateStaffList. hoare_go. Qed.
#[local] Hint Resolve sv_populateStaffList : sv.

Lemma sv_populateStaffList_settled n r h resp :
  hoare (staffView n r h) (fun _ => True) (populateStaffList_settled resp).
Proof. unfold populateStaffList_settled, addStaffCard. hoare_go. Qed.
#[local] Hint Resolve sv_populateStaffList_settled : sv.

Lemma sv_populateServiceDatabase n r h :
  hoare (staffView n r h) (fun _ => True) populateServiceDatabase.
Proof. unfold populateServiceDatabase. hoare_go. Qed.
#[local] Hint Resolve sv_populateServiceDatabase : sv.

Lemma sv_loadServicesFromBackend_settled n r h resp :
  hoare (staffView n r h) (fun _ => True) (loadServicesFromBackend_settled resp).
Proof. unfold loadServicesFromBackend_settled. hoare_go. Qed.
#[local] Hint Resolve sv_loadServicesFromBackend_settled : sv.

Lemma sv_saveTask n r h : hoare (staffView n r h) (fun _ => True) saveTask.
Proof. unfold saveTask. hoare_go. Qed.
#[local] Hint Resolve sv_saveTask : sv.

Lemma sv_saveTask_settled n r h resp :
  hoare (staffView n r h) (fun _ => True) (saveTask_settled resp).
Proof. unfold saveTask_settled, hideTaskForm, fetchTasksAndRender. hoare_go. Qed.
#[local] Hint Resolve sv_saveTask_settled : sv.

Lemma sv_handleTaskSubmit n r h :
  hoare (staffView n r h) (fun _ => True) handleTaskSubmit.
Proof.
  unfold handleTaskSubmit. hoare_go.
Qed.
#[local] Hint Resolve sv_handleTaskSubmit : sv.

Lemma sv_saveTaskWithReason n r h :
  hoare (staffView n r h) (fun _ => True) saveTaskWithReason.
Proof.
  unfold saveTaskWithReason. hoare_go.
Qed.
#[local] Hint Resolve sv_saveTaskWithReason : sv.

Lemma sv_editTask n r h id : hoare (staffView n r h) (fun _ => True) (editTask id).
Proof.
  unfold editTask. hoare_go.
Qed.
#[local] Hint Resolve sv_editTask : sv.

Lemma sv_deleteTask n r h id confirmed :
  hoare (staffView n r h) (fun _ => True) (deleteTask id confirmed).
Proof. unfold deleteTask. hoare_go. Qed.
#[local] Hint Resolve sv_deleteTask : sv.

Lemma sv_deleteTask_settled n r h clk id resp :
  hoare (staffView n r h) (fun _ => True) (deleteTask_settled clk id resp).
Proof. unfold deleteTask_settled, updateDashboard. hoare_go. Qed.
#[local] Hint Resolve sv_deleteTask_settled : sv.

Lemma sv_saveService n r h : hoare (staffView n r h) (fun _ => True) saveService.
Proof. unfold saveService. hoare_go. Qed.
#[local] Hint Resolve sv_saveService : sv.

Lemma sv_saveService_settled n r h resp :
  hoare (staffView n r h) (fun _ => True) (saveService_settled resp).
Proof.
  unfold saveService_settled, hideServiceForm, loadServicesFromBackend. hoare_go.
Qed.
#[local] Hint Resolve sv_saveService_settled : sv.

Lemma sv_editService n r h id :
  hoare (staffView n r h) (fun _ => True) (editService id).
Proof. unfold editService. hoare_go. Qed.
#[local] Hint Resolve sv_editService : sv.

Lemma sv_deleteService n r h id confirmed :
  hoare (staffView n r h) (fun _ => True) (deleteService id confirmed).
Proof. unfold deleteService. hoare_go. Qed.
#[local] Hint Resolve sv_deleteService : sv.

Lemma sv_deleteService_settled n r h resp :
  hoare (staffView n r h) (fun _ => True) (deleteService_settled resp).
Proof. unfold deleteService_settled, loadServicesFromBackend. hoare_go. Qed.
#[local] Hint Resolve sv_deleteService_settled : sv.

Lemma sv_showShareModal n r h id :
  hoare (staffView n r h) (fun _ => True) (showShareModal id).
Proof. unfold showShareModal. hoare_go. Qed.
#[local] Hint Resolve sv_showShareModal : sv.

Lemma sv_selectStaffItem n r h i :
  hoare (staffView n r h) (fun _ => True) (selectStaffItem i).
Proof. unfold selectStaffItem. hoare_go. Qed.
#[local] Hint Resolve sv_selectStaffItem : sv.

Lemma sv_shareTask n r h : hoare (staffView n r h) (fun _ => True) shareTask.
Proof. unfold shareTask. hoare_go. Qed.
#[local] Hint Resolve sv_shareTask : sv.

Lemma sv_shareTask_settled n r h staffName resp :
  hoare (staffView n r h) (fun _ => True) (shareTask_settled staffName resp).
Proof.
  unfold shareTask_settled, shareTask_failed, fetchTasksAndRender. hoare_go.
Qed.
#[local] Hint Resolve sv_shareTask_settled : sv.

Lemma sv_shareTask_refetched n r h :
  hoare (staffView n r h) (fun _ => True) shareTask_refetched.
Proof. unfold shareTask_refetched, shareTask_failed. hoare_go. Qed.
#[local] Hint Resolve sv_shareTask_refetched : sv.

Lemma sv_applyTaskFilters n r h clk :
  hoare (staffView n r h) (fun _ => True) (applyTaskFilters clk).
Proof. unfold applyTaskFilters. hoare_go. Qed.
#[local] Hint Resolve sv_applyTaskFilters : sv.

Lemma sv_resetTaskFilters n r h clk :
  hoare (staffView n r h) (fun _ => True) (resetTaskFilters clk).
Proof. unfold resetTaskFilters. hoare_go. Qed.
#[local] Hint Resolve sv_resetTaskFilters : sv.

Lemma sv_updateStaffAlerts n r h clk :
  hoare (staffView n r h) (fun _ => True) (updateStaffAlerts clk).
Proof. unfold updateStaffAlerts. hoare_go. Qed.
#[local] Hint Resolve sv_updateStaffAlerts : sv.

Lemma sv_updateReports n r h :
  hoare (staffView n r h) (fun _ => True) updateReports.
Proof. unfold updateReports. hoare_go. Qed.
#[local] Hint Resolve sv_updateReports : sv.

Lemma sv_navigateToPage n r h clk page :
  hoare (staffView n r h) (fun _ => True) (navigateToPage clk page).
Proof. unfold navigateToPage, updateDashboard. hoare_go. Qed.
#[local] Hint Resolve sv_navigateToPage : sv.

Lemma sv_showApp n r h clk : hoare (staffView n r h) (fun _ => True) (showApp clk).
Proof.
  unfold showApp, populateFilterDropdowns, fetchTasksAndRender,
    loadServicesFromBackend, updateDashboard.
  eapply hoare_bind; [apply sv_hide|intros _ _].
  eapply hoare_bind; [apply sv_unhide; discriminate|intros _ _].
  eapply hoare_bind; [apply sv_theUser|intros u R]. cbv beta in R.
  rewrite R. change ("staff" === "admin") with false.
  change ("staff" === "manager") with false. cbv iota.
  hoare_go.
Qed.
#[local] Hint Resolve sv_showApp : sv.

Lemma sv_handleLogin n r h username password :
  hoare (staffView n r h) (fun _ => True) (handleLogin username password).
Proof. unfold handleLogin. hoare_go. Qed.
#[local] Hint Resolve sv_handleLogin : sv.

Lemma sv_handleLogin_settled n r h clk resp :
  staffLogin (LoginSettled resp) ->
  hoare (staffView n r h) (fun _ => True) (handleLogin_settled clk resp).
Proof.
  intros L. unfold handleLogin_settled.
  eapply hoare_tryCatch; [|intros ? ?; exact Logic.I|intros ?; hoare_go].
  eapply hoare_bind; [apply sv_settle|intros res ->].
  destruct res as [user|]; [|apply hoare_throw].
  simpl in L. hoare_go.
Qed.
#[local] Hint Resolve sv_handleLogin_settled : sv.

Lemma sv_initApp n r h clk : hoare (staffView n r h) (fun _ => True) (initApp clk).
Proof.
  unfold initApp. eapply hoare_bind; [apply hoare_gets|].
  intros saved (s0 & (_ & S0 & _) & ->).
  destruct (sessionStorage s0) as [u|]; [|apply sv_showLogin].
  eapply hoare_bind; [|intros _ _; apply sv_showApp].
  apply hoare_modify. intros s (U & S & D & V & Hh).
  unfold staffView. fields. auto.
Qed.
#[local] Hint Resolve sv_initApp : sv.

Lemma pickStatus_buttons v cs id cs' :
  pickStatus v cs = Some (id, cs') -> deleteButtonsIn cs' = deleteButtonsIn cs.
Proof.
  revert id cs'. induction cs as [|c cs IH]; intros id cs' E; simpl in E;
    [discriminate|].
  destruct c as [cls a i|a i old].
  - destruct (pickStatus v cs) as [[id1 cs1]|]; [|discriminate].
    injection E as _ <-. unfold deleteButtonsIn in *. simpl.
    destruct (cls === "delete-btn"); simpl; rewrite (IH id1 cs1 eq_refl);
      reflexivity.
  - injection E as _ <-. reflexivity.
Qed.

Lemma sumOf_updateAt {A} (f : A -> nat) (l : list A) (k : nat) (x x' : A) :
  nth_error l k = Some x -> f x' = f x ->
  sumOf f (updateAt k (fun _ => x') l) = sumOf f l.
Proof.
  revert k. induction l as [|y l IH]; intros [|k] N E; simpl in *; try discriminate.
  - injection N as ->. rewrite E. reflexivity.
  - rewrite (IH k N E). reflexivity.
Qed.

Lemma pickAt_rows v k rows id rows' :
  pickAt (pickStatusInRow v) k rows = Some (id, rows') ->
  sumOf rowDeleteButtons rows' = sumOf rowDeleteButtons rows.
Proof.
  unfold pickAt. destruct (nth_error rows k) as [x|] eqn:N; [|discriminate].
  unfold pickStatusInRow. destruct (actionsCell x) as [cs|] eqn:C; [|discriminate].
  destruct (pickStatus v cs) as [[i cs']|] eqn:P; [|discriminate].
  intros E. injection E as _ <-. apply (sumOf_updateAt _ _ _ x); [exact N|].
  unfold rowDeleteButtons. simpl. rewrite C. apply (pickStatus_buttons v cs i cs' P).
Qed.

Lemma pickAt_cards v k cards id cards' :
  pickAt (pickStatusInCard v) k cards = Some (id, cards') ->
  sumOf cardDeleteButtons cards' = sumOf cardDeleteButtons cards.
Proof.
  unfold pickAt. destruct (nth_error cards k) as [x|] eqn:N; [|discriminate].
  unfold pickStatusInCard.
  destruct (pickStatus v (cardControls x)) as [[i cs']|] eqn:P; [|discriminate].
  intros E. injection E as _ <-. apply (sumOf_updateAt _ _ _ x); [exact N|].
  unfold cardDeleteButtons. simpl. apply (pickStatus_buttons v _ i cs' P).
Qed.

Lemma sv_changeSelect n r h c k newStatus :
  hoare (staffView n r h) (fun _ => True) (changeSelect c k newStatus).
Proof.
  intros s (U & S & D & V & Hh). split; [|auto].
  unfold changeSelect, bind, gets, modifyDom, modify, ret, staffView,
    deleteButtons, revenueFigures in *.
  destruct c.
  - destruct (pickAt _ k (taskTableBody (dom s))) as [[id rows]|] eqn:E; fields;
      [|auto].
    rewrite (pickAt_rows _ _ _ _ _ E). auto.
  - destruct (pickAt _ k (allTasksContainer (dom s))) as [[id cards]|] eqn:E; fields;
      [|auto].
    rewrite (pickAt_cards _ _ _ _ _ E). auto.
  - destruct (pickAt _ k (myTasksContainer (dom s))) as [[id cards]|] eqn:E; fields;
      [|auto].
    rewrite (pickAt_cards _ _ _ _ _ E). auto.
  - destruct (pickAt _ k (extraTasksContainer (dom s))) as [[id cards]|] eqn:E; fields;
      [|auto].
    rewrite (pickAt_cards _ _ _ _ _ E). auto.
Qed.
#[local] Hint Resolve sv_changeSelect : sv.

Lemma sv_onStatusChange n r h c k newStatus :
  hoare (staffView n r h) (fun _ => True) (onStatusChange c k newStatus).
Proof. unfold onStatusChange. hoare_go. Qed.
#[local] Hint Resolve sv_onStatusChange : sv.

(** Every handler keeps the view of a staff session, provided a login it
    completes is a staff login. *)
Lemma sv_handler n r h clk e :
  staffLogin e -> hoare (staffView n r h) (fun _ => True) (handler clk e).
Proof.
  intros L. destruct e; unfold handler, discard, showTaskForm, hideTaskForm,
    showServiceForm, hideServiceForm, handleServiceSubmit; hoare_go.
Qed.

Lemma sv_run n r h trace s :
  Forall (fun ce => staffLogin (snd ce)) trace ->
  staffView n r h s -> staffView n r h (run s trace).
Proof.
  revert s. induction trace as [|[clk e] trace IH]; intros s F Is; [exact Is|].
  inversion F as [|x l Fe Ft]; subst. simpl.
  apply IH; [exact Ft|]. apply (sv_handler n r h clk e Fe s Is).
Qed.

Lemma sumOf_rowFor_staff u b l :
  User.role u = "staff" -> sumOf rowDeleteButtons (map (rowFor u b) l) = O.
Proof.
  intros R. induction l as [|task l IH]; simpl; [reflexivity|].
  rewrite IH. unfold rowDeleteButtons, rowFor. simpl.
  destruct b; [|reflexivity]. rewrite (actionControls_no_delete u task R). reflexivity.
Qed.

(** For a staff user [showApp] hides the revenue card. *)
Lemma showApp_hides_revenueCard clk s u :
  currentUser s = Some u -> User.role u = "staff" ->
  staffOrNobody (sessionStorage s) ->
  hidden (dom (exec (showApp clk) s)) revenueCard = true.
Proof.
  intros H R S. unfold exec, showApp.
  do 2 (mstep reflexivity).
  mstep (unfold theUser; mstep reflexivity; fields; rewrite H; reflexivity).
  mstep reflexivity.
  rewrite R. change ("staff" === "admin") with false.
  change ("staff" === "manager") with false. cbv iota.
  mstep (do 6 (mstep reflexivity); reflexivity).
  match goal with |- hidden (dom (snd (?m ?s1))) revenueCard = true =>
    assert (K : forall n r, hoare (staffView n r true) (fun _ => True) m)
      by (intros; unfold populateFilterDropdowns, fetchTasksAndRender,
            loadServicesFromBackend, updateDashboard; hoare_go);
    set (s2 := s1) in *;
    assert (I1 : staffView (deleteButtons (dom s2)) (revenueFigures (dom s2)) true s2)
      by (split; [change (staffOrNobody (currentUser s)); rewrite H; exact R|];
          split; [exact S|]; split; [apply le_n|]; split; [apply le_n|];
          intros _; reflexivity);
    destruct (K _ _ s2 I1) as [(_ & _ & _ & _ & Hh) _]
  end.
  apply Hh. reflexivity.
Qed.

Ltac unfold_handlers :=
  repeat progress unfold handler, discard, initApp, handleLogin, handleLogin_settled,
    showApp, navigateToPage, handleLogout_settled, populateStaffDropdown_settled,
    populateStaffList_settled, loadServicesFromBackend_settled,
    updateDashboard_settled, updateWinners_settled, updateOverdueTasks_settled,
    showTaskForm, hideTaskForm, handleTaskSubmit, saveTaskWithReason, saveTask,
    saveTask_settled, editTask, deleteTask, showShareModal, selectStaffItem, shareTask,
    shareTask_settled, shareTask_refetched, shareTask_failed, onStatusChange,
    changeSelect, updateTaskStatus, applyTaskFilters, resetTaskFilters,
    showServiceForm, hideServiceForm, handleServiceSubmit, saveService,
    saveService_settled, editService, deleteService, deleteService_settled,
    populateStaffDropdown, populateStaffList, populateServiceDropdown,
    populateServiceDatabase, populateFilterDropdowns, fetchTasksAndRender,
    loadServicesFromBackend, updateDashboard, updateWinners, updateOverdueTasks,
    addStaffOption, addStaffCard, settle, handleLogout, showLogin, showToast,
    setText, setDisplay, hide, unhide, setHidden, apiFetch, when, getsDom.

Ltac keeps_views :=
  unfold_handlers;
  unfold updateStaffPanel, updateStaffAlerts, updateReports;
  unfold populateAllTasks, populateMyTasks, populateExtraTasks;
  unfold createTaskCard, theUser;
  unfold_handlers;
  keeps_tac.

(** Logging out and logging in write neither the tasks table nor the cards
    of the top performers. *)
Lemma keeps_views_handleLogout : keeps tableAndWinners handleLogout.
Proof. unfold tableAndWinners. keeps_views. Qed.

Lemma keeps_views_handleLogin_settled clk user :
  keeps tableAndWinners (handleLogin_settled clk (Ok (Some user))).
Proof. unfold tableAndWinners. keeps_views. Qed.

(** After the login of [user] the session is that of [user]. *)
Lemma handleLogin_settled_user clk user s :
  currentUser (exec (handleLogin_settled clk (Ok (Some user))) s) = Some user.
Proof.
  set (h := fun message : string =>
              showToast (if message === "" then "Invalid credentials. Please try again."
                         else message) ToastError).
  assert (K : keeps currentUser
                (tryCatch (showApp clk ;; showToast "Login successful!" ToastSuccess) h))
    by (unfold h; unfold_handlers; keeps_tac).
  assert (E : exec (handleLogin_settled clk (Ok (Some user))) s
              = exec (tryCatch (showApp clk ;; showToast "Login successful!" ToastSuccess) h)
                     (with_sessionStorage (Some user) (with_currentUser (Some user) s))).
  { destruct user. reflexivity. }
  rewrite E. unfold exec. rewrite K. reflexivity.
Qed.

(** C4, evaluated.  What a staff session renders is as claimed: whatever
    happens while the user is staff -- any event of the page, any response
    of the backend, a new staff login included -- no view gains a delete
    button for a task or a revenue figure; the actions cell and the card built
    for a staff user hold no delete button, [renderTasks] fills the task
    table with such rows only, and [showApp] hides the revenue card, which
    stays hidden.  So a document that shows none at the start shows none in
    any state that is reached.  But the views are not cleared when a session
    ends: neither logging out nor logging in writes the tasks table or the
    cards of the top performers.  After an administrator has logged out and
    alice, a staff user, has logged in, the tasks page shows the
    administrator's row with its delete button, which sends the DELETE
    request when clicked, and the dashboard shows the card of a top performer
    with its revenue; they stay until the next response redraws the view. *)
Theorem staff_session_shows_what_admin_left
    (s : App) (u : User.t) (trace : list (Clock * Event)) (clk : Clock)
    (task : Task.t) (type : string) :
  currentUser s = Some u ->
  User.role u = "staff" ->
  staffOrNobody (sessionStorage s) ->
  Forall (fun ce => staffLogin (snd ce)) trace ->
  let s' := run s trace in
  (deleteButtons (dom s') <= deleteButtons (dom s))%nat
  /\ (revenueFigures (dom s') <= revenueFigures (dom s))%nat
  /\ (deleteButtons (dom s) = O -> deleteButtons (dom s') = O)
  /\ (revenueFigures (dom s) = O -> revenueFigures (dom s') = O)
  /\ staffOrNobody (currentUser s')
  /\ deleteButtonsIn (actionControls u task) = O
  /\ cardDeleteButtons (taskCardFor u task type) = O
  /\ sumOf rowDeleteButtons (taskTableBody (dom (exec (renderTasks clk) s))) = O
  /\ hidden (dom (exec (showApp clk) s)) revenueCard = true
  /\ hidden (dom (run (exec (showApp clk) s) trace)) revenueCard = true
  /\ (forall s0 user,
        let s1 := run s0 [(clk, ClickLogout); (clk, LoginSettled (Ok (Some user)))] in
        currentUser s1 = Some user /\ tableAndWinners s1 = tableAndWinners s0)
  /\ (let s1 := run emptyApp staffAfterAdminOnTasks in
      currentUser s1 = Some alice
      /\ hidden (dom s1) tasksPage = false
      /\ sumOf rowDeleteButtons (taskTableBody (dom s1)) = 1%nat
      /\ In {| method := DELETE; url := api_task 7; body := NoBody |}
            (sent (run s1 [(sampleClock, ClickDelete 7 true)])))
  /\ (let s1 := run emptyApp staffAfterAdmin in
      currentUser s1 = Some alice
      /\ hidden (dom s1) dashboardPage = false
      /\ hidden (dom s1) winnersContainer = false
      /\ map wc_revenue (winnersCards (dom s1)) = [Some (Rupees 5000)]
      /\ deleteButtons (dom s1) = 1%nat
      /\ revenueFigures (dom s1) = 2%nat).
Proof.
  intros H R S F s'.
  assert (I0 : staffView (deleteButtons (dom s)) (revenueFigures (dom s)) false s).
  { unfold staffView. rewrite H. repeat split; auto. discriminate. }
  destruct (sv_run _ _ _ trace s F I0) as (U' & _ & D' & V' & _).
  fold s' in U', D', V'.
  split; [exact D'|]. split; [exact V'|].
  split; [intros E; rewrite E in D'; lia|].
  split; [intros E; rewrite E in V'; lia|].
  split; [exact U'|].
  split; [apply actionControls_no_delete; exact R|].
  split; [apply taskCardFor_no_delete|].
  split.
  { unfold exec. rewrite (renderTasks_logged_in clk u s H). unfold rendered. fields.
    apply sumOf_rowFor_staff. exact R. }
  assert (Hs : hidden (dom (exec (showApp clk) s)) revenueCard = true)
    by (apply (showApp_hides_revenueCard clk s u H R S)).
  split; [exact Hs|].
  split.
  { assert (I1 : staffView (deleteButtons (dom (exec (showApp clk) s)))
                           (revenueFigures (dom (exec (showApp clk) s))) true
                           (exec (showApp clk) s)).
    { destruct (sv_showApp _ _ false clk s I0) as [(U1 & S1 & _) _].
      unfold staffView. repeat split; auto. }
    destruct (sv_run _ _ _ trace _ F I1) as (_ & _ & _ & _ & Hh).
    apply Hh. reflexivity. }
  split.
  { intros s0 user s1. unfold s1, run. cbn [fold_left]. unfold step. cbn [fst snd handler].
    split; [apply handleLogin_settled_user|].
    unfold exec. rewrite keeps_views_handleLogin_settled.
    apply keeps_views_handleLogout. }
  split; vm_compute; repeat split; auto 20.
Qed.

Lemma staff_session_shows_what_admin_left_witness :
  currentUser aliceApp = Some alice
  /\ User.role alice = "staff"
  /\ staffOrNobody (sessionStorage aliceApp)
  /\ Forall (fun ce => staffLogin (snd ce)) staffTrace
  /\ deleteButtons (dom (run aliceApp staffTrace)) = O
  /\ revenueFigures (dom (run aliceApp staffTrace)) = O.
Proof.
  assert (F : Forall (fun ce => staffLogin (snd ce)) staffTrace)
    by (repeat constructor).
  split; [reflexivity|]. split; [reflexivity|]. split; [exact Logic.I|].
  split; [exact F|].
  destruct (staff_session_shows_what_admin_left aliceApp alice staffTrace
              sampleClock (sampleTask 1 "Pending" "alice" "B1" [] (75 * hour)) "all"
              eq_refl eq_refl Logic.I F) as (_ & _ & D & V & _).
  split; [apply D|apply V]; reflexivity.
Defined.

(** ** Status changes *)

Lemma updateAt_updateAt {A} (f g : A -> A) (i : nat) (l : list A) :
  updateAt i g (updateAt i f l) = updateAt i (fun x => g (f x)) l.
Proof.
  revert i. induction l as [|x l IH]; intros [|i]; simpl; try reflexivity.
  rewrite IH. reflexivity.
Qed.

Lemma assignTask_found (i : nat) (f : Task.t -> Task.t) (s : App) (t : Task.t) :
  nth_error (tasks s) i = Some t ->
  assignTask i f s = (Returned tt, with_tasks (updateAt i f (tasks s)) s).
Proof.
  intros N. unfold assignTask. mstep reflexivity. fields. rewrite N. reflexivity.
Qed.

Lemma tasks_tryCatch {A} (m : M A) (h : string -> M A) (s : App) (X : list Task.t) :
  tasks (snd (m s)) = X -> (forall e, keeps tasks (h e)) ->
  tasks (snd (tryCatch m h s)) = X.
Proof.
  intros E K. unfold tryCatch. destruct (m s) as [[a|e] s1]; simpl in *; [exact E|].
  rewrite (K e s1). exact E.
Qed.

Lemma keeps_tasks_status_failed id oldStatus message :
  keeps tasks
    (showToast ("Failed to update task status: " ++ message)%string ToastError ;;
     modifyDom (fun d => revertStatusSelect id oldStatus (documentOrder d) d)).
Proof. unfold showToast. keeps_tac. Qed.

(** A refused status change leaves the cached tasks as they are. *)
Lemma updateTaskStatus_settled_refused clk id newStatus taskIndex oldStatus r s :
  r <> Ok tt ->
  tasks (exec (updateTaskStatus_settled clk id newStatus taskIndex oldStatus r) s)
  = tasks s.
Proof.
  intros N. unfold exec, updateTaskStatus_settled.
  apply tasks_tryCatch; [|intros e; apply keeps_tasks_status_failed].
  destruct r as [[]| |message]; [contradiction| |reflexivity].
  unfold bind at 1.
  pose proof (keeps_tasks_settle (@Unauthorized unit) s) as K.
  destruct (settle Unauthorized s) as [[a|e] s1] eqn:E; simpl in K |- *; [|exact K].
  discriminate E.
Qed.

(** A confirmed status change rewrites the task at the index found when the
    request was sent. *)
Lemma updateTaskStatus_settled_confirmed clk id newStatus taskIndex oldStatus s t :
  nth_error (tasks s) taskIndex = Some t ->
  tasks (exec (updateTaskStatus_settled clk id newStatus taskIndex oldStatus (Ok tt)) s)
  = updateAt taskIndex (fun t => statusChanged oldStatus newStatus t) (tasks s).
Proof.
  intros N. unfold exec, updateTaskStatus_settled.
  apply tasks_tryCatch; [|intros e; apply keeps_tasks_status_failed].
  mstep reflexivity.
  mstep (apply (assignTask_found _ _ _ t N)).
  mstep (apply (assignTask_found _ _ _ (Task.with_status newStatus t));
         fields; rewrite nth_error_updateAt_eq, N; reflexivity).
  mstep (apply (assignTask_found _ _ _
                  (Task.with_edited true (Task.with_status newStatus t)));
         fields; rewrite !nth_error_updateAt_eq, N; reflexivity).
  match goal with |- tasks (snd (?m ?s0)) = _ =>
    assert (K : keeps tasks m)
      by (unfold setText, setDisplay, updateDashboard, apiFetch, showToast; keeps_tac);
    rewrite (K s0)
  end.
  fields. rewrite !updateAt_updateAt. reflexivity.
Qed.

Lemma statusChangeFails_alice (c : Container) (order : list Container) :
  c = InAllTasks \/ c = InMyTasks ->
  exec (statusChangeFails sampleClock c 0 "Completed" "Server error")
       (alicePanel order)
  = with_dom (revertStatusSelect 1 "Pending" order (dom (alicePicked c order)))
             (alicePicked c order).
Proof. intros [-> | ->]; vm_compute; reflexivity. Qed.

(** In Alice's document the revert reaches one select of task 1 at most:
    changed in her own card or in the card under all tasks, one of the two
    keeps what she picked. *)
Lemma revert_reaches_one_select (order o : list Container) :
  selectShownIn InMyTasks 0
    (revertStatusSelect 1 "Pending" order (dom (alicePicked InMyTasks o)))
  = Some "Completed"
  \/ selectShownIn InAllTasks 0
       (revertStatusSelect 1 "Pending" order (dom (alicePicked InAllTasks o)))
     = Some "Completed".
Proof.
  induction order as [|c order IH].
  - left. vm_compute. reflexivity.
  - destruct c; cbn [revertStatusSelect].
    + left. vm_compute. reflexivity.
    + left. vm_compute. reflexivity.
    + right. vm_compute. reflexivity.
    + assert (E : forall c,
                setFirstSelectInCards 1 "Pending"
                  (extraTasksContainer (dom (alicePicked c o))) = None)
        by (intros []; vm_compute; reflexivity).
      rewrite !E. exact IH.
Qed.

(** C6, evaluated.  A refused status change leaves the cached tasks as they
    are, and a confirmed one sets the status of the cached task (with the
    edited flag and the reason); so far the claim holds.  The select is
    another matter: [querySelector] returns the first status select of the
    task in the document, and that one gets the old status.  Alice sees task
    1 in the task table, under all tasks and under her tasks; whatever the
    order of these containers in the page, a change she makes in her card or
    in the card under all tasks is refused and the select she changed keeps
    showing Completed, while the cache says Pending. *)
Theorem status_revert_misses_the_changed_select
    (clk : Clock) (s : App) (id : Z) (newStatus oldStatus : string)
    (taskIndex : nat) (order : list Container) :
  let refused (c : Container) :=
    exec (statusChangeFails sampleClock c 0 "Completed" "Server error")
         (alicePanel order) in
  (forall r, r <> Ok tt ->
     tasks (exec (updateTaskStatus_settled clk id newStatus taskIndex oldStatus r) s)
     = tasks s)
  /\ (forall t, nth_error (tasks s) taskIndex = Some t ->
      nth_error
        (tasks (exec (updateTaskStatus_settled clk id newStatus taskIndex oldStatus
                        (Ok tt)) s)) taskIndex
      = Some (statusChanged oldStatus newStatus t))
  /\ tasks (refused InMyTasks) = tasks (alicePanel order)
  /\ tasks (refused InAllTasks) = tasks (alicePanel order)
  /\ selectShown InMyTasks 0 (alicePanel order) = Some "Pending"
  /\ selectShown InAllTasks 0 (alicePanel order) = Some "Pending"
  /\ (selectShown InMyTasks 0 (refused InMyTasks) = Some "Completed"
      \/ selectShown InAllTasks 0 (refused InAllTasks) = Some "Completed").
Proof.
  intros refused.
  split; [intros r N; apply updateTaskStatus_settled_refused; exact N|].
  split.
  { intros t N. rewrite (updateTaskStatus_settled_confirmed _ _ _ _ _ _ t N).
    rewrite nth_error_updateAt_eq, N. reflexivity. }
  unfold refused. rewrite !statusChangeFails_alice by auto.
  split; [vm_compute; reflexivity|]. split; [vm_compute; reflexivity|].
  split; [vm_compute; reflexivity|]. split; [vm_compute; reflexivity|].
  unfold selectShown. fields. apply revert_reaches_one_select.
Qed.

Lemma status_revert_misses_the_changed_select_witness :
  Ok tt <> @Failed unit "Server error"
  /\ tasks (exec (updateTaskStatus_settled sampleClock 1 "Completed" 0 "Pending"
                    (Failed "Server error")) aliceApp)
     = tasks aliceApp
  /\ (selectShown InMyTasks 0
        (exec (statusChangeFails sampleClock InMyTasks 0 "Completed" "Server error")
              (alicePanel [InTaskTableBody; InAllTasks; InMyTasks; InExtraTasks]))
      = Some "Completed").
Proof.
  split; [discriminate|].
  destruct (status_revert_misses_the_changed_select sampleClock aliceApp 1
              "Completed" "Pending" 0
              [InTaskTableBody; InAllTasks; InMyTasks; InExtraTasks])
    as (R & _).
  split; [apply R; discriminate|vm_compute; reflexivity].
Defined.

(** ** Sharing a task *)

(** Only four kinds of events write the cached task list. *)
Lemma keeps_tasks_handler clk e : writesTasks e = false -> keeps tasks (handler clk e).
Proof.
  intros W. destruct e; try discriminate W; clear W; unfold_handlers; keeps_tac.
Qed.

Lemma Forall_updateAt {A} (P : A -> Prop) (f : A -> A) (i : nat) (l : list A) :
  (forall x, P x -> P (f x)) -> Forall P l -> Forall P (updateAt i f l).
Proof.
  intros Hf. revert i. induction l as [|x l IH]; intros i F; [destruct i; exact F|].
  inversion F as [|y m Px Fl]; subst. destruct i as [|i]; simpl.
  - constructor; [apply Hf; exact Px|exact Fl].
  - constructor; [exact Px|apply IH; exact Fl].
Qed.

Lemma Forall_filter {A} (P : A -> Prop) (p : A -> bool) (l : list A) :
  Forall P l -> Forall P (filter p l).
Proof.
  intros F. apply Forall_forall. intros x I. apply filter_In in I.
  rewrite Forall_forall in F. apply F. tauto.
Qed.

Lemma noSelfShare_mapped (bt : BackendTask.t) :
  backendNoSelfShare bt -> noSelfShare (mapBackendTaskToUI bt).
Proof.
  unfold backendNoSelfShare, noSelfShare. simpl.
  destruct (BackendTask.shared_with bt); [auto|]. intros _ [].
Qed.

Lemma tasks_fetch_refused clk r s :
  (forall data, r <> Ok data) ->
  tasks (exec (fetchTasksAndRender_settled clk r) s) = tasks s.
Proof.
  intros N. unfold exec, fetchTasksAndRender_settled.
  apply tasks_tryCatch; [|intros e; unfold showToast; keeps_tac].
  destruct r as [data| |message]; [destruct (N data eq_refl)| |reflexivity].
  unfold bind at 1.
  pose proof (keeps_tasks_settle (@Unauthorized (list BackendTask.t)) s) as K.
  destruct (settle Unauthorized s) as [[a|e] s1] eqn:E; simpl in K |- *; [|exact K].
  discriminate E.
Qed.

Lemma tasks_delete_settled clk id r s :
  tasks (exec (deleteTask_settled clk id r) s) = tasks s
  \/ tasks (exec (deleteTask_settled clk id r) s)
     = filter (fun t => negb (Task.id t =? id)) (tasks s).
Proof.
  destruct r as [[]| |message].
  - right. unfold exec, deleteTask_settled.
    apply tasks_tryCatch; [|intros e; unfold showToast; keeps_tac].
    do 2 (mstep reflexivity).
    match goal with |- tasks (snd (?m ?s0)) = _ =>
      assert (K : keeps tasks m)
        by (unfold updateDashboard, apiFetch, showToast; keeps_tac);
      rewrite (K s0)
    end. reflexivity.
  - left. unfold exec, deleteTask_settled.
    apply tasks_tryCatch; [|intros e; unfold showToast; keeps_tac].
    unfold bind at 1.
    pose proof (keeps_tasks_settle (@Unauthorized unit) s) as K.
    destruct (settle Unauthorized s) as [[a|e] s1] eqn:E; simpl in K |- *; [|exact K].
    discriminate E.
  - left. reflexivity.
Qed.

Lemma tasks_status_settled clk id newStatus taskIndex oldStatus r s :
  tasks (exec (updateTaskStatus_settled clk id newStatus taskIndex oldStatus r) s)
  = tasks s
  \/ tasks (exec (updateTaskStatus_settled clk id newStatus taskIndex oldStatus r) s)
     = updateAt taskIndex (fun t => statusChanged oldStatus newStatus t) (tasks s).
Proof.
  destruct r as [[]| |message].
  - destruct (nth_error (tasks s) taskIndex) as [t|] eqn:N.
    + right. apply (updateTaskStatus_settled_confirmed _ _ _ _ _ _ t N).
    + left. unfold exec, updateTaskStatus_settled.
      apply tasks_tryCatch; [|intros e; apply keeps_tasks_status_failed].
      mstep reflexivity. unfold bind at 1, assignTask at 1.
      unfold bind at 1, gets at 1. rewrite N. reflexivity.
  - left. apply updateTaskStatus_settled_refused. discriminate.
  - left. apply updateTaskStatus_settled_refused. discriminate.
Qed.

Lemma tasks_takeOverTask taskId s :
  tasks (exec (takeOverTask taskId) s) = tasks s
  \/ exists i f,
       (forall t, Task.assignedTo (f t) = Task.assignedTo t
                  /\ Task.sharedWith (f t) = Task.sharedWith t)
       /\ tasks (exec (takeOverTask taskId) s) = updateAt i f (tasks s).
Proof.
  destruct (findIndex (fun t => Task.id t =? taskId) (tasks s)) as [i|] eqn:F.
  - destruct (currentUser s) as [u|] eqn:H.
    + right. destruct (takeOverTask_found s u taskId i H F) as [d ->]. fields.
      rewrite !updateAt_updateAt. eexists i, _. split; [|reflexivity].
      intros t. split; reflexivity.
    + left. unfold exec, takeOverTask. mstep reflexivity. fields. rewrite F.
      cbv [bind theUser gets]. rewrite H. reflexivity.
  - left. unfold exec, takeOverTask. mstep reflexivity. fields. rewrite F.
    reflexivity.
Qed.

(** No handler puts the assignee among the users a cached task is shared
    with, as long as no task list that arrives does. *)
Lemma noSelfShare_step clk e s :
  sendsNoSelfShare e ->
  Forall noSelfShare (tasks s) -> Forall noSelfShare (tasks (step s (clk, e))).
Proof.
  intros B F. unfold step. cbn [fst snd].
  destruct (writesTasks e) eqn:W.
  - destruct e; try discriminate W; unfold handler.
    + destruct r as [data| |message].
      * rewrite fetchTasksAndRender_settled_tasks. simpl in B.
        apply Forall_forall. intros t I. apply in_map_iff in I.
        destruct I as [bt [<- I]]. apply noSelfShare_mapped.
        rewrite Forall_forall in B. apply B, I.
      * rewrite tasks_fetch_refused by discriminate. exact F.
      * rewrite tasks_fetch_refused by discriminate. exact F.
    + destruct (tasks_delete_settled clk id r s) as [-> | ->];
        [exact F|apply Forall_filter; exact F].
    + destruct (tasks_status_settled clk id newStatus taskIndex oldStatus r s)
        as [-> | ->]; [exact F|].
      apply Forall_updateAt; [|exact F]. intros t N. exact N.
    + destruct (tasks_takeOverTask taskId s) as [-> | (i & f & P & ->)]; [exact F|].
      apply Forall_updateAt; [|exact F]. intros t N. unfold noSelfShare in *.
      destruct (P t) as [-> ->]. exact N.
  - unfold exec. rewrite (keeps_tasks_handler clk e W s). exact F.
Qed.


Lemma noSelfShare_run trace s :
  Forall (fun ce => sendsNoSelfShare (snd ce)) trace ->
  Forall noSelfShare (tasks s) -> Forall noSelfShare (tasks (run s trace)).
Proof.
  revert s. induction trace as [|[clk e] trace IH]; intros s B F; [exact F|].
  inversion B as [|x l Be Bt]; subst. simpl.
  apply IH; [exact Bt|]. apply noSelfShare_step; assumption.
Qed.

(** The share modal lists the staff-role users of the staff list other than
    the assignee of the task. *)
Lemma showShareModal_found id s task :
  find (fun t => Task.id t =? id) (tasks s) = Some task ->
  exec (showShareModal id) s
  = exec (setDisplay shareTaskModal true)
      (with_dom
         (with_staffListModal
            (map staffItemFor (filter (offered task) (STAFF_LIST s))) (dom s))
         (with_sharingTaskId (Some id) s)).
Proof.
  intros F. unfold exec, showShareModal.
  do 4 (mstep reflexivity). fields. rewrite F. cbv iota.
  mstep (apply (forEach_append_when staffListModal with_staffListModal
                  (offered task) staffItemFor); lens).
  fields. reflexivity.
Qed.

Lemma selectStaffItem_names i s :
  map dataset_staff (staffListModal (dom (exec (selectStaffItem i) s)))
  = map dataset_staff (staffListModal (dom s))
  /\ sent (exec (selectStaffItem i) s) = sent s
  /\ sharingTaskId (exec (selectStaffItem i) s) = sharingTaskId s.
Proof.
  split; [|split; reflexivity].
  unfold exec, selectStaffItem, modifyDom, modify. fields.
  generalize (staffListModal (dom s)). intros l. generalize O.
  induction l as [|x l IH]; intros k; simpl; [reflexivity|].
  rewrite IH. reflexivity.
Qed.

Lemma shareTask_sends s :
  sent (exec shareTask s) = sent s
  \/ exists item,
       In item (staffListModal (dom s))
       /\ sent (exec shareTask s)
          = sent s ++ [shareRequest (sharingTaskId s) (dataset_staff item)].
Proof.
  unfold exec, shareTask. mstep reflexivity. fields.
  destruct (find selected (staffListModal (dom s))) as [item|] eqn:F.
  - right. exists item. split; [apply (find_some _ _ F)|]. reflexivity.
  - left. reflexivity.
Qed.

Lemma keeps_shareTarget_renderTasks clk : keeps shareTarget (renderTasks clk).
Proof.
  unfold shareTarget, renderTasks, createTaskRow, theUser, hide, unhide, setHidden,
    getsDom, when.
  keeps_tac.
Qed.

Lemma keeps_shareTarget_updateStaffPanel : keeps shareTarget updateStaffPanel.
Proof.
  unfold shareTarget, updateStaffPanel.
  unfold populateAllTasks, populateMyTasks, populateExtraTasks.
  unfold createTaskCard, theUser, setText, hide, unhide, setHidden, getsDom, when.
  keeps_tac.
Qed.

Lemma keeps_shareTarget_theUser : keeps shareTarget theUser.
Proof. unfold shareTarget, theUser. keeps_tac. Qed.

Lemma keeps_shareTarget_updateStaffAlerts clk : keeps shareTarget (updateStaffAlerts clk).
Proof. unfold shareTarget, updateStaffAlerts, when. keeps_tac. Qed.

Lemma keeps_shareTarget_updateReports : keeps shareTarget updateReports.
Proof. unfold shareTarget, updateReports, theUser, when. keeps_tac. Qed.

Lemma staffListModal_revertStatusSelect id v order d :
  staffListModal (revertStatusSelect id v order d) = staffListModal d.
Proof.
  induction order as [|c order IH]; simpl; [reflexivity|].
  destruct c;
    match goal with |- context [match ?x with _ => _ end] => destruct x end;
    try exact IH; reflexivity.
Qed.

Lemma keeps_shareTarget_selectStaffItem i : keeps shareTarget (selectStaffItem i).
Proof.
  intros s. unfold shareTarget.
  destruct (selectStaffItem_names i s) as (N & _ & S).
  unfold exec in N, S. rewrite N, S. reflexivity.
Qed.

Ltac keeps_share :=
  repeat lazymatch goal with
    | |- keeps _ (ret _) => apply keeps_ret
    | |- keeps _ (throw _) => apply keeps_throw
    | |- keeps _ (gets _) => apply keeps_gets
    | |- keeps _ (modify _) => apply keeps_modify; intros ?; reflexivity
    | |- keeps _ (modifyDom (fun d => revertStatusSelect _ _ _ d)) =>
        unfold modifyDom; apply keeps_modify; intros ?; unfold shareTarget;
        cbn [dom sharingTaskId with_dom];
        rewrite staffListModal_revertStatusSelect; reflexivity
    | |- keeps _ (modifyDom _) =>
        unfold modifyDom; apply keeps_modify; intros ?; reflexivity
    | |- keeps _ (bind _ _) => apply keeps_bind; [|intros ?]
    | |- keeps _ (tryCatch _ _) => apply keeps_tryCatch; [|intros ?]
    | |- keeps _ (forEach _ _) => apply keeps_forEach; intros ?
    | |- keeps _ (renderTasks _) => apply keeps_shareTarget_renderTasks
    | |- keeps _ updateStaffPanel => apply keeps_shareTarget_updateStaffPanel
    | |- keeps _ (updateStaffAlerts _) => apply keeps_shareTarget_updateStaffAlerts
    | |- keeps _ updateReports => apply keeps_shareTarget_updateReports
    | |- keeps _ theUser => apply keeps_shareTarget_theUser
    | |- keeps _ (selectStaffItem _) => apply keeps_shareTarget_selectStaffItem
    | |- keeps _ (match ?x with _ => _ end) => destruct x
    end.

(** But for a click that opens the share modal, no event changes the names
    the modal lists or the task it was opened for. *)
Lemma keeps_shareTarget_handler clk e :
  opensShareModal e = false -> keeps shareTarget (handler clk e).
Proof.
  intros W.
  destruct e; try discriminate W; clear W;
    lazymatch goal with
    | |- keeps _ (handler _ (ClickStaffItem _)) =>
        apply keeps_shareTarget_selectStaffItem
    | _ => idtac
    end;
    unfold handler, discard, initApp, handleLogin, handleLogin_settled,
      showApp, navigateToPage, handleLogout_settled, populateStaffDropdown_settled,
      populateStaffList_settled, loadServicesFromBackend_settled,
      updateDashboard_settled, updateWinners_settled, updateOverdueTasks_settled,
      showTaskForm, hideTaskForm, handleTaskSubmit, saveTaskWithReason, saveTask,
      saveTask_settled, editTask, deleteTask, shareTask,
      shareTask_settled, shareTask_refetched, shareTask_failed, onStatusChange,
      changeSelect, updateTaskStatus, applyTaskFilters, resetTaskFilters,
      showServiceForm, hideServiceForm, handleServiceSubmit, saveService,
      saveService_settled, editService, deleteService, deleteService_settled,
      takeOverTask, updateTaskStatus_settled, fetchTasksAndRender_settled,
      deleteTask_settled, assignTask;
    unfold_handlers;
    keeps_share.
Qed.

(** C8 as stated fails: the client keeps whatever [shared_with] the backend
    sends; a task that arrives with its assignee in it is cached that way. *)
Lemma fetched_task_may_list_its_assignee :
  let s := exec (fetchTasksAndRender_settled sampleClock (Ok [selfShared])) aliceApp in
  ~ Forall noSelfShare (tasks s)
  /\ exists t, In t (tasks s) /\ In (Task.assignedTo t) (Task.sharedWith t).
Proof.
  intros s.
  assert (E : tasks s = [mapBackendTaskToUI selfShared])
    by apply fetchTasksAndRender_settled_tasks.
  assert (I : In (Task.assignedTo (mapBackendTaskToUI selfShared))
                 (Task.sharedWith (mapBackendTaskToUI selfShared)))
    by (left; reflexivity).
  split.
  - rewrite E. intros F. inversion F as [|x l N _]; subst. exact (N I).
  - exists (mapBackendTaskToUI selfShared). rewrite E. split; [left; reflexivity|exact I].
Qed.

Lemma keeps_shareTarget_run trace s :
  Forall (fun ce => opensShareModal (snd ce) = false) trace ->
  shareTarget (run s trace) = shareTarget s.
Proof.
  revert s. induction trace as [|[clk e] trace IH]; intros s F; [reflexivity|].
  inversion F as [|x l Fe Ft]; subst. simpl.
  rewrite (IH _ Ft). apply (keeps_shareTarget_handler clk e Fe).
Qed.

(** C8, amended.  The share modal opened for a cached task lists the
    staff-role users of the staff list whose name differs from the
    [assignedTo] the cache holds for the task at that moment, and nobody
    else.  Until the modal is opened again no event changes the names it
    lists or the task it stands for: whatever happens in between, [shareTask]
    sends nothing or one share request for that task whose [staff_name] is
    one of the names offered, so never the assignee as cached when the modal
    was opened.  [shareTask] itself compares nothing: when a task list that
    names bob as the assignee arrives while the modal is open with bob
    selected, the request carries the name of the assignee the cache holds by
    then.  The client itself never puts the assignee into [sharedWith]: if no
    task list that arrives does, no cached task does, in any state that is
    reached. *)
Theorem share_modal_never_offers_assignee
    (s : App) (id : Z) (task : Task.t) (between trace : list (Clock * Event)) :
  find (fun t => Task.id t =? id) (tasks s) = Some task ->
  Forall (fun ce => opensShareModal (snd ce) = false) between ->
  let opened := exec (showShareModal id) s in
  let later := run opened between in
  let confirmed := exec shareTask later in
  (forall staffName,
     In staffName (map dataset_staff (staffListModal (dom opened))) <->
     exists staff,
       In staff (STAFF_LIST s) /\ Staff.name staff = staffName
       /\ Staff.role staff = "staff" /\ staffName <> Task.assignedTo task)
  /\ ~ In (Task.assignedTo task) (map dataset_staff (staffListModal (dom opened)))
  /\ map dataset_staff (staffListModal (dom later))
     = map dataset_staff (staffListModal (dom opened))
  /\ sharingTaskId later = Some id
  /\ (sent confirmed = sent later
      \/ exists staffName,
           sent confirmed = sent later ++ [shareRequest (Some id) staffName]
           /\ In staffName (map dataset_staff (staffListModal (dom opened)))
           /\ staffName <> Task.assignedTo task)
  /\ (let s1 := run aliceWithStaff reassignedWhileSharing in
      map Task.assignedTo (filter (fun t => Task.id t =? 1) (tasks aliceWithStaff))
      = ["alice"]
      /\ map Task.assignedTo (filter (fun t => Task.id t =? 1) (tasks s1)) = ["bob"]
      /\ sent (exec shareTask s1) = sent s1 ++ [shareRequest (Some 1) "bob"])
  /\ (Forall (fun ce => sendsNoSelfShare (snd ce)) trace ->
      Forall noSelfShare (tasks s) -> Forall noSelfShare (tasks (run s trace))).
Proof.
  intros F B opened later confirmed.
  assert (O : map dataset_staff (staffListModal (dom opened))
              = map Staff.name (filter (offered task) (STAFF_LIST s))).
  { unfold opened. rewrite (showShareModal_found id s task F).
    unfold exec, setDisplay, modifyDom, modify. fields. rewrite map_map. reflexivity. }
  assert (C : forall staffName,
            In staffName (map dataset_staff (staffListModal (dom opened))) <->
            exists staff,
              In staff (STAFF_LIST s) /\ Staff.name staff = staffName
              /\ Staff.role staff = "staff" /\ staffName <> Task.assignedTo task).
  { intros staffName. rewrite O, in_map_iff. split.
    - intros [staff [N I]]. apply filter_In in I. destruct I as [I P].
      unfold offered in P. apply andb_true_iff in P. destruct P as [P1 P2].
      apply negb_true_iff, String.eqb_neq in P1. apply String.eqb_eq in P2.
      exists staff. subst staffName. auto.
    - intros [staff (I & N & R & D)]. exists staff. split; [exact N|].
      apply filter_In. split; [exact I|]. unfold offered. apply andb_true_iff.
      split; [apply negb_true_iff, String.eqb_neq; congruence|].
      apply String.eqb_eq. exact R. }
  assert (A : ~ In (Task.assignedTo task)
                   (map dataset_staff (staffListModal (dom opened)))).
  { intros I. apply C in I. destruct I as [staff (_ & _ & _ & D)]. apply D.
    reflexivity. }
  assert (S3 : sharingTaskId opened = Some id).
  { unfold opened. rewrite (showShareModal_found id s task F). reflexivity. }
  assert (K : shareTarget later = shareTarget opened)
    by apply (keeps_shareTarget_run between opened B).
  unfold shareTarget in K. injection K as N S2. rewrite S3 in S2.
  split; [exact C|]. split; [exact A|]. split; [exact N|]. split; [exact S2|].
  split; [|split; [|apply noSelfShare_run]].
  - destruct (shareTask_sends later) as [E | [item [I E]]].
    + left. exact E.
    + right. exists (dataset_staff item). unfold confirmed. rewrite E, S2.
      assert (J : In (dataset_staff item)
                     (map dataset_staff (staffListModal (dom opened))))
        by (rewrite <- N; apply in_map; exact I).
      split; [reflexivity|]. split; [exact J|].
      intros D. apply A. rewrite <- D. exact J.
  - vm_compute. repeat split.
Qed.

Lemma share_modal_never_offers_assignee_witness :
  find (fun t => Task.id t =? 1) (tasks aliceWithStaff)
  = Some (sampleTask 1 "Pending" "alice" "B1" [] (75 * hour))
  /\ Forall (fun ce => opensShareModal (snd ce) = false)
            [(sampleClock, ClickStaffItem 0);
             (sampleClock, TasksSettled (Ok [reassignedToBob]))]
  /\ map dataset_staff
         (staffListModal (dom (exec (showShareModal 1) aliceWithStaff))) = ["bob"]
  /\ ~ In "alice"
          (map dataset_staff
               (staffListModal (dom (exec (showShareModal 1) aliceWithStaff)))).
Proof.
  assert (B : Forall (fun ce => opensShareModal (snd ce) = false)
                     [(sampleClock, ClickStaffItem 0);
                      (sampleClock, TasksSettled (Ok [reassignedToBob]))])
    by (repeat constructor).
  split; [reflexivity|]. split; [exact B|]. split; [vm_compute; reflexivity|].
  exact (proj1 (proj2
    (share_modal_never_offers_assignee aliceWithStaff 1
       (sampleTask 1 "Pending" "alice" "B1" [] (75 * hour)) _ [] eq_refl B))).
Defined.

(** * Further properties *)

(** ** The session *)


Lemma settle_unauthorized {A} (s : App) :
  @settle A Unauthorized s
  = (Thrown "Unauthorized",
     exec handleLogout
       (exec (showToast "Session expired. Please log in again." ToastWarning) s)).
Proof. vm_compute. reflexivity. Qed.

Lemma loginView_handleLogout (s : App) : loginView (dom (exec handleLogout s)).
Proof.
  unfold loginView, pages. repeat split; repeat constructor; vm_compute; reflexivity.
Qed.

Lemma handleLogout_frame (s : App) :
  sent (exec handleLogout s) = sent s ++ [logoutRequest]
  /\ toasts (dom (exec handleLogout s)) = toasts (dom s) ++ [loggedOut]
  /\ tasks (exec handleLogout s) = tasks s.
Proof. repeat split. Qed.

Lemma handleLogout_settled_unauthorized (s : App) :
  sent (exec (handleLogout_settled Unauthorized) s) = sent s ++ [logoutRequest].
Proof. vm_compute. reflexivity. Qed.

(** X1. [handleLogout] ends the session on the client at once, whatever the
    backend answers, and leaves the cached data and the rendered tables as
    they are; a 401 answer to the logout request makes the client log out,
    and send the request, a second time. *)
Theorem logout_is_local (s : App) :
  let s' := exec handleLogout s in
  currentUser s' = None
  /\ sessionStorage s' = None
  /\ sent s' = sent s ++ [logoutRequest]
  /\ loginView (dom s')
  /\ toasts (dom s') = toasts (dom s) ++ [loggedOut]
  /\ tasks s' = tasks s
  /\ serviceDatabase s' = serviceDatabase s
  /\ STAFF_LIST s' = STAFF_LIST s
  /\ taskTableBody (dom s') = taskTableBody (dom s)
  /\ exec (handleLogout_settled (Ok tt)) s' = s'
  /\ (forall message, exec (handleLogout_settled (Failed message)) s' = s')
  /\ sent (exec (handleLogout_settled Unauthorized) s')
     = sent s ++ [logoutRequest; logoutRequest].
Proof.
  intros s'.
  split; [vm_compute; reflexivity|]. split; [vm_compute; reflexivity|].
  split; [vm_compute; reflexivity|]. split; [apply loginView_handleLogout|].
  split; [vm_compute; reflexivity|]. split; [vm_compute; reflexivity|].
  split; [vm_compute; reflexivity|]. split; [vm_compute; reflexivity|].
  split; [vm_compute; reflexivity|]. split; [vm_compute; reflexivity|].
  split; [intros message; vm_compute; reflexivity|].
  rewrite handleLogout_settled_unauthorized. unfold s'.
  destruct (handleLogout_frame s) as (-> & _). rewrite <- app_assoc. reflexivity.
Qed.

Lemma revertStatusSelect_keeps id v order d :
  hidden (revertStatusSelect id v order d) = hidden d
  /\ toasts (revertStatusSelect id v order d) = toasts d.
Proof.
  induction order as [|c order IH]; [split; reflexivity|].
  destruct c; simpl;
    match goal with |- context [match ?x with _ => _ end] => destruct x end;
    auto.
Qed.


Lemma tryCatch_unauthorized {A B} (k : A -> M B) (h : string -> M B) (s : App) :
  tryCatch (bind (settle Unauthorized) k) h s
  = h "Unauthorized"
      (exec handleLogout
         (exec (showToast "Session expired. Please log in again." ToastWarning) s)).
Proof. unfold tryCatch, bind. rewrite settle_unauthorized. reflexivity. Qed.

Lemma bind_modifyDom {B} (f : Dom -> Dom) (k : unit -> M B) (s : App) :
  bind (modifyDom f) k s = k tt (exec (modifyDom f) s).
Proof. reflexivity. Qed.

Lemma sessionEnded_unauthorized (s : App) :
  sessionEnded (tasks s)
    (exec handleLogout
       (exec (showToast "Session expired. Please log in again." ToastWarning) s)).
Proof.
  unfold sessionEnded.
  match goal with |- context [exec handleLogout ?s1] =>
    destruct (handleLogout_frame s1) as (E1 & E2 & E3);
    pose proof (loginView_handleLogout s1) as V;
    assert (U : currentUser (exec handleLogout s1) = None) by reflexivity;
    assert (S : sessionStorage (exec handleLogout s1) = None) by reflexivity;
    assert (T : toasts (dom s1) = toasts (dom s) ++ [sessionExpired]) by reflexivity;
    assert (K : tasks s1 = tasks s) by reflexivity;
    revert E1 E2 E3 V U S T K;
    generalize (exec handleLogout s1); generalize s1
  end.
  intros s1 s2 E1 E2 E3 V U S T K.
  split; [exact U|]. split; [exact S|]. split; [exact V|].
  rewrite E1, E2, E3, T, K.
  split; [apply in_or_app; right; left; reflexivity|].
  split; [|split; [|reflexivity]].
  - apply in_or_app. left. apply in_or_app. right. left. reflexivity.
  - apply in_or_app. right. left. reflexivity.
Qed.

Lemma sessionEnded_showToast ts message type s :
  sessionEnded ts s -> sessionEnded ts (snd (showToast message type s)).
Proof.
  unfold sessionEnded, showToast, modifyDom, modify. fields.
  intros (H1 & H2 & H3 & H4 & H5 & H6 & H7).
  split; [exact H1|]. split; [exact H2|]. split; [exact H3|].
  split; [exact H4|]. split; [apply in_or_app; left; exact H5|].
  split; [apply in_or_app; left; exact H6|exact H7].
Qed.

(** Writing a part of the document other than the [hidden] classes and the
    notifications. *)
Lemma sessionEnded_modifyDom ts (f : Dom -> Dom) s :
  (forall d, hidden (f d) = hidden d /\ toasts (f d) = toasts d) ->
  sessionEnded ts s -> sessionEnded ts (snd (modifyDom f s)).
Proof.
  unfold sessionEnded, loginView, modifyDom, modify. fields.
  intros F (H1 & H2 & H3 & H4 & H5 & H6 & H7).
  destruct (F (dom s)) as [-> ->]. auto 10.
Qed.

Lemma sessionEnded_hide ts e s :
  e <> loginPage ->
  sessionEnded ts s -> sessionEnded ts (snd (hide e s)).
Proof.
  unfold sessionEnded, loginView, hide, setHidden, modifyDom, modify. fields.
  intros N (H1 & H2 & (H3 & H4 & H5) & H6).
  split; [exact H1|]. split; [exact H2|]. split; [|exact H6].
  split; [|split].
  - destruct (ElemId_eq_dec loginPage e) as [E|_]; [symmetry in E; contradiction|exact H3].
  - destruct (ElemId_eq_dec navigation e); [reflexivity|exact H4].
  - rewrite Forall_forall in *. intros p I.
    destruct (ElemId_eq_dec p e); [reflexivity|apply H5, I].
Qed.

Lemma sessionEnded_apiFetch ts m u b s :
  sessionEnded ts s -> sessionEnded ts (snd (apiFetch m u b s)).
Proof.
  unfold sessionEnded, apiFetch, modify. fields.
  intros (H1 & H2 & H3 & H4 & H5).
  split; [exact H1|]. split; [exact H2|]. split; [exact H3|].
  split; [|exact H5]. apply in_or_app. left. exact H4.
Qed.

Lemma sessionEnded_winners_failed ts s :
  sessionEnded ts s ->
  sessionEnded ts (snd (bind (hide winnersContainer) (fun _ => updateOverdueTasks) s)).
Proof.
  intros L. unfold hide at 1, setHidden, updateOverdueTasks.
  rewrite !bind_modifyDom.
  apply sessionEnded_apiFetch.
  apply (sessionEnded_modifyDom _ (with_overdueTasksTable []));
    [intros d; split; reflexivity|].
  apply (sessionEnded_hide _ winnersContainer); [discriminate|exact L].
Qed.

Lemma updateWinners_settled_unauthorized (s : App) :
  updateWinners_settled Unauthorized s
  = bind (hide winnersContainer) (fun _ => updateOverdueTasks)
      (exec handleLogout
         (exec (showToast "Session expired. Please log in again." ToastWarning) s)).
Proof. vm_compute. reflexivity. Qed.

Lemma tryCatch_unauthorized_settle {A} (h : string -> M A) (s : App) :
  tryCatch (settle Unauthorized) h s
  = h "Unauthorized"
      (exec handleLogout
         (exec (showToast "Session expired. Please log in again." ToastWarning) s)).
Proof. unfold tryCatch. rewrite settle_unauthorized. reflexivity. Qed.

(** The callbacks of a request that was answered with status 401 start in
    the state the forced logout leaves. *)
Ltac forced_logout L :=
  rewrite ?tryCatch_unauthorized, ?tryCatch_unauthorized_settle;
  revert L;
  match goal with
  | |- sessionEnded _ ?s1 -> _ => generalize s1
  end;
  intros ? L.

(** X2. A response with status 401, to whichever request, ends the session. *)
Theorem unauthorized_forces_logout (clk : Clock) (e : Event) (s : App) :
  answers401 e = true ->
  let s' := step s (clk, e) in
  currentUser s' = None
  /\ sessionStorage s' = None
  /\ loginView (dom s')
  /\ In logoutRequest (sent s')
  /\ In sessionExpired (toasts (dom s'))
  /\ In loggedOut (toasts (dom s'))
  /\ tasks s' = tasks s.
Proof.
  intros H s'. change (sessionEnded (tasks s) s'). unfold s', step. cbn [fst snd].
  pose proof (sessionEnded_unauthorized s) as L.
  destruct e; try discriminate H;
    match goal with r : Response _ |- _ => destruct r; try discriminate H end;
    clear H; unfold exec, handler.
  - unfold handleLogin_settled. forced_logout L.
    apply sessionEnded_showToast, L.
  - unfold handleLogout_settled. forced_logout L. exact L.
  - unfold populateStaffDropdown_settled. forced_logout L.
    unfold bind, gets. destruct L as (H1 & H2). rewrite H1. split; assumption.
  - unfold populateStaffList_settled. forced_logout L.
    unfold bind, gets.
    match goal with |- context [forEach ?l _] => generalize l end.
    intros l. revert L.
    match goal with |- sessionEnded _ ?s1 -> _ => generalize s1 end.
    induction l as [|x l IH]; intros s0 L; [exact L|].
    simpl. unfold bind at 1, addStaffCard at 1.
    apply IH. apply sessionEnded_modifyDom; [intros d; split; reflexivity|exact L].
  - unfold fetchTasksAndRender_settled. forced_logout L.
    apply sessionEnded_showToast, L.
  - unfold loadServicesFromBackend_settled. forced_logout L. exact L.
  - unfold updateDashboard_settled. forced_logout L. exact L.
  - rewrite updateWinners_settled_unauthorized.
    apply (sessionEnded_winners_failed _ _ L).
  - unfold updateOverdueTasks_settled. forced_logout L.
    apply sessionEnded_hide; [discriminate|exact L].
  - unfold saveTask_settled. forced_logout L.
    apply sessionEnded_showToast, L.
  - unfold deleteTask_settled. forced_logout L.
    apply sessionEnded_showToast, L.
  - unfold shareTask_settled, shareTask_failed. forced_logout L.
    apply sessionEnded_showToast, L.
  - unfold updateTaskStatus_settled. forced_logout L.
    unfold showToast. rewrite bind_modifyDom.
    apply sessionEnded_modifyDom; [intros d; apply revertStatusSelect_keeps|].
    apply (sessionEnded_showToast _ "Failed to update task status: Unauthorized"
             ToastError), L.
  - unfold saveService_settled. forced_logout L.
    apply sessionEnded_showToast, L.
  - unfold deleteService_settled. forced_logout L.
    apply sessionEnded_showToast, L.
Qed.

Lemma unauthorized_forces_logout_witness :
  answers401 (TasksSettled Unauthorized) = true
  /\ currentUser (step aliceApp (sampleClock, TasksSettled Unauthorized)) = None.
Proof.
  split; [reflexivity|].
  exact (proj1 (unauthorized_forces_logout sampleClock (TasksSettled Unauthorized)
                  aliceApp eq_refl)).
Defined.


(** One [classList.add('hidden')] or [classList.remove('hidden')], with the
    document it leaves named. *)
Lemma setHidden_step (e : ElemId) (b : bool) (s : App) :
  exists D,
    setHidden e b s = (Returned tt, with_dom D s)
    /\ forall x, hidden D x = if ElemId_eq_dec x e then b else hidden (dom s) x.
Proof. eexists. split; [reflexivity|]. intros x. reflexivity. Qed.

(** Runs the [hide] or [unhide] at the head of the computation. *)
Ltac hidden_step :=
  match goal with
  | |- context [bind (hide ?e) ?k ?s0] =>
      let D := fresh "D" in
      let E := fresh "E" in
      let HD := fresh "HD" in
      destruct (setHidden_step e true s0) as (D & E & HD);
      rewrite (bind_eq (hide e) k s0 _ tt E); clear E;
      cbn [dom with_dom] in HD; rewrite ?with_dom_twice
  | |- context [bind (unhide ?e) ?k ?s0] =>
      let D := fresh "D" in
      let E := fresh "E" in
      let HD := fresh "HD" in
      destruct (setHidden_step e false s0) as (D & E & HD);
      rewrite (bind_eq (unhide e) k s0 _ tt E); clear E;
      cbn [dom with_dom] in HD; rewrite ?with_dom_twice
  end.

(** The part of [showApp] that shows and hides elements by role writes
    their [hidden] classes and nothing else. *)
Lemma showApp_by_role (admin manager : bool) (s : App) :
  exists D,
    (if admin then
       unhide staffNav ;; unhide reportsNav ;; unhide databaseNav ;;
       unhide revenueCard ;; unhide actionsHeader ;; unhide addStaffBtn ;;
       unhide addServiceBtn
     else if manager then
       unhide staffNav ;; unhide reportsNav ;; unhide databaseNav ;;
       hide revenueCard ;; unhide actionsHeader ;; hide addStaffBtn ;;
       unhide addServiceBtn
     else
       hide staffNav ;; hide reportsNav ;; hide databaseNav ;;
       hide revenueCard ;; hide actionsHeader ;; hide addStaffBtn ;;
       hide addServiceBtn) s
    = (Returned tt, with_dom D s)
    /\ hidden D loginPage = hidden (dom s) loginPage
    /\ hidden D navigation = hidden (dom s) navigation.
Proof.
  destruct admin; [|destruct manager];
    do 6 hidden_step;
    match goal with
    | |- exists D, hide ?e ?s0 = _ /\ _ =>
        destruct (setHidden_step e true s0) as (D' & E & HD');
        cbn [dom with_dom] in HD'; rewrite with_dom_twice in E;
        exists D'; (split; [exact E|])
    | |- exists D, unhide ?e ?s0 = _ /\ _ =>
        destruct (setHidden_step e false s0) as (D' & E & HD');
        cbn [dom with_dom] in HD'; rewrite with_dom_twice in E;
        exists D'; (split; [exact E|])
    end;
    split; rewrite HD', HD4, HD3, HD2, HD1, HD0, HD; reflexivity.
Qed.

Lemma initApp_restores (clk : Clock) (user : User.t) :
  let s := exec (initApp clk) (with_sessionStorage (Some user) emptyApp) in
  currentUser s = Some user
  /\ hidden (dom s) loginPage = true
  /\ hidden (dom s) navigation = false
  /\ sent s = [request GET api_users; request GET api_users;
               request GET api_dashboard_stats; request GET api_tasks;
               request GET api_services; request GET api_dashboard_stats].
Proof.
  intros s. unfold s, exec, initApp.
  mstep reflexivity. fields. mstep reflexivity.
  unfold showApp. do 2 (mstep reflexivity).
  mstep reflexivity. mstep reflexivity.
  match goal with |- context [bind (if ?a then _ else if ?m then _ else _) ?k ?s0] =>
    destruct (showApp_by_role a m s0) as (D & E & H1 & H2);
    rewrite (bind_eq _ k s0 _ tt E)
  end.
  clear E. revert H1 H2. fields. vm_compute hidden at 2 4.
  generalize D. clear D. intros D H1 H2.
  vm_compute. auto.
Qed.

Lemma proj_tryCatch {A C} (proj : App -> C) (m : M A) (h : string -> M A)
    (s : App) (X : C) :
  proj (snd (m s)) = X -> (forall e, keeps proj (h e)) ->
  proj (snd (tryCatch m h s)) = X.
Proof.
  intros E K. unfold tryCatch. destruct (m s) as [[a|e] s1]; simpl in *; [exact E|].
  rewrite (K e s1). exact E.
Qed.

Lemma keeps_session_showApp clk :
  keeps currentUser (showApp clk) /\ keeps sessionStorage (showApp clk).
Proof.
  split; unfold_handlers; keeps_tac.
Qed.

(** X3. The user who logged in is the user after the page is loaded again,
    with no second login; after a logout, loading the page again shows the
    login page. *)
Theorem login_survives_reload (clk clk' : Clock) (user : User.t) (s : App) :
  let s1 := exec (handleLogin_settled clk (Ok (Some user))) s in
  let s2 := exec (initApp clk') (reload s1) in
  let s3 := exec (initApp clk') (reload (exec handleLogout s1)) in
  currentUser s1 = Some user
  /\ sessionStorage s1 = Some user
  /\ currentUser s2 = Some user
  /\ hidden (dom s2) loginPage = true
  /\ hidden (dom s2) navigation = false
  /\ sent s2 = [request GET api_users; request GET api_users;
                request GET api_dashboard_stats; request GET api_tasks;
                request GET api_services; request GET api_dashboard_stats]
  /\ currentUser s3 = None
  /\ loginView (dom s3)
  /\ sent s3 = [].
Proof.
  intros s1 s2 s3.
  destruct (keeps_session_showApp clk) as [K1 K2].
  assert (E1 : currentUser s1 = Some user).
  { unfold s1, exec, handleLogin_settled.
    apply proj_tryCatch; [|intros e; unfold showToast; keeps_tac].
    mstep reflexivity. cbv iota. do 2 (mstep reflexivity).
    match goal with |- currentUser (snd (?m ?s0)) = _ =>
      assert (K : keeps currentUser m)
        by (apply keeps_bind; [exact K1|intros _; unfold showToast; keeps_tac]);
      rewrite (K s0)
    end.
    destruct user; reflexivity. }
  assert (E2 : sessionStorage s1 = Some user).
  { unfold s1, exec, handleLogin_settled.
    apply proj_tryCatch; [|intros e; unfold showToast; keeps_tac].
    mstep reflexivity. cbv iota. do 2 (mstep reflexivity).
    match goal with |- sessionStorage (snd (?m ?s0)) = _ =>
      assert (K : keeps sessionStorage m)
        by (apply keeps_bind; [exact K2|intros _; unfold showToast; keeps_tac]);
      rewrite (K s0)
    end.
    destruct user; reflexivity. }
  split; [exact E1|]. split; [exact E2|].
  unfold s2, s3, reload. rewrite E2.
  destruct (initApp_restores clk' user) as (R1 & R2 & R3 & R4).
  split; [exact R1|]. split; [exact R2|]. split; [exact R3|]. split; [exact R4|].
  split; [reflexivity|]. split; [|reflexivity].
  unfold loginView, pages. repeat split; repeat constructor.
Qed.

Lemma toasts_showToast message type s :
  toasts (dom (snd (showToast message type s)))
  = toasts (dom s) ++ [{| toastMessage := message; toastType := type |}].
Proof. reflexivity. Qed.

(** X4. A login the backend refuses logs nobody in. *)
Theorem refused_login_logs_nobody_in (clk : Clock) (s : App) :
  (forall message,
     exec (handleLogin_settled clk (Failed message)) s
     = exec (showToast (if message === "" then "Invalid credentials. Please try again."
                        else message) ToastError) s)
  /\ exec (handleLogin_settled clk (Ok None)) s
     = exec (showToast "Invalid server response" ToastError) s
  /\ (let s' := exec (handleLogin_settled clk Unauthorized) s in
      currentUser s' = None
      /\ sessionStorage s' = None
      /\ sent s' = sent s ++ [logoutRequest]
      /\ toasts (dom s')
         = toasts (dom s)
           ++ [sessionExpired; loggedOut;
               {| toastMessage := "Unauthorized"; toastType := ToastError |}]).
Proof.
  split; [intros message; reflexivity|]. split; [reflexivity|].
  cbv zeta. unfold handleLogin_settled, exec. rewrite tryCatch_unauthorized.
  split; [reflexivity|]. split; [reflexivity|]. split; [reflexivity|].
  rewrite toasts_showToast.
  match goal with |- context [exec handleLogout ?s1] =>
    destruct (handleLogout_frame s1) as (_ & -> & _)
  end.
  unfold exec. rewrite toasts_showToast, <- !app_assoc. reflexivity.
Qed.

(** ** Navigation, staff panel and reports *)

Lemma theUser_logged_in (u : User.t) (s : App) :
  currentUser s = Some u -> theUser s = (Returned u, s).
Proof. intros H. cbv [theUser bind gets]. rewrite H. reflexivity. Qed.

(** A loop that builds one element per item, reading the logged-in user, and
    appends it to a list of the document. *)
Lemma forEach_append_user {A B} (get : Dom -> list B) (set : list B -> Dom -> Dom)
    (u : User.t) (h : User.t -> A -> B) :
  (forall v d, get (set v d) = v) ->
  (forall v w d, set v (set w d) = set v d) ->
  (forall d, set (get d) d = d) ->
  forall l s,
    currentUser s = Some u ->
    forEach l (fun x =>
      v <- theUser ;;
      modifyDom (fun d => set (get d ++ [h v x]) d)) s
    = (Returned tt, with_dom (set (get (dom s) ++ map (h u) l) (dom s)) s).
Proof.
  intros L1 L2 L3 l s H.
  rewrite <- (forEach_append get set (h u)) by assumption.
  apply (forEach_ext (fun s => currentUser s = Some u)); [| |exact H].
  - intros x s0 H0. unfold bind. rewrite (theUser_logged_in u s0 H0). reflexivity.
  - intros x s0 H0. exact H0.
Qed.

Lemma updateReports_logged_in (u : User.t) (s : App) :
  currentUser s = Some u ->
  updateReports s
  = (Returned tt,
     with_dom
       (with_staffPerformanceCards
          (map (reportCardFor u (tasks s)) (staffUsernames (tasks s))) (dom s)) s).
Proof.
  intros H. unfold updateReports.
  do 2 (mstep reflexivity). fields.
  rewrite (forEach_append_user staffPerformanceCards with_staffPerformanceCards u
             (fun v name => reportCardFor v (tasks s) name)) by (lens || exact H).
  fields. reflexivity.
Qed.

Lemma forEach_createTaskCard (get : Dom -> list TaskCard)
    (set : list TaskCard -> Dom -> Dom) (u : User.t) (type : string) :
  (forall v d, get (set v d) = v) ->
  (forall v w d, set v (set w d) = set v d) ->
  (forall d, set (get d) d = d) ->
  forall l s,
    currentUser s = Some u ->
    forEach l (fun task =>
      taskCard <- createTaskCard task type ;;
      modifyDom (fun d => set (get d ++ [taskCard]) d)) s
    = (Returned tt,
       with_dom (set (get (dom s) ++ map (fun task => taskCardFor u task type) l)
                     (dom s)) s).
Proof.
  intros L1 L2 L3 l s H.
  rewrite <- (forEach_append get set (fun task => taskCardFor u task type))
    by assumption.
  apply (forEach_ext (fun s => currentUser s = Some u)); [| |exact H].
  - intros x s0 H0. unfold createTaskCard, bind.
    rewrite (theUser_logged_in u s0 H0). reflexivity.
  - intros x s0 H0. exact H0.
Qed.

Lemma populateAllTasks_logged_in (u : User.t) (s : App) :
  currentUser s = Some u ->
  populateAllTasks s
  = (Returned tt,
     with_dom (with_allTasksContainer
                 (map (fun task => taskCardFor u task "all") (tasks s)) (dom s)) s).
Proof.
  intros H. unfold populateAllTasks. do 2 (mstep reflexivity). fields.
  rewrite (forEach_createTaskCard allTasksContainer with_allTasksContainer u "all")
    by (lens || exact H).
  fields. reflexivity.
Qed.

Lemma populateMyTasks_logged_in (u : User.t) (s : App) :
  currentUser s = Some u ->
  populateMyTasks s
  = (Returned tt,
     with_dom (with_myTasksContainer
                 (map (fun task => taskCardFor u task "my")
                      (filter (isMyTask u) (tasks s))) (dom s)) s).
Proof.
  intros H. unfold populateMyTasks. do 2 (mstep reflexivity).
  mstep (apply (theUser_logged_in u); exact H). fields. cbv zeta.
  rewrite (forEach_createTaskCard myTasksContainer with_myTasksContainer u "my")
    by (lens || exact H).
  fields. reflexivity.
Qed.

Lemma populateExtraTasks_logged_in (u : User.t) (s : App) :
  currentUser s = Some u ->
  populateExtraTasks s
  = (Returned tt,
     with_dom (with_extraTasksContainer
                 (map (fun task => taskCardFor u task "extra")
                      (filter (isTakenOver u) (tasks s))) (dom s)) s).
Proof.
  intros H. unfold populateExtraTasks. do 2 (mstep reflexivity).
  mstep (apply (theUser_logged_in u); exact H). fields. cbv zeta.
  rewrite (forEach_createTaskCard extraTasksContainer with_extraTasksContainer u
             "extra") by (lens || exact H).
  fields. reflexivity.
Qed.

(** What [updateStaffPanel] writes for a staff user. *)
Lemma updateStaffPanel_staff (u : User.t) (s : App) :
  currentUser s = Some u -> User.role u = "staff" ->
  exists D,
    updateStaffPanel s = (Returned tt, with_dom D s)
    /\ allTasksContainer D = map (fun task => taskCardFor u task "all") (tasks s)
    /\ myTasksContainer D
       = map (fun task => taskCardFor u task "my") (filter (isMyTask u) (tasks s))
    /\ extraTasksContainer D
       = map (fun task => taskCardFor u task "extra")
             (filter (isTakenOver u) (tasks s))
    /\ text D currentStaffName = Some (Str (User.username u))
    /\ text D staffTotalTasks = Some (Num (Z.of_nat (List.length (tasks s))))
    /\ text D staffPendingTasks
       = Some (Num (Z.of_nat (List.length
            (filter (fun task => Task.status task === "Pending") (tasks s)))))
    /\ text D staffMyTasks
       = Some (Num (Z.of_nat (List.length (filter (isMyTask u) (tasks s)))))
    /\ text D staffExtraTasks
       = Some (Num (Z.of_nat (List.length (filter (isTakenOver u) (tasks s)))))
    /\ hidden D = hidden (dom s)
    /\ toasts D = toasts (dom s)
    /\ taskTableBody D = taskTableBody (dom s)
    /\ shown D = shown (dom s)
    /\ customDate D = customDate (dom s)
    /\ text D statusOrderNo = text (dom s) statusOrderNo
    /\ text D statusNewStatus = text (dom s) statusNewStatus.
Proof.
  intros H R. unfold updateStaffPanel.
  mstep reflexivity. rewrite H, R. cbn [String.eqb Ascii.eqb Bool.eqb negb].
  do 6 (mstep reflexivity).
  mstep (apply (populateAllTasks_logged_in u); exact H).
  mstep (apply (populateMyTasks_logged_in u); exact H).
  rewrite (populateExtraTasks_logged_in u) by exact H.
  fields. eexists. split; [reflexivity|]. fields.
  repeat split; reflexivity.
Qed.

(** For a user who is not staff [updateStaffPanel] does nothing. *)
Lemma updateStaffPanel_not_staff (s : App) :
  isStaff (currentUser s) = false -> updateStaffPanel s = (Returned tt, s).
Proof.
  intros H. unfold updateStaffPanel. mstep reflexivity.
  unfold isStaff in H. destruct (currentUser s) as [u|]; [|reflexivity].
  rewrite H. reflexivity.
Qed.

Lemma updateStaffPanel_returns (u : User.t) (s : App) :
  currentUser s = Some u ->
  exists D, updateStaffPanel s = (Returned tt, with_dom D s)
            /\ hidden D = hidden (dom s).
Proof.
  intros H. destruct (User.role u === "staff") eqn:R.
  - apply String.eqb_eq in R.
    destruct (updateStaffPanel_staff u s H R) as (D & E & P).
    exists D. split; [exact E|]. apply P.
  - exists (dom s). rewrite with_dom_dom. split; [|reflexivity].
    apply updateStaffPanel_not_staff. unfold isStaff. rewrite H. exact R.
Qed.

Lemma bind_assoc {A B C} (m : M A) (k1 : A -> M B) (k2 : B -> M C) (s : App) :
  bind (bind m k1) k2 s = bind m (fun a => bind (k1 a) k2) s.
Proof. unfold bind. destruct (m s) as [[a|e] s1]; reflexivity. Qed.

(** The [hidden] class of [e] after the steps taken, read off the documents
    they left. *)
Ltac hidden_chain e :=
  fields;
  repeat match goal with
    | H : forall x : ElemId, hidden _ x = _ |- _ => rewrite H
    end;
  destruct e; reflexivity.

(** X5. [navigateToPage] shows the section of the page and hides the other
    five, for every user alike; a name that is no page hides all six.  Only
    the dashboard makes it call the backend. *)
Theorem navigateToPage_shows_one_section
    (clk : Clock) (page : string) (s : App) (u : User.t) :
  currentUser s = Some u ->
  let s' := exec (navigateToPage clk page) s in
  currentPage s' = page
  /\ (forall e, In e pages ->
        (hidden (dom s') e = false <-> pageSection page = Some e))
  /\ (forall e, ~ In e pages -> hidden (dom s') e = hidden (dom s) e)
  /\ sent s' = sent s ++ (if page === "dashboard"
                          then [request GET api_dashboard_stats] else [])
  /\ tasks s' = tasks s
  /\ currentUser s' = Some u.
Proof.
  intros H s'.
  assert (E : exists D s0,
            s' = with_currentPage page (with_dom D s0)
            /\ sent s0 = sent s ++ (if page === "dashboard"
                                    then [request GET api_dashboard_stats] else [])
            /\ tasks s0 = tasks s
            /\ currentUser s0 = currentUser s
            /\ forall e,
                 hidden D e
                 = if in_dec ElemId_eq_dec e pages
                   then match pageSection page with
                        | Some p => if ElemId_eq_dec e p then false else true
                        | None => true
                        end
                   else hidden (dom s) e).
  { unfold s', exec, navigateToPage, pageSection.
    do 6 hidden_step.
    destruct (page === "dashboard");
      [|destruct (page === "tasks");
        [|destruct (page === "staff");
          [|destruct (page === "reports");
            [|destruct (page === "database");
              [|destruct (page === "staff-panel")]]]]];
      rewrite ?bind_assoc; try hidden_step; cbv beta.
    - eexists _, (with_sent _ s). split; [reflexivity|]. split; [reflexivity|].
      split; [reflexivity|]. split; [reflexivity|]. intros e. hidden_chain e.
    - eexists _, s. split; [reflexivity|]. split; [symmetry; apply app_nil_r|].
      split; [reflexivity|]. split; [reflexivity|]. intros e. hidden_chain e.
    - mstep (apply updateStaffAlerts_result).
      eexists _, s. split; [reflexivity|]. split; [symmetry; apply app_nil_r|].
      split; [reflexivity|]. split; [reflexivity|]. intros e. hidden_chain e.
    - mstep (apply (updateReports_logged_in u); exact H).
      eexists _, s. split; [reflexivity|]. split; [symmetry; apply app_nil_r|].
      split; [reflexivity|]. split; [reflexivity|]. intros e. hidden_chain e.
    - eexists _, s. split; [reflexivity|]. split; [symmetry; apply app_nil_r|].
      split; [reflexivity|]. split; [reflexivity|]. intros e. hidden_chain e.
    - match goal with |- context [bind updateStaffPanel ?k ?s0] =>
        destruct (updateStaffPanel_returns u s0 H) as (D' & E & HD');
        rewrite (bind_eq updateStaffPanel k s0 _ tt E); clear E
      end.
      eexists _, s. split; [reflexivity|]. split; [symmetry; apply app_nil_r|].
      split; [reflexivity|]. split; [reflexivity|].
      intros e. fields. rewrite HD'. hidden_chain e.
    - eexists _, s. split; [reflexivity|]. split; [symmetry; apply app_nil_r|].
      split; [reflexivity|]. split; [reflexivity|]. intros e. hidden_chain e. }
  destruct E as (D & s0 & -> & S & T & U & HD). fields.
  split; [reflexivity|]. split; [|split; [|split; [exact S|split; [exact T|]]]].
  - intros e I. rewrite HD. destruct (in_dec ElemId_eq_dec e pages) as [_|N];
      [|contradiction].
    destruct (pageSection page) as [p|].
    + destruct (ElemId_eq_dec e p) as [->|N]; split; auto; try discriminate.
      intros Q. injection Q as Q. congruence.
    + split; discriminate.
  - intros e N. rewrite HD. destruct (in_dec ElemId_eq_dec e pages); [contradiction|].
    reflexivity.
  - rewrite U. exact H.
Qed.

Lemma navigateToPage_shows_one_section_witness :
  currentUser aliceApp = Some alice
  /\ currentPage (exec (navigateToPage sampleClock "tasks") aliceApp) = "tasks".
Proof.
  split; [reflexivity|].
  exact (proj1 (navigateToPage_shows_one_section sampleClock "tasks" aliceApp alice
                  eq_refl)).
Defined.

Lemma map_cardTask (u : User.t) (type : string) (l : list Task.t) :
  map cardTask (map (fun task => taskCardFor u task type) l) = l.
Proof. rewrite map_map. simpl. apply map_id. Qed.

(** X6. The figures of the staff panel count the cards below them; what the
    user took over is also among the user's tasks. *)
Theorem staff_panel_counts_match_cards (s : App) :
  (forall u, currentUser s = Some u -> User.role u = "staff" ->
     let s' := exec updateStaffPanel s in
     let d := dom s' in
     map cardTask (allTasksContainer d) = tasks s
     /\ map cardTask (myTasksContainer d) = filter (isMyTask u) (tasks s)
     /\ map cardTask (extraTasksContainer d) = filter (isTakenOver u) (tasks s)
     /\ text d staffTotalTasks
        = Some (Num (Z.of_nat (List.length (allTasksContainer d))))
     /\ text d staffMyTasks
        = Some (Num (Z.of_nat (List.length (myTasksContainer d))))
     /\ text d staffExtraTasks
        = Some (Num (Z.of_nat (List.length (extraTasksContainer d))))
     /\ text d staffPendingTasks
        = Some (Num (Z.of_nat (List.length
             (filter (fun task => Task.status task === "Pending") (tasks s)))))
     /\ incl (map cardTask (extraTasksContainer d)) (map cardTask (myTasksContainer d))
     /\ incl (map cardTask (myTasksContainer d)) (map cardTask (allTasksContainer d))
     /\ tasks s' = tasks s
     /\ sent s' = sent s)
  /\ (isStaff (currentUser s) = false -> exec updateStaffPanel s = s).
Proof.
  split.
  - intros u H R s' d.
    destruct (updateStaffPanel_staff u s H R)
      as (D & E & A & My & X & _ & T1 & T2 & T3 & T4 & _).
    unfold d, s', exec. rewrite E. fields.
    rewrite A, My, X, !map_cardTask, !length_map, T1, T2, T3, T4.
    repeat split; try reflexivity.
    + intros t I. apply filter_In in I. apply filter_In. split; [tauto|].
      unfold isMyTask. unfold isTakenOver in I. destruct I as [_ ->].
      apply orb_true_r.
    + intros t I. apply filter_In in I. tauto.
  - intros H. unfold exec. rewrite (updateStaffPanel_not_staff s H). reflexivity.
Qed.

Lemma staff_panel_counts_match_cards_witness :
  currentUser aliceApp = Some alice
  /\ User.role alice = "staff"
  /\ map cardTask (allTasksContainer (dom (exec updateStaffPanel aliceApp)))
     = tasks aliceApp.
Proof.
  split; [reflexivity|]. split; [reflexivity|].
  exact (proj1 (proj1 (staff_panel_counts_match_cards aliceApp) alice eq_refl eq_refl)).
Defined.

Lemma taskCardFor_controls (u : User.t) (task : Task.t) (type : string) :
  cardControls (taskCardFor u task type)
  = (if andb (negb (isMyTask u task)) (isNull (Task.takenOverBy task))
     then [takeOverButton task] else [])
    ++ (if isMyTask u task
        then [cardEditButton task;
              StatusSelect data_task_id (Task.id task)
                           (selectedStatus (Task.status task))]
        else []).
Proof. reflexivity. Qed.

(** X7. A card under the user's tasks offers the edit button and the
    status select, and nothing else; a card under the extra tasks carries the
    badge; under all tasks a card offers Take Over exactly for a task that is
    not assigned to the user and that nobody took over, and then nothing
    else; a task of somebody else that somebody else took over offers
    nothing. *)
Theorem staff_cards_offer_take_over_or_edit (s : App) (u : User.t) :
  currentUser s = Some u -> User.role u = "staff" ->
  let d := dom (exec updateStaffPanel s) in
  Forall (fun c =>
            cardControls c
            = [cardEditButton (cardTask c);
               StatusSelect data_task_id (Task.id (cardTask c))
                            (selectedStatus (Task.status (cardTask c)))])
         (myTasksContainer d)
  /\ Forall (fun c => takenOverBadge c = true) (extraTasksContainer d)
  /\ Forall (fun c =>
               (In (takeOverButton (cardTask c)) (cardControls c) <->
                Task.assignedTo (cardTask c) <> User.username u
                /\ Task.takenOverBy (cardTask c) = None)
               /\ (In (takeOverButton (cardTask c)) (cardControls c) ->
                   cardControls c = [takeOverButton (cardTask c)])
               /\ (Task.assignedTo (cardTask c) <> User.username u ->
                   (exists other, Task.takenOverBy (cardTask c) = Some other
                                  /\ other <> User.username u) ->
                   cardControls c = []))
            (allTasksContainer d).
Proof.
  intros H R d.
  destruct (updateStaffPanel_staff u s H R) as (D & E & A & My & X & _).
  unfold d, exec. rewrite E. fields. rewrite A, My, X.
  split; [|split]; apply Forall_forall; intros c I; apply in_map_iff in I;
    destruct I as (task & <- & I).
  - apply filter_In in I. destruct I as [_ I].
    rewrite taskCardFor_controls. cbn [cardTask taskCardFor]. rewrite I. reflexivity.
  - apply filter_In in I. destruct I as [_ I]. exact I.
  - rewrite taskCardFor_controls. cbn [cardTask taskCardFor].
    unfold isMyTask, isString, isNull.
    destruct (Task.assignedTo task === User.username u) eqn:A1;
      [apply String.eqb_eq in A1|apply String.eqb_neq in A1].
    + cbn [orb negb andb app]. split; [|split].
      * split; [intros [Q|[Q|[]]]; discriminate Q|intros [N _]; contradiction].
      * intros [Q|[Q|[]]]; discriminate Q.
      * intros N; contradiction.
    + destruct (Task.takenOverBy task) as [other|] eqn:T.
      * destruct (other === User.username u) eqn:O;
          [apply String.eqb_eq in O|apply String.eqb_neq in O];
          cbn [orb negb andb app].
        -- split; [|split].
           ++ split; [intros [Q|[Q|[]]]; discriminate Q|intros [_ Q]; discriminate Q].
           ++ intros [Q|[Q|[]]]; discriminate Q.
           ++ intros _ (o & Q & N). injection Q as <-. contradiction.
        -- split; [|split; [intros []|reflexivity]].
           split; [intros []|intros [_ Q]; discriminate Q].
      * cbn [orb negb andb app]. split; [|split].
        -- split; [auto|]. intros _. left. reflexivity.
        -- reflexivity.
        -- intros _ (o & Q & _). discriminate Q.
Qed.

Lemma staff_cards_offer_take_over_or_edit_witness :
  currentUser aliceApp = Some alice
  /\ User.role alice = "staff"
  /\ Forall (fun c => takenOverBadge c = true)
            (extraTasksContainer (dom (exec updateStaffPanel aliceApp))).
Proof.
  split; [reflexivity|]. split; [reflexivity|].
  exact (proj1 (proj2 (staff_cards_offer_take_over_or_edit aliceApp alice
                         eq_refl eq_refl))).
Defined.

Lemma sumOf_once (x : string) (names : list string) :
  NoDup names ->
  sumOf (fun name => if x === name then 1%nat else O) names
  = if includes x names then 1%nat else O.
Proof.
  intros N. induction names as [|n names IH]; simpl; [reflexivity|].
  inversion N as [|n' l' Q N']; subst. rewrite (IH N'). rewrite (String.eqb_sym n x).
  destruct (x === n) eqn:E; simpl; [|reflexivity].
  apply String.eqb_eq in E. subst n.
  destruct (includes x names) eqn:C; [apply includes_In in C; contradiction|].
  reflexivity.
Qed.

(** Tasks grouped by names without repetition are each counted once. *)
Lemma count_by_name (names : list string) (ts : list Task.t) :
  NoDup names ->
  sumOf (fun name => List.length (filter (fun task => Task.assignedTo task === name) ts))
        names
  = List.length (filter (fun task => includes (Task.assignedTo task) names) ts).
Proof.
  intros N. induction ts as [|t ts IH].
  - simpl. clear N. induction names as [|n names IHn]; simpl; auto.
  - assert (A : sumOf (fun name =>
                         List.length (filter (fun task => Task.assignedTo task === name)
                                             (t :: ts))) names
                = (sumOf (fun name => if Task.assignedTo t === name then 1%nat else O)
                         names
                   + sumOf (fun name =>
                              List.length
                                (filter (fun task => Task.assignedTo task === name) ts))
                           names)%nat).
    { clear. induction names as [|n names IHn]; [reflexivity|].
      unfold sumOf in *. cbn [fold_right]. rewrite IHn. cbn [filter].
      destruct (Task.assignedTo t === n); cbn [List.length]; lia. }
    rewrite A, IH, (sumOf_once _ _ N). simpl.
    destruct (includes (Task.assignedTo t) names); reflexivity.
Qed.

(** X8. The report cards: one per person tasks are assigned to, and every
    assigned task counted on one card. *)
Theorem reports_count_each_assigned_task_once (s : App) (u : User.t) :
  currentUser s = Some u ->
  let s' := exec updateReports s in
  let cards := staffPerformanceCards (dom s') in
  NoDup (map rc_name cards)
  /\ (forall name,
        In name (map rc_name cards) <->
        name <> "" /\ exists task, In task (tasks s) /\ Task.assignedTo task = name)
  /\ sumOf rc_total cards
     = List.length (filter (fun task => negb (Task.assignedTo task === "")) (tasks s))
  /\ Forall (fun c =>
               rc_total c
               = List.length (filter (fun task => Task.assignedTo task === rc_name c)
                                     (tasks s))
               /\ (rc_completed c <= rc_total c)%nat
               /\ (rc_revenue c <> None <-> User.role u = "admin")) cards
  /\ tasks s' = tasks s
  /\ sent s' = sent s.
Proof.
  intros H s' cards. unfold cards, s', exec.
  rewrite (updateReports_logged_in u s H). fields.
  destruct (staffUsernames_spec (tasks s)) as [N S].
  assert (M : map rc_name (map (reportCardFor u (tasks s)) (staffUsernames (tasks s)))
              = staffUsernames (tasks s)).
  { rewrite map_map. simpl. apply map_id. }
  rewrite M. split; [exact N|]. split; [exact S|].
  split; [|split; [|split; reflexivity]].
  - transitivity
      (sumOf (fun name =>
                List.length (filter (fun task => Task.assignedTo task === name)
                                    (tasks s)))
             (staffUsernames (tasks s))).
    { generalize (staffUsernames (tasks s)). intros l.
      induction l as [|n l IH]; simpl; [reflexivity|]. rewrite IH. reflexivity. }
    rewrite (count_by_name _ _ N). f_equal. apply filter_ext_in.
    intros task I.
    destruct (Task.assignedTo task === "") eqn:E; simpl.
    + apply not_true_is_false. rewrite includes_In, S.
      apply String.eqb_eq in E. tauto.
    + apply includes_In, S. apply String.eqb_neq in E. split; [exact E|].
      exists task. tauto.
  - apply Forall_forall. intros c I. apply in_map_iff in I.
    destruct I as (name & <- & _). cbn [rc_total rc_completed rc_revenue rc_name reportCardFor].
    split; [reflexivity|]. split.
    + apply filter_length_le.
    + destruct (User.role u === "admin") eqn:E.
      * apply String.eqb_eq in E. split; [auto|discriminate].
      * apply String.eqb_neq in E. split; [intros Q; contradiction|contradiction].
Qed.

Lemma reports_count_each_assigned_task_once_witness :
  currentUser adminApp = Some admin
  /\ NoDup (map rc_name (staffPerformanceCards (dom (exec updateReports adminApp)))).
Proof.
  split; [reflexivity|].
  exact (proj1 (reports_count_each_assigned_task_once adminApp admin eq_refl)).
Defined.

(** ** Editing and status changes *)

Lemma find_findIndex {A} (p : A -> bool) (l : list A) :
  find p l = match findIndex p l with Some i => nth_error l i | None => None end.
Proof.
  induction l as [|x l IH]; simpl; [reflexivity|].
  destruct (p x); [reflexivity|]. rewrite IH.
  destruct (findIndex p l); reflexivity.
Qed.

Lemma find_Some_findIndex {A} (p : A -> bool) (l : list A) (x : A) :
  find p l = Some x ->
  exists i, findIndex p l = Some i /\ nth_error l i = Some x.
Proof.
  rewrite find_findIndex. destruct (findIndex p l) as [i|]; [|discriminate].
  intros E. exists i. auto.
Qed.

Lemma findIndex_first {A} (p : A -> bool) (l : list A) (i : nat) :
  findIndex p l = Some i ->
  forall j x, (j < i)%nat -> nth_error l j = Some x -> p x = false.
Proof.
  revert i. induction l as [|y l IH]; simpl; intros i H; [discriminate|].
  destruct (p y) eqn:E.
  - injection H as <-. intros j x L. lia.
  - destruct (findIndex p l) as [k|]; [|discriminate]. injection H as <-.
    intros [|j] x L N; simpl in N.
    + injection N as <-. exact E.
    + apply (IH k eq_refl j x); [lia|exact N].
Qed.

Lemma findIndex_updateAt {A} (p : A -> bool) (f : A -> A) (l : list A) (i : nat) :
  (forall x, p (f x) = p x) ->
  findIndex p (updateAt i f l) = findIndex p l.
Proof.
  intros H. revert i. induction l as [|y l IH]; intros [|i]; simpl; try reflexivity.
  - rewrite H. reflexivity.
  - rewrite IH. reflexivity.
Qed.

(** X9. The edit button of a row of the task table is there exactly when
    [editTask] opens the form for the user. *)
Theorem edit_button_where_editTask_allows (s : App) (u : User.t) (id : Z) :
  currentUser s = Some u ->
  In (User.role u) ["admin"; "manager"; "staff"] ->
  let s' := exec (editTask id) s in
  (find (fun t => Task.id t =? id) (tasks s) = None -> s' = s)
  /\ forall task,
       find (fun t => Task.id t =? id) (tasks s) = Some task ->
       (In (rowEditButton task) (actionControls u task) ->
        editingTaskId s' = Some id
        /\ hidden (dom s') taskFormContainer = false
        /\ text (dom s') formTitle = Some (Str "Edit Task")
        /\ toasts (dom s') = toasts (dom s))
       /\ (~ In (rowEditButton task) (actionControls u task) ->
           editingTaskId s' = editingTaskId s
           /\ dom s' = with_toasts (toasts (dom s) ++ [editRefused]) (dom s))
       /\ sent s' = sent s
       /\ tasks s' = tasks s.
Proof.
  intros H R s'. split.
  - intros F. unfold s', exec, editTask. mstep reflexivity. rewrite F. reflexivity.
  - intros task F.
    assert (B : In (rowEditButton task) (actionControls u task) <->
                andb (User.role u === "staff")
                     (andb (negb (Task.assignedTo task === User.username u))
                           (negb (includes (User.username u) (Task.sharedWith task))))
                = false).
    { unfold actionControls, rowEditButton.
      destruct R as [<-|[<-|[<-|[]]]]; cbn [String.eqb Ascii.eqb Bool.eqb andb].
      - split; [reflexivity|]. intros _. left. reflexivity.
      - split; [reflexivity|]. intros _. left. reflexivity.
      - destruct (Task.assignedTo task === User.username u); cbn [orb negb andb].
        + split; [reflexivity|]. intros _. left. reflexivity.
        + destruct (includes (User.username u) (Task.sharedWith task));
            cbn [negb].
          * split; [reflexivity|]. intros _. left. reflexivity.
          * split; [|discriminate]. intros [Q|[Q|[]]]; discriminate Q. }
    unfold s', exec, editTask. mstep reflexivity. rewrite F.
    mstep (apply (theUser_logged_in u); exact H).
    destruct (andb (User.role u === "staff") _) eqn:G.
    + split; [intros I; apply B in I; discriminate I|].
      split; [|split; reflexivity]. intros _. split; reflexivity.
    + split; [|split; [|split; reflexivity]].
      * intros _. repeat split; reflexivity.
      * intros N. exfalso. apply N, B. reflexivity.
Qed.

Lemma edit_button_where_editTask_allows_witness :
  currentUser aliceApp = Some alice
  /\ In (User.role alice) ["admin"; "manager"; "staff"]
  /\ find (fun t => Task.id t =? 99) (tasks aliceApp) = None
  /\ exec (editTask 99) aliceApp = aliceApp.
Proof.
  assert (R : In (User.role alice) ["admin"; "manager"; "staff"])
    by (right; right; left; reflexivity).
  split; [reflexivity|]. split; [exact R|]. split; [reflexivity|].
  exact (proj1 (edit_button_where_editTask_allows aliceApp alice 99 eq_refl R)
               eq_refl).
Defined.

Lemma takeOverTask_panel (s : App) (u : User.t) (taskId : Z) (i : nat) :
  currentUser s = Some u ->
  findIndex (fun t => Task.id t =? taskId) (tasks s) = Some i ->
  exec (takeOverTask taskId) s
  = exec (showToast "Task taken over successfully!" ToastSuccess)
      (exec updateStaffPanel
         (with_tasks
            (updateAt i
               (fun t =>
                  Task.with_editReason
                    (Some ("Task taken over by " ++ User.username u)%string)
                    (Task.with_edited true
                       (Task.with_takenOverBy (Some (User.username u)) t)))
               (tasks s)) s)).
Proof.
  intros H F. unfold exec at 1, takeOverTask.
  mstep reflexivity. fields. rewrite F.
  mstep (apply (theUser_logged_in u); exact H).
  do 3 (mstep reflexivity). fields. rewrite !updateAt_updateAt.
  change (with_tasks ?a (with_tasks _ (with_tasks _ s))) with (with_tasks a s).
  match goal with |- snd (bind updateStaffPanel _ ?s0) = _ =>
    destruct (updateStaffPanel_returns u s0 H) as (D & E & _);
    rewrite (bind_eq _ _ _ _ _ E); unfold exec at 2; rewrite E
  end.
  reflexivity.
Qed.

(** X10. A task taken over shows up under the user's tasks with an edit
    button, but [editTask] only lets the assignee and those the task is
    shared with edit it. *)
Theorem taken_over_task_edit_is_refused
    (s : App) (u : User.t) (id : Z) (task : Task.t) :
  currentUser s = Some u -> User.role u = "staff" ->
  find (fun t => Task.id t =? id) (tasks s) = Some task ->
  Task.assignedTo task <> User.username u ->
  ~ In (User.username u) (Task.sharedWith task) ->
  let s1 := exec (takeOverTask id) s in
  let s2 := exec (editTask id) s1 in
  (exists card,
     In card (myTasksContainer (dom s1))
     /\ Task.id (cardTask card) = id
     /\ Task.takenOverBy (cardTask card) = Some (User.username u)
     /\ In (cardEditButton (cardTask card)) (cardControls card))
  /\ editingTaskId s2 = editingTaskId s
  /\ toasts (dom s2)
     = toasts (dom s)
       ++ [{| toastMessage := "Task taken over successfully!";
              toastType := ToastSuccess |}; editRefused]
  /\ sent s2 = sent s.
Proof.
  intros H R F A Sh s1 s2.
  destruct (find_Some_findIndex _ _ _ F) as (i & FI & N).
  assert (P : Task.id task = id).
  { apply find_some in F. destruct F as [_ F]. apply Z.eqb_eq in F. exact F. }
  set (f := fun t =>
              Task.with_editReason
                (Some ("Task taken over by " ++ User.username u)%string)
                (Task.with_edited true
                   (Task.with_takenOverBy (Some (User.username u)) t))).
  set (s0 := with_tasks (updateAt i f (tasks s)) s).
  assert (E1 : s1 = exec (showToast "Task taken over successfully!" ToastSuccess)
                      (exec updateStaffPanel s0))
    by (apply (takeOverTask_panel s u id i H FI)).
  destruct (updateStaffPanel_staff u s0 H R)
    as (D & E & _ & My & _ & _ & _ & _ & _ & _ & _ & TD & _).
  assert (F1 : find (fun t => Task.id t =? id) (tasks s1) = Some (f task)).
  { rewrite E1. unfold exec. rewrite E. cbn [tasks showToast modifyDom modify snd with_dom].
    unfold s0. fields. rewrite find_findIndex, findIndex_updateAt, FI by reflexivity.
    rewrite nth_error_updateAt_eq, N. reflexivity. }
  split.
  - exists (taskCardFor u (f task) "my").
    split; [|split; [exact P|split; [reflexivity|]]].
    + rewrite E1. unfold exec. rewrite E. unfold showToast, modifyDom, modify. fields.
      rewrite My. apply (in_map (fun task => taskCardFor u task "my")).
      apply filter_In. split.
      * unfold s0. fields.
        assert (Q : nth_error (updateAt i f (tasks s)) i = Some (f task))
          by (rewrite nth_error_updateAt_eq, N; reflexivity).
        apply (nth_error_In _ _ Q).
      * unfold isMyTask, f. cbn [Task.takenOverBy Task.with_editReason
          Task.with_edited Task.with_takenOverBy isString].
        rewrite String.eqb_refl. apply orb_true_r.
    + rewrite taskCardFor_controls. cbn [cardTask taskCardFor].
      assert (Q : isMyTask u (f task) = true).
      { unfold isMyTask, f. cbn [Task.takenOverBy Task.with_editReason
          Task.with_edited Task.with_takenOverBy isString].
        rewrite String.eqb_refl. apply orb_true_r. }
      rewrite Q. cbn [negb andb app]. left. reflexivity.
  - assert (E2 : s2 = exec (showToast "You can only edit tasks assigned to you or shared with you" ToastError) s1).
    { unfold s2, exec at 1, editTask. mstep reflexivity. rewrite F1.
      assert (H1 : currentUser s1 = Some u).
      { rewrite E1. unfold exec. rewrite E. exact H. }
      mstep (apply (theUser_logged_in u); exact H1).
      rewrite R. cbn [String.eqb Ascii.eqb Bool.eqb andb].
      unfold f. cbn [Task.assignedTo Task.sharedWith Task.with_editReason
          Task.with_edited Task.with_takenOverBy].
      apply String.eqb_neq in A. rewrite A.
      destruct (includes (User.username u) (Task.sharedWith task)) eqn:I;
        [apply includes_In in I; contradiction|].
      reflexivity. }
    rewrite E2, E1. unfold exec. rewrite E.
    unfold showToast, modifyDom, modify. fields. rewrite TD, <- app_assoc.
    repeat split; reflexivity.
Qed.

Lemma taken_over_task_edit_is_refused_witness :
  currentUser aliceApp = Some alice
  /\ User.role alice = "staff"
  /\ find (fun t => Task.id t =? 2) (tasks aliceApp)
     = Some (sampleTask 2 "Pending" "bob" "B2" [] (77 * hour))
  /\ "bob" <> "alice"
  /\ ~ In "alice" (@nil string)
  /\ sent (exec (editTask 2) (exec (takeOverTask 2) aliceApp)) = sent aliceApp.
Proof.
  assert (A : "bob" <> "alice") by discriminate.
  assert (S : ~ In "alice" (@nil string)) by (intros []).
  split; [reflexivity|]. split; [reflexivity|]. split; [reflexivity|].
  split; [exact A|]. split; [exact S|].
  exact (proj2 (proj2 (proj2
    (taken_over_task_edit_is_refused aliceApp alice 2
       (sampleTask 2 "Pending" "bob" "B2" [] (77 * hour)) eq_refl eq_refl eq_refl A S)))).
Defined.

(** X11. [updateTaskStatus] leaves the state alone while it asks the backend. *)
Theorem updateTaskStatus_asks_first (s : App) (id : Z) (newStatus : string) :
  (find (fun t => Task.id t =? id) (tasks s) = None ->
   updateTaskStatus id newStatus s
   = (Returned None, exec (showToast "Task not found" ToastError) s))
  /\ forall task,
       find (fun t => Task.id t =? id) (tasks s) = Some task ->
       exists i,
         nth_error (tasks s) i = Some task
         /\ (forall j t, (j < i)%nat -> nth_error (tasks s) j = Some t -> Task.id t <> id)
         /\ updateTaskStatus id newStatus s
            = (Returned (Some (i, Task.status task)),
               with_sent (sent s ++ [statusRequest id newStatus]) s).
Proof.
  split.
  - intros F. unfold updateTaskStatus. mstep reflexivity.
    rewrite find_findIndex in F.
    destruct (findIndex (fun t => Task.id t =? id) (tasks s)) as [i|] eqn:FI;
      [|reflexivity].
    destruct (findIndex_Some _ _ _ FI) as (x & N & _). congruence.
  - intros task F. destruct (find_Some_findIndex _ _ _ F) as (i & FI & N).
    exists i. split; [exact N|]. split.
    + intros j t L Nj Q. pose proof (findIndex_first _ _ _ FI j t L Nj) as P.
      simpl in P. apply Z.eqb_neq in P. contradiction.
    + unfold updateTaskStatus. mstep reflexivity. rewrite FI, N. reflexivity.
Qed.

Lemma updateTaskStatus_asks_first_witness :
  find (fun t => Task.id t =? 99) (tasks aliceApp) = None
  /\ updateTaskStatus 99 "Completed" aliceApp
     = (Returned None, exec (showToast "Task not found" ToastError) aliceApp).
Proof.
  split; [reflexivity|].
  exact (proj1 (updateTaskStatus_asks_first aliceApp 99 "Completed") eq_refl).
Defined.

(** ** The rendered tables *)

Lemma insertSorted_newestFirst (x : Task.t) (l : list Task.t) :
  StronglySorted notOlder l -> StronglySorted notOlder (insertSorted newestFirst x l).
Proof.
  induction l as [|y l IH]; intros S; simpl.
  - constructor; constructor.
  - inversion S as [|y' l' Sl Fy]; subst.
    destruct (newestFirst x y <=? 0) eqn:E.
    + apply Z.leb_le in E. unfold newestFirst in E. constructor; [exact S|].
      constructor; [unfold notOlder; lia|].
      rewrite Forall_forall in *. intros z I. specialize (Fy z I).
      unfold notOlder in *. lia.
    + apply Z.leb_gt in E. unfold newestFirst in E. constructor; [apply IH, Sl|].
      rewrite Forall_forall in *. intros z I.
      apply (Permutation_in _ (insertSorted_perm newestFirst x l)) in I.
      destruct I as [<-|I]; [unfold notOlder; lia|apply Fy, I].
Qed.

Lemma sort_newestFirst (l : list Task.t) : StronglySorted notOlder (sort newestFirst l).
Proof.
  induction l as [|x l IH]; simpl; [constructor|].
  apply insertSorted_newestFirst, IH.
Qed.

(** X12. The task table lists the newest task first; the dashboard shows the
    first ten rows of it, without their actions. *)
Theorem task_table_newest_first (clk : Clock) (s : App) (u : User.t) :
  currentUser s = Some u ->
  let d := dom (exec (renderTasks clk) s) in
  StronglySorted notOlder (renderedTasks (taskTableBody d))
  /\ renderedTasks (recentTasksTable d) = firstn 10 (renderedTasks (taskTableBody d))
  /\ (List.length (recentTasksTable d) <= 10)%nat
  /\ Forall (fun r => actionsCell r = None) (recentTasksTable d)
  /\ Forall (fun r => actionsCell r = Some (actionControls u (rowTask r))
                      /\ editIndicator r = Task.edited (rowTask r))
            (taskTableBody d).
Proof.
  intros H d. unfold d, exec. rewrite (renderTasks_logged_in clk u s H).
  unfold rendered. fields. rewrite !renderedTasks_rowFor.
  split; [apply sort_newestFirst|]. split; [reflexivity|].
  split; [rewrite length_map; apply firstn_le_length|].
  split; apply Forall_forall; intros r I; apply in_map_iff in I;
    destruct I as (t & <- & _); [reflexivity|split; reflexivity].
Qed.

Lemma task_table_newest_first_witness :
  currentUser aliceApp = Some alice
  /\ StronglySorted notOlder
       (renderedTasks (taskTableBody (dom (exec (renderTasks sampleClock) aliceApp)))).
Proof.
  split; [reflexivity|].
  exact (proj1 (task_table_newest_first sampleClock aliceApp alice eq_refl)).
Defined.

(** X13. Every row of the overdue table [renderTasks] fills shows at least
    24 hours; the container is hidden exactly when there is no row. *)
Theorem overdue_rows_show_a_day_or_more (clk : Clock) (s : App) (u : User.t) :
  currentUser s = Some u ->
  let d := dom (exec (renderTasks clk) s) in
  Forall overdueRowOk (overdueTasksTable d)
  /\ (hidden d overdueTasksContainer = true <-> overdueTasksTable d = [])
  /\ (List.length (overdueTasksTable d) <= List.length (taskTableBody d))%nat.
Proof.
  intros H d. unfold d, exec. rewrite (renderTasks_logged_in clk u s H).
  unfold rendered. fields. split; [|split].
  - apply Forall_forall. intros r I. apply in_map_iff in I.
    destruct I as (t & <- & I). apply filter_In in I. destruct I as [_ I].
    apply isOverdue_iff in I. destruct I as [O L]. split; [|exact O].
    unfold hour in L. apply Z.div_le_lower_bound; lia.
  - destruct (ElemId_eq_dec overdueTasksContainer overdueTasksContainer) as [_|N];
      [|contradiction].
    destruct (filter (isOverdue clk) (sortedTasks clk s)); simpl.
    + split; reflexivity.
    + split; discriminate.
  - rewrite !length_map. apply filter_length_le.
Qed.

Lemma overdue_rows_show_a_day_or_more_witness :
  currentUser aliceApp = Some alice
  /\ Forall overdueRowOk
            (overdueTasksTable (dom (exec (renderTasks sampleClock) aliceApp))).
Proof.
  split; [reflexivity|].
  exact (proj1 (overdue_rows_show_a_day_or_more sampleClock aliceApp alice eq_refl)).
Defined.

(** X14. [resetTaskFilters] shows every cached task again; the custom date
    stays in its input. *)
Theorem resetTaskFilters_shows_all (clk : Clock) (s : App) (u : User.t) :
  currentUser s = Some u ->
  let s' := exec (resetTaskFilters clk) s in
  currentFilters s' = noFilters
  /\ filterInputs (dom s') = noFilters
  /\ customDate (dom s') = customDate (dom s)
  /\ renderedTasks (taskTableBody (dom s')) = sort newestFirst (tasks s)
  /\ Permutation (renderedTasks (taskTableBody (dom s'))) (tasks s)
  /\ tasks s' = tasks s
  /\ sent s' = sent s.
Proof.
  intros H s'.
  assert (E : s' = exec (showToast "Filters reset successfully!" ToastSuccess)
                     (rendered clk u
                        (with_currentFilters noFilters
                           (with_dom (with_filterInputs noFilters (dom s)) s)))).
  { unfold s', exec, resetTaskFilters. do 2 (mstep reflexivity).
    mstep (apply (renderTasks_logged_in clk u); exact H). reflexivity. }
  rewrite E. unfold exec, showToast, modifyDom, modify, rendered. fields.
  rewrite renderedTasks_rowFor. unfold sortedTasks. fields.
  assert (Q : filteredTasks clk (customDate (dom s)) noFilters (tasks s) = tasks s)
    by reflexivity.
  rewrite Q. repeat split; try reflexivity. apply sort_perm.
Qed.

Lemma resetTaskFilters_shows_all_witness :
  currentUser aliceFiltered = Some alice
  /\ currentFilters (exec (resetTaskFilters sampleClock) aliceFiltered) = noFilters.
Proof.
  split; [reflexivity|].
  exact (proj1 (resetTaskFilters_shows_all sampleClock aliceFiltered alice eq_refl)).
Defined.

(** ** The service catalog *)

Lemma populateServiceDropdown_loop (l : list Service.t) (s : App) :
  forEach l (fun service =>
    modifyDom (fun d => with_serviceTypeSelect
      (serviceTypeSelect d ++ [{| so_name := Service.name service;
                                  so_serviceId := Service.id service |}]) d) ;;
    modifyDom (fun d => with_filterService
      (filterService d ++ [Service.name service]) d)) s
  = (Returned tt,
     with_dom
       (with_filterService (filterService (dom s) ++ map Service.name l)
          (with_serviceTypeSelect
             (serviceTypeSelect (dom s) ++ map serviceOptionFor l) (dom s))) s).
Proof.
  revert s. induction l as [|x l IH]; intros s.
  - simpl. rewrite !app_nil_r. destruct s as [? ? ? ? ? ? ? ? ? ? d ? ?].
    destruct d. reflexivity.
  - simpl. unfold bind at 1. unfold bind at 1, modifyDom at 1 2, modify at 1 2.
    cbv beta iota. rewrite IH. destruct s as [? ? ? ? ? ? ? ? ? ? d ? ?].
    destruct d. simpl. rewrite <- !app_assoc. reflexivity.
Qed.

Lemma populateServiceDropdown_result (s : App) :
  populateServiceDropdown s
  = (Returned tt,
     with_dom
       (with_filterService (map Service.name (serviceDatabase s))
          (with_serviceTypeSelect (map serviceOptionFor (serviceDatabase s)) (dom s)))
       s).
Proof.
  unfold populateServiceDropdown. do 3 (mstep reflexivity).
  rewrite populateServiceDropdown_loop. reflexivity.
Qed.

(** X15. Every change of the service catalog is sent to the backend, and
    the catalog is fetched again once the backend confirms; the client never
    patches [serviceDatabase] itself. *)
Theorem service_changes_refetch (s : App) (id : Z) :
  let data := serviceForm (dom s) in
  (editingServiceId s = None ->
   sent (exec saveService s) = sent s ++ [serviceRequest POST api_services data])
  /\ (forall editing, editingServiceId s = Some editing ->
      sent (exec saveService s)
      = sent s ++ [serviceRequest PUT (api_service editing) data])
  /\ (let s' := exec (saveService_settled (Ok tt)) s in
      sent s' = sent s ++ [request GET api_services]
      /\ editingServiceId s' = None
      /\ hidden (dom s') serviceFormContainer = true
      /\ serviceDatabase s' = serviceDatabase s)
  /\ (forall message,
      let s' := exec (saveService_settled (Failed message)) s in
      s' = exec (showToast ("Failed to save service: " ++ message)%string ToastError) s)
  /\ exec (deleteService id false) s = s
  /\ exec (deleteService id true) s
     = with_sent (sent s ++ [request DELETE (api_service id)]) s
  /\ (let s' := exec (deleteService_settled (Ok tt)) s in
      sent s' = sent s ++ [request GET api_services]
      /\ serviceDatabase s' = serviceDatabase s)
  /\ (forall message,
      exec (deleteService_settled (Failed message)) s
      = exec (showToast ("Failed to delete service: " ++ message)%string ToastError) s).
Proof.
  intros data. split.
  { intros E. unfold exec, saveService. do 2 (mstep reflexivity). rewrite E.
    reflexivity. }
  split.
  { intros editing E. unfold exec, saveService. do 2 (mstep reflexivity). rewrite E.
    reflexivity. }
  split; [repeat split|]. split; [intros message; reflexivity|].
  split; [reflexivity|]. split; [reflexivity|]. split; [repeat split|].
  intros message; reflexivity.
Qed.

Lemma service_changes_refetch_witness :
  editingServiceId adminApp = None
  /\ sent (exec saveService adminApp)
     = sent adminApp ++ [serviceRequest POST api_services (serviceForm (dom adminApp))].
Proof.
  split; [reflexivity|].
  exact (proj1 (service_changes_refetch adminApp 1) eq_refl).
Defined.

Lemma populateServiceDatabase_logged_out (s : App) (x : Service.t)
    (l : list Service.t) :
  currentUser s = None -> serviceDatabase s = x :: l ->
  populateServiceDatabase s
  = (Thrown "Cannot read properties of null",
     with_dom (with_serviceListContainer [] (dom s)) s).
Proof.
  intros H E. unfold populateServiceDatabase. do 2 (mstep reflexivity).
  fields. rewrite E. cbn [forEach]. cbv [bind theUser gets]. fields.
  rewrite H. reflexivity.
Qed.

(** X16. The catalog that arrives replaces [serviceDatabase] and fills the
    service list, the service select of the task form and the service
    filter; a failure changes nothing and is not reported. *)
Theorem services_response_fills_views (s : App) (data : list Service.t) :
  (forall u, currentUser s = Some u ->
     let s' := exec (loadServicesFromBackend_settled (Ok data)) s in
     serviceDatabase s' = data
     /\ map itemService (serviceListContainer (dom s')) = data
     /\ Forall (fun item => itemButtons item = negb (User.role u === "staff"))
               (serviceListContainer (dom s'))
     /\ serviceTypeSelect (dom s') = map serviceOptionFor data
     /\ filterService (dom s') = map Service.name data
     /\ sent s' = sent s)
  /\ (forall message, exec (loadServicesFromBackend_settled (Failed message)) s = s)
  /\ (currentUser s = None -> data <> [] ->
      let s' := exec (loadServicesFromBackend_settled (Ok data)) s in
      serviceDatabase s' = data
      /\ serviceListContainer (dom s') = []
      /\ serviceTypeSelect (dom s') = serviceTypeSelect (dom s)
      /\ toasts (dom s') = toasts (dom s)).
Proof.
  split; [|split; [intros message; reflexivity|]].
  - intros u H s'.
    assert (E : s' = with_dom
                       (with_filterService (map Service.name data)
                          (with_serviceTypeSelect (map serviceOptionFor data)
                             (with_serviceListContainer
                                (map (serviceItemFor u data) data) (dom s))))
                       (with_serviceDatabase data s)).
    { unfold s', exec, loadServicesFromBackend_settled, tryCatch.
      do 2 (mstep reflexivity).
      mstep (apply (populateServiceDatabase_logged_in _ u); exact H).
      rewrite populateServiceDropdown_result. reflexivity. }
    rewrite E. fields. split; [reflexivity|]. split.
    { rewrite map_map. simpl. apply map_id. }
    split; [|repeat split].
    apply Forall_forall. intros item I. apply in_map_iff in I.
    destruct I as (sv & <- & _). reflexivity.
  - intros H N s'. destruct data as [|x data]; [contradiction|].
    assert (E : s' = with_dom (with_serviceListContainer [] (dom s))
                       (with_serviceDatabase (x :: data) s)).
    { unfold s', exec, loadServicesFromBackend_settled, tryCatch.
      do 2 (mstep reflexivity). unfold bind at 1.
      rewrite (populateServiceDatabase_logged_out _ x data)
        by (exact H || reflexivity).
      reflexivity. }
    rewrite E. repeat split.
Qed.

Lemma services_response_fills_views_witness :
  currentUser adminApp = Some admin
  /\ serviceDatabase (exec (loadServicesFromBackend_settled (Ok sampleServices))
                           adminApp) = sampleServices.
Proof.
  split; [reflexivity|].
  exact (proj1 (proj1 (services_response_fills_views adminApp sampleServices)
                      admin eq_refl)).
Defined.

(** X17. Opening a service for editing and submitting the form as it is
    sends the service back as the catalog holds it. *)
Theorem editService_round_trip (s : App) (id : Z) :
  (find (fun sv => Service.id sv =? id) (serviceDatabase s) = None ->
   exec (editService id) s = s)
  /\ forall service,
       find (fun sv => Service.id sv =? id) (serviceDatabase s) = Some service ->
       let s1 := exec (editService id) s in
       let s2 := exec handleServiceSubmit s1 in
       Service.id service = id
       /\ editingServiceId s1 = Some id
       /\ serviceForm (dom s1) = serviceDataOf service
       /\ hidden (dom s1) serviceFormContainer = false
       /\ sent s1 = sent s
       /\ sent s2
          = sent s ++ [serviceRequest PUT (api_service id) (serviceDataOf service)]
       /\ serviceDatabase s2 = serviceDatabase s.
Proof.
  split.
  - intros F. unfold exec, editService. mstep reflexivity. rewrite F. reflexivity.
  - intros service F s1 s2.
    assert (P : Service.id service = id).
    { apply find_some in F. destruct F as [_ F]. apply Z.eqb_eq in F. exact F. }
    assert (E : s1 = exec (unhide serviceFormContainer)
                       (with_editingServiceId (Some id)
                          (exec (setText serviceFormTitle (Str "Edit Service"))
                             (with_dom (with_serviceForm (serviceDataOf service) (dom s))
                                       s)))).
    { unfold s1, exec at 1, editService. mstep reflexivity. rewrite F. reflexivity. }
    split; [exact P|]. unfold s2. rewrite E. repeat split.
Qed.

Lemma editService_round_trip_witness :
  find (fun sv => Service.id sv =? 3) (serviceDatabase adminWithServices)
  = Some (sampleService 3 "Visa")
  /\ editingServiceId (exec (editService 3) adminWithServices) = Some 3.
Proof.
  split; [reflexivity|].
  exact (proj1 (proj2 (proj2 (editService_round_trip adminWithServices 3)
                         (sampleService 3 "Visa") eq_refl))).
Defined.

(** X18. Choosing a service in the task form copies its price and charge
    into the form, from the first service of the catalog with the id of the
    option; an option the catalog no longer has changes nothing. *)
Theorem service_choice_fills_price_and_charge (s : App) :
  exec (updateServiceDetails None) s = s
  /\ (forall o,
        find (fun sv => Service.id sv =? so_serviceId o) (serviceDatabase s) = None ->
        exec (updateServiceDetails (Some o)) s = s)
  /\ (forall o service,
        find (fun sv => Service.id sv =? so_serviceId o) (serviceDatabase s)
        = Some service ->
        let s' := exec (updateServiceDetails (Some o)) s in
        let form := taskForm (dom s) in
        taskForm (dom s')
        = {| branchCode := branchCode form; customerName := customerName form;
             contactNumber := contactNumber form; serviceType := serviceType form;
             assignedTo := assignedTo form; paymode := paymode form;
             servicePrice := Service.price service; paidAmount := paidAmount form;
             serviceCharge := Service.charge service;
             description := description form |}
        /\ sent s' = sent s
        /\ serviceDatabase s' = serviceDatabase s)
  /\ (forall o,
        In o (serviceTypeSelect (dom (exec populateServiceDropdown s))) ->
        exists service,
          find (fun sv => Service.id sv =? so_serviceId o) (serviceDatabase s)
          = Some service
          /\ Service.id service = so_serviceId o
          /\ (NoDup (map Service.id (serviceDatabase s)) ->
              Service.name service = so_name o)).
Proof.
  split; [reflexivity|]. split; [|split].
  - intros o F. unfold exec, updateServiceDetails. cbv zeta. mstep reflexivity.
    rewrite F. reflexivity.
  - intros o service F s' form.
    unfold s', exec, updateServiceDetails. cbv zeta. mstep reflexivity.
    rewrite F. repeat split.
  - intros o I. unfold exec in I. rewrite populateServiceDropdown_result in I.
    fields. apply in_map_iff in I. destruct I as (sv & <- & I).
    cbn [so_serviceId so_name serviceOptionFor].
    destruct (find (fun x => Service.id x =? Service.id sv) (serviceDatabase s))
      as [service|] eqn:F.
    + exists service. split; [reflexivity|].
      pose proof (find_some _ _ F) as [I' P]. apply Z.eqb_eq in P.
      split; [exact P|]. intros N.
      assert (Q : service = sv); [|subst; reflexivity].
      clear F. revert N I I' P. generalize (serviceDatabase s). intros l.
      induction l as [|y l IH]; intros N I I' P; [destruct I|].
      simpl in N. inversion N as [|y' l' Ny Nl]; subst.
      destruct I as [<-|I]; destruct I' as [<-|I'].
      * reflexivity.
      * exfalso. apply Ny. rewrite <- P. apply in_map. exact I'.
      * exfalso. apply Ny. rewrite P. apply in_map. exact I.
      * apply IH; assumption.
    + exfalso. apply (find_none _ _ F) in I. rewrite Z.eqb_refl in I. discriminate I.
Qed.

Lemma service_choice_fills_price_and_charge_witness :
  find (fun sv => Service.id sv =? so_serviceId (serviceOptionFor (sampleService 3 "Visa")))
       (serviceDatabase adminWithServices)
  = Some (sampleService 3 "Visa")
  /\ sent (exec (updateServiceDetails (Some (serviceOptionFor (sampleService 3 "Visa"))))
                adminWithServices)
     = sent adminWithServices.
Proof.
  split; [reflexivity|].
  exact (proj1 (proj2 (proj1 (proj2 (proj2
    (service_choice_fills_price_and_charge adminWithServices)))
    (serviceOptionFor (sampleService 3 "Visa")) (sampleService 3 "Visa") eq_refl))).
Defined.

(** ** The dashboard *)

(** X19. The figures of the dashboard are the backend's; the revenue is
    written for an administrator only, and a missing one reads as zero.
    The top performers are asked for next.  A failure is not reported. *)
Theorem stats_response_fills_dashboard (s : App) (stats : Stats) :
  (forall u, currentUser s = Some u ->
     let s' := exec (updateDashboard_settled (Ok stats)) s in
     let d := dom s' in
     text d totalTasks = Some (Num (total_tasks stats))
     /\ text d tasksToday = Some (Num (tasks_today stats))
     /\ text d completedTasks = Some (Num (completed_tasks stats))
     /\ text d totalRevenue
        = (if User.role u === "admin"
           then Some (Rupees (orZero (total_revenue stats)))
           else text (dom s) totalRevenue)
     /\ winnersCards d = []
     /\ sent s' = sent s ++ [request GET api_dashboard_top_performers]
     /\ tasks s' = tasks s)
  /\ (forall message, exec (updateDashboard_settled (Failed message)) s = s)
  /\ (currentUser s = None ->
      let s' := exec (updateDashboard_settled (Ok stats)) s in
      text (dom s') totalTasks = Some (Num (total_tasks stats))
      /\ text (dom s') tasksToday = Some (Num (tasks_today stats))
      /\ text (dom s') completedTasks = Some (Num (completed_tasks stats))
      /\ sent s' = sent s
      /\ toasts (dom s') = toasts (dom s)).
Proof.
  split; [|split; [intros message; reflexivity|]].
  - intros u H s' d. unfold d, s', exec, updateDashboard_settled, tryCatch.
    do 4 (mstep reflexivity).
    mstep (apply (theUser_logged_in u); exact H).
    destruct (User.role u === "admin"); repeat split.
  - intros H s'. unfold s', exec, updateDashboard_settled, tryCatch.
    do 4 (mstep reflexivity). cbv [bind theUser gets]. fields. rewrite H.
    repeat split.
Qed.

Lemma stats_response_fills_dashboard_witness :
  currentUser adminApp = Some admin
  /\ text (dom (exec (updateDashboard_settled (Ok sampleStats)) adminApp)) totalTasks
     = Some (Num 3).
Proof.
  split; [reflexivity|].
  exact (proj1 (proj1 (stats_response_fills_dashboard adminApp sampleStats)
                      admin eq_refl)).
Defined.

Lemma updateWinners_callbacks_return (r : Response (option (list Winner))) (s : App) :
  r <> Unauthorized ->
  exists s1,
    tryCatch
      (top <- settle r ;;
       match top with
       | Some (w :: rest) =>
           unhide winnersContainer ;;
           forEach (combine (seq 0 (List.length (w :: rest))) (w :: rest))
             (fun '(index, winner) =>
                u <- theUser ;;
                let card :=
                  {| wc_place := index;
                     wc_name := w_name winner;
                     wc_completed := w_completed_tasks winner;
                     wc_revenue :=
                       if User.role u === "admin"
                       then Some (Rupees (orZero (w_total_revenue winner)))
                       else None;
                     wc_score := w_score winner |} in
                modifyDom (fun d => with_winnersCards (winnersCards d ++ [card]) d))
       | _ => hide winnersContainer
       end)
      (fun _ => hide winnersContainer) s
    = (Returned tt, s1)
    /\ sent s1 = sent s /\ tasks s1 = tasks s
    /\ overdueTasksTable (dom s1) = overdueTasksTable (dom s)
    /\ toasts (dom s1) = toasts (dom s).
Proof.
  intros N.
  match goal with |- exists s1, ?m s = _ /\ _ => set (m0 := m) end.
  assert (K1 : keeps sent m0).
  { unfold m0, settle, hide, unhide, setHidden.
    destruct r; [| contradiction |]; keeps_tac. }
  assert (K2 : keeps tasks m0).
  { unfold m0, settle, hide, unhide, setHidden.
    destruct r; [| contradiction |]; keeps_tac. }
  assert (K3 : keeps (fun s => overdueTasksTable (dom s)) m0).
  { unfold m0, settle, hide, unhide, setHidden, theUser.
    destruct r; [| contradiction |]; keeps_tac. }
  assert (K4 : keeps (fun s => toasts (dom s)) m0).
  { unfold m0, settle, hide, unhide, setHidden, theUser.
    destruct r; [| contradiction |]; keeps_tac. }
  specialize (K1 s). specialize (K2 s). specialize (K3 s). specialize (K4 s).
  cbv beta in K3, K4.
  unfold m0 in *. unfold tryCatch in *.
  match goal with |- context [let (o, s') := ?x in _] => destruct x as [[[]|e] s1] end.
  - exists s1. auto.
  - eexists. split; [reflexivity|]. auto.
Qed.

(** The response adds its rows to the table and clears nothing. *)
Lemma updateOverdueTasks_settled_appends (list : list OverdueInfo) (s : App) :
  exec (updateOverdueTasks_settled (Ok (Some list))) s
  = with_dom
      (with_overdueTasksTable (overdueTasksTable (dom s) ++ map OverdueOfBackend list)
         (with_hidden
            (fun x => if ElemId_eq_dec x overdueTasksContainer
                      then match list with [] => true | _ => false end
                      else hidden (dom s) x)
            (dom s))) s.
Proof.
  unfold exec, updateOverdueTasks_settled, tryCatch.
  mstep reflexivity. destruct list as [|x list].
  - simpl. rewrite app_nil_r. destruct s as [? ? ? ? ? ? ? ? ? ? d ? ?].
    destruct d. reflexivity.
  - mstep reflexivity.
    rewrite (forEach_append overdueTasksTable with_overdueTasksTable OverdueOfBackend)
      by lens.
    reflexivity.
Qed.

(** X20. The response to the overdue request adds the backend's rows to
    what the overdue table holds when it arrives; it clears nothing.  The
    table is emptied when the request is sent, which [updateWinners_settled]
    does whether or not the top performers could be loaded.  So the table
    holds the backend's rows alone when the response follows at once, the
    rows twice when a second response follows, and the rows [renderTasks]
    computed with the backend's after them when a render came in between.
    The container is shown exactly when the list received is not empty; a
    failure hides it and leaves the table as it is.  The cache is not
    touched. *)
Theorem overdue_response_appends_to_the_table
    (r : Response (option (list Winner))) (s : App) (list : list OverdueInfo) :
  r <> Unauthorized ->
  let answered s0 := exec (updateOverdueTasks_settled (Ok (Some list))) s0 in
  let s1 := exec (updateWinners_settled r) s in
  (forall s0,
     overdueTasksTable (dom (answered s0))
     = overdueTasksTable (dom s0) ++ map OverdueOfBackend list
     /\ (hidden (dom (answered s0)) overdueTasksContainer = true <-> list = [])
     /\ tasks (answered s0) = tasks s0
     /\ sent (answered s0) = sent s0)
  /\ (forall s0 message,
        let failed := exec (updateOverdueTasks_settled (Failed message)) s0 in
        overdueTasksTable (dom failed) = overdueTasksTable (dom s0)
        /\ hidden (dom failed) overdueTasksContainer = true)
  /\ sent s1 = sent s ++ [request GET api_dashboard_overdue_tasks]
  /\ overdueTasksTable (dom s1) = []
  /\ tasks s1 = tasks s
  /\ overdueTasksTable (dom (answered s1)) = map OverdueOfBackend list
  /\ overdueTasksTable (dom (answered (answered s1)))
     = map OverdueOfBackend list ++ map OverdueOfBackend list
  /\ (forall clk s0 u,
        currentUser s0 = Some u ->
        overdueTasksTable (dom (answered (exec (renderTasks clk) s0)))
        = map (overdueRowFor clk) (filter (isOverdue clk) (sortedTasks clk s0))
          ++ map OverdueOfBackend list).
Proof.
  intros N answered s1.
  assert (A : forall s0,
            overdueTasksTable (dom (answered s0))
            = overdueTasksTable (dom s0) ++ map OverdueOfBackend list)
    by (intros s0; unfold answered; rewrite updateOverdueTasks_settled_appends;
        reflexivity).
  destruct (updateWinners_callbacks_return r s N) as (s0 & E & K1 & K2 & _ & K4).
  assert (E1 : s1 = exec updateOverdueTasks s0).
  { unfold s1, exec, updateWinners_settled. rewrite (bind_eq _ _ _ _ _ E). reflexivity. }
  assert (T1 : overdueTasksTable (dom s1) = []) by (rewrite E1; reflexivity).
  split.
  { intros s2. split; [apply A|]. unfold answered.
    rewrite updateOverdueTasks_settled_appends. fields.
    split; [|split; reflexivity].
    destruct (ElemId_eq_dec overdueTasksContainer overdueTasksContainer) as [_|Q];
      [|contradiction].
    destruct list; split; (reflexivity || discriminate). }
  split; [intros s2 message; split; reflexivity|].
  split.
  { rewrite E1. unfold exec, updateOverdueTasks, apiFetch, modifyDom, modify, bind.
    fields. rewrite K1. reflexivity. }
  split; [exact T1|].
  split; [rewrite E1; exact K2|].
  split; [rewrite A, T1; reflexivity|].
  split; [rewrite !A, T1; reflexivity|].
  intros clk s2 u H. rewrite A. unfold exec.
  rewrite (renderTasks_logged_in clk u s2 H). reflexivity.
Qed.

Lemma overdue_response_appends_to_the_table_witness :
  Ok (Some [sampleWinner]) <> Unauthorized
  /\ overdueTasksTable
       (dom (exec (updateOverdueTasks_settled (Ok (Some [sampleOverdue])))
                  (exec (updateOverdueTasks_settled (Ok (Some [sampleOverdue])))
                        (exec (updateWinners_settled (Ok (Some [sampleWinner])))
                              aliceApp))))
     = [OverdueOfBackend sampleOverdue; OverdueOfBackend sampleOverdue].
Proof.
  assert (N : Ok (Some [sampleWinner]) <> Unauthorized) by discriminate.
  split; [exact N|].
  destruct (overdue_response_appends_to_the_table (Ok (Some [sampleWinner])) aliceApp
              [sampleOverdue] N) as (_ & _ & _ & _ & _ & _ & T & _).
  exact T.
Defined.

Lemma winners_loop (u : User.t) (l : list (nat * Winner)) (s : App) :
  currentUser s = Some u ->
  forEach l
    (fun '(index, winner) =>
       u <- theUser ;;
       let card :=
         {| wc_place := index;
            wc_name := w_name winner;
            wc_completed := w_completed_tasks winner;
            wc_revenue :=
              if User.role u === "admin"
              then Some (Rupees (orZero (w_total_revenue winner)))
              else None;
            wc_score := w_score winner |} in
       modifyDom (fun d => with_winnersCards (winnersCards d ++ [card]) d)) s
  = (Returned tt,
     with_dom (with_winnersCards (winnersCards (dom s) ++ map (winnerCardFor u) l)
                                 (dom s)) s).
Proof.
  intros H.
  rewrite <- (forEach_append winnersCards with_winnersCards (winnerCardFor u)) by lens.
  apply (forEach_ext (fun s => currentUser s = Some u)); [| |exact H].
  - intros [index winner] s0 H0. unfold bind.
    rewrite (theUser_logged_in u s0 H0). reflexivity.
  - intros x s0 H0. exact H0.
Qed.

(** X21. Every top performer the backend names gets a card, in the
    backend's order and numbered from the first; the revenue is on the card
    for an administrator only.  The cards are appended to the ones present. *)
Theorem winners_response_adds_a_card_each
    (s : App) (u : User.t) (w : Winner) (rest : list Winner) :
  currentUser s = Some u ->
  let s' := exec (updateWinners_settled (Ok (Some (w :: rest)))) s in
  let cards := winnersCards (dom s') in
  exists added,
    cards = winnersCards (dom s) ++ added
    /\ map wc_name added = map w_name (w :: rest)
    /\ map wc_place added = seq 0 (List.length (w :: rest))
    /\ Forall (fun c => wc_revenue c <> None <-> User.role u = "admin") added
    /\ hidden (dom s') winnersContainer = false.
Proof.
  intros H s' cards.
  exists (map (winnerCardFor u) (combine (seq 0 (List.length (w :: rest))) (w :: rest))).
  assert (E : s' = exec updateOverdueTasks
                     (with_dom
                        (with_winnersCards
                           (winnersCards (dom s)
                            ++ map (winnerCardFor u)
                                   (combine (seq 0 (List.length (w :: rest))) (w :: rest)))
                           (dom (exec (unhide winnersContainer) s)))
                        s)).
  { unfold s', exec at 1, updateWinners_settled.
    erewrite bind_eq; [reflexivity|].
    unfold tryCatch. mstep reflexivity. cbv iota. mstep reflexivity.
    rewrite (winners_loop u) by exact H. reflexivity. }
  unfold cards. rewrite E. split; [reflexivity|]. split; [|split; [|split]].
  - rewrite map_map. cbn [wc_name winnerCardFor].
    generalize (w :: rest). intros l. generalize O.
    induction l as [|x l IH]; intros k; simpl; [reflexivity|]. rewrite IH. reflexivity.
  - rewrite map_map. cbn [wc_place winnerCardFor].
    generalize (w :: rest). intros l. generalize O.
    induction l as [|x l IH]; intros k; simpl; [reflexivity|]. rewrite IH. reflexivity.
  - apply Forall_forall. intros c I. apply in_map_iff in I.
    destruct I as (iw & <- & _). cbn [wc_revenue winnerCardFor].
    destruct (User.role u === "admin") eqn:R.
    + apply String.eqb_eq in R. split; [auto|discriminate].
    + apply String.eqb_neq in R. split; [intros Q; contradiction|contradiction].
  - reflexivity.
Qed.

Lemma winners_response_adds_a_card_each_witness :
  currentUser adminApp = Some admin
  /\ exists added,
       winnersCards (dom (exec (updateWinners_settled (Ok (Some [sampleWinner])))
                               adminApp))
       = winnersCards (dom adminApp) ++ added
       /\ map wc_name added = ["alice"].
Proof.
  split; [reflexivity|].
  destruct (winners_response_adds_a_card_each adminApp admin sampleWinner [] eq_refl)
    as (added & E & Nm & _).
  exists added. split; [exact E|exact Nm].
Defined.

(** ** What the handlers leave alone *)

(** X22. The cached task list changes only when a task list arrives, when a
    delete or a status change is answered, and when a task is taken over. *)
Theorem cache_written_by_four_events (clk : Clock) (e : Event) (s : App) :
  writesTasks e = false -> tasks (step s (clk, e)) = tasks s.
Proof.
  intros W. unfold step, exec. cbn [fst snd]. apply (keeps_tasks_handler clk e W).
Qed.

Lemma cache_written_by_four_events_witness :
  writesTasks ClickLogout = false
  /\ tasks (step aliceApp (sampleClock, ClickLogout)) = tasks aliceApp.
Proof.
  split; [reflexivity|].
  exact (cache_written_by_four_events sampleClock ClickLogout aliceApp eq_refl).
Defined.

Lemma keeps_session_handler clk e :
  changesSession e = false ->
  keeps currentUser (handler clk e) /\ keeps sessionStorage (handler clk e).
Proof.
  intros W.
  destruct e; try discriminate W;
    try match goal with r : Response _ |- _ => destruct r; try discriminate W end;
    clear W; split;
    unfold_handlers;
    unfold fetchTasksAndRender_settled, deleteTask_settled, updateTaskStatus_settled,
      takeOverTask, assignTask, updateDashboard, apiFetch, showToast, setText,
      setDisplay, settle;
    keeps_tac.
Qed.

(** X23. Who is logged in changes only when the page is loaded, when a login
    is answered, when the user logs out and when a request is answered with
    status 401. *)
Theorem session_changes_with_four_events (clk : Clock) (e : Event) (s : App) :
  changesSession e = false ->
  currentUser (step s (clk, e)) = currentUser s
  /\ sessionStorage (step s (clk, e)) = sessionStorage s.
Proof.
  intros W. destruct (keeps_session_handler clk e W) as [K1 K2].
  unfold step, exec. cbn [fst snd]. split; [apply K1|apply K2].
Qed.

Lemma session_changes_with_four_events_witness :
  changesSession (ClickNavLink "reports") = false
  /\ currentUser (step aliceApp (sampleClock, ClickNavLink "reports")) = Some alice.
Proof.
  split; [reflexivity|].
  exact (proj1 (session_changes_with_four_events sampleClock (ClickNavLink "reports")
                  aliceApp eq_refl)).
Defined.

(** ** The staff list *)



(** X25. With an empty staff list the share modal offers nobody, and
    confirming it sends nothing; for a task the cache does not hold,
    [showShareModal] ends with an exception as soon as the staff list has a
    member, and the modal is not opened. *)
Theorem share_modal_without_staff_or_task (s : App) (id : Z) (i : nat) :
  (STAFF_LIST s = [] ->
   let s1 := exec (showShareModal id) s in
   let s2 := exec shareTask (exec (selectStaffItem i) s1) in
   staffListModal (dom s1) = []
   /\ shown (dom s1) shareTaskModal = true
   /\ sent s2 = sent s
   /\ toasts (dom s2) = toasts (dom s) ++ [selectStaff])
  /\ (STAFF_LIST s <> [] ->
      find (fun t => Task.id t =? id) (tasks s) = None ->
      let s1 := exec (showShareModal id) s in
      (exists message, fst (showShareModal id s) = Thrown message)
      /\ shown (dom s1) shareTaskModal = shown (dom s) shareTaskModal
      /\ staffListModal (dom s1) = []
      /\ sharingTaskId s1 = Some id).
Proof.
  split.
  - intros E s1 s2.
    assert (E1 : s1 = exec (setDisplay shareTaskModal true)
                        (with_dom (with_staffListModal [] (dom s))
                                  (with_sharingTaskId (Some id) s))).
    { unfold s1, exec at 1, showShareModal. do 4 (mstep reflexivity). fields.
      rewrite E. reflexivity. }
    unfold s2. rewrite E1. repeat split.
  - intros N F s1. unfold s1, exec, showShareModal.
    do 4 (mstep reflexivity). fields. rewrite F.
    destruct (STAFF_LIST s) as [|x l]; [contradiction|].
    split; [eexists; reflexivity|]. repeat split.
Qed.

Lemma share_modal_without_staff_or_task_witness :
  STAFF_LIST aliceApp = []
  /\ staffListModal (dom (exec (showShareModal 1) aliceApp)) = [].
Proof.
  split; [reflexivity|].
  exact (proj1 (proj1 (share_modal_without_staff_or_task aliceApp 1 0) eq_refl)).
Defined.

(** X26. The day filters: a name [filterTasksByDate] does not know, and the
    custom filter without a date, keep every task; no task is listed for two
    of today, yesterday and tomorrow; what is listed comes from the list
    given. *)
Theorem filterTasksByDate_days
    (clk : Clock) (customDateValue : option CustomDay) (ts : list Task.t) :
  today clk <= tomorrow clk ->
  let listed f := filterTasksByDate clk customDateValue ts f in
  (forall f, ~ In f ["today"; "yesterday"; "tomorrow"; "custom"] -> listed f = ts)
  /\ filterTasksByDate clk None ts "custom" = ts
  /\ (forall task,
        ~ (In task (listed "today") /\ In task (listed "yesterday"))
        /\ ~ (In task (listed "today") /\ In task (listed "tomorrow"))
        /\ ~ (In task (listed "yesterday") /\ In task (listed "tomorrow")))
  /\ (forall f task, In task (listed f) -> In task ts)
  /\ (forall f task,
        In task (listed f) <-> In task ts /\ dateMatches clk customDateValue f task = true).
Proof.
  intros L listed.
  assert (F : forall f, listed f = filter (dateMatches clk customDateValue f) ts)
    by (intros f; apply filterTasksByDate_filter).
  split; [|split; [reflexivity|split; [|split]]].
  - intros f N. unfold listed, filterTasksByDate.
    destruct (f === "today") eqn:E1; [apply String.eqb_eq in E1; subst f; exfalso; apply N; simpl; auto|].
    destruct (f === "yesterday") eqn:E2; [apply String.eqb_eq in E2; subst f; exfalso; apply N; simpl; auto|].
    destruct (f === "tomorrow") eqn:E3; [apply String.eqb_eq in E3; subst f; exfalso; apply N; simpl; auto|].
    destruct (f === "custom") eqn:E4; [apply String.eqb_eq in E4; subst f; exfalso; apply N; simpl; auto|].
    reflexivity.
  - intros task. rewrite !F, !filter_In. unfold dateMatches.
    cbn [String.eqb Ascii.eqb Bool.eqb].
    rewrite !andb_true_iff, !Z.leb_le, !Z.ltb_lt. lia.
  - intros f task. rewrite F, filter_In. tauto.
  - intros f task. rewrite F, filter_In. tauto.
Qed.

Lemma filterTasksByDate_days_witness :
  today sampleClock <= tomorrow sampleClock
  /\ filterTasksByDate sampleClock None (tasks aliceApp) "custom" = tasks aliceApp.
Proof.
  assert (L : today sampleClock <= tomorrow sampleClock) by (vm_compute; discriminate).
  split; [exact L|].
  exact (proj1 (proj2 (filterTasksByDate_days sampleClock None (tasks aliceApp) L))).
Defined.

(** ** The views after a change of the cache *)

Lemma In_firstn {A} (n : nat) (l : list A) (x : A) : In x (firstn n l) -> In x l.
Proof.
  revert l. induction n as [|n IH]; intros [|y l] I; simpl in *; try contradiction.
  destruct I as [->|I]; [left; reflexivity|right; apply IH, I].
Qed.

(** X27. After a delete the backend confirmed no row of the task table
    shows the task; the staff panel is not drawn again. *)
Theorem deleted_task_leaves_the_table (clk : Clock) (s : App) (u : User.t) (id : Z) :
  currentUser s = Some u ->
  let s' := exec (deleteTask_settled clk id (Ok tt)) s in
  Forall (fun r => Task.id (rowTask r) <> id) (taskTableBody (dom s'))
  /\ Forall (fun r => Task.id (rowTask r) <> id) (recentTasksTable (dom s'))
  /\ (forall task, In task (renderedTasks (taskTableBody (dom s'))) ->
                   In task (tasks s) /\ In task (tasks s'))
  /\ allTasksContainer (dom s') = allTasksContainer (dom s)
  /\ myTasksContainer (dom s') = myTasksContainer (dom s)
  /\ extraTasksContainer (dom s') = extraTasksContainer (dom s).
Proof.
  intros H s'. unfold s'. rewrite (deleteTask_settled_logged_in clk id s u H).
  unfold exec, showToast, modifyDom, modify, rendered. fields.
  assert (P : forall task,
            In task (sortedTasks clk (with_tasks
                       (filter (fun t => negb (Task.id t =? id)) (tasks s)) s)) ->
            In task (tasks s) /\ Task.id task <> id).
  { intros task I. unfold sortedTasks in I. fields.
    apply (Permutation_in _ (sort_perm newestFirst _)) in I.
    rewrite filteredTasks_filter in I. apply filter_In in I. destruct I as [I _].
    apply filter_In in I. destruct I as [I N].
    apply negb_true_iff, Z.eqb_neq in N. auto. }
  split; [|split; [|split; [|repeat split]]].
  - apply Forall_forall. intros r I. apply in_map_iff in I.
    destruct I as (task & <- & I). apply P, I.
  - apply Forall_forall. intros r I. apply in_map_iff in I.
    destruct I as (task & <- & I). apply P. apply (In_firstn _ _ _ I).
  - intros task I. rewrite renderedTasks_rowFor in I. destruct (P task I) as [I1 N].
    split; [exact I1|]. apply filter_In. split; [exact I1|].
    apply negb_true_iff, Z.eqb_neq. exact N.
Qed.

Lemma deleted_task_leaves_the_table_witness :
  currentUser adminApp = Some admin
  /\ Forall (fun r => Task.id (rowTask r) <> 1)
            (taskTableBody (dom (exec (deleteTask_settled sampleClock 1 (Ok tt))
                                      adminApp))).
Proof.
  split; [reflexivity|].
  exact (proj1 (deleted_task_leaves_the_table sampleClock adminApp admin 1 eq_refl)).
Defined.

(** X28. Taking a task over draws the staff panel again, from the cache as
    it is then, and leaves the task table as it was. *)
Theorem take_over_draws_the_panel_only (s : App) (u : User.t) (id : Z) (task : Task.t) :
  currentUser s = Some u -> User.role u = "staff" ->
  find (fun t => Task.id t =? id) (tasks s) = Some task ->
  let s' := exec (takeOverTask id) s in
  map cardTask (allTasksContainer (dom s')) = tasks s'
  /\ map cardTask (myTasksContainer (dom s')) = filter (isMyTask u) (tasks s')
  /\ map cardTask (extraTasksContainer (dom s')) = filter (isTakenOver u) (tasks s')
  /\ (exists taken,
        In taken (map cardTask (extraTasksContainer (dom s')))
        /\ Task.id taken = id /\ Task.edited taken = true)
  /\ taskTableBody (dom s') = taskTableBody (dom s)
  /\ toasts (dom s')
     = toasts (dom s) ++ [{| toastMessage := "Task taken over successfully!";
                             toastType := ToastSuccess |}].
Proof.
  intros H R F s'.
  destruct (find_Some_findIndex _ _ _ F) as (i & FI & N).
  assert (P : Task.id task = id).
  { apply find_some in F. destruct F as [_ F]. apply Z.eqb_eq in F. exact F. }
  unfold s'. rewrite (takeOverTask_panel s u id i H FI).
  match goal with |- context [exec updateStaffPanel ?s0] =>
    destruct (updateStaffPanel_staff u s0 H R)
      as (D & E & A & My & X & _ & _ & _ & _ & _ & _ & TD & TB & _);
    unfold exec; rewrite E
  end.
  unfold showToast, modifyDom, modify. fields.
  rewrite A, My, X, !map_cardTask, TD, TB.
  split; [reflexivity|]. split; [reflexivity|]. split; [reflexivity|].
  split; [|split; reflexivity].
  exists (Task.with_editReason
            (Some ("Task taken over by " ++ User.username u)%string)
            (Task.with_edited true
               (Task.with_takenOverBy (Some (User.username u)) task))).
  split; [|split; [exact P|reflexivity]].
  apply filter_In. split.
  - apply (nth_error_In _ i). rewrite nth_error_updateAt_eq, N. reflexivity.
  - unfold isTakenOver. cbn [Task.takenOverBy Task.with_editReason Task.with_edited
      Task.with_takenOverBy isString]. apply String.eqb_refl.
Qed.

Lemma take_over_draws_the_panel_only_witness :
  currentUser aliceApp = Some alice
  /\ User.role alice = "staff"
  /\ find (fun t => Task.id t =? 2) (tasks aliceApp)
     = Some (sampleTask 2 "Pending" "bob" "B2" [] (77 * hour))
  /\ taskTableBody (dom (exec (takeOverTask 2) aliceApp)) = taskTableBody (dom aliceApp).
Proof.
  split; [reflexivity|]. split; [reflexivity|]. split; [reflexivity|].
  exact (proj1 (proj2 (proj2 (proj2 (proj2
    (take_over_draws_the_panel_only aliceApp alice 2
       (sampleTask 2 "Pending" "bob" "B2" [] (77 * hour)) eq_refl eq_refl eq_refl)))))).
Defined.

(** X29. After a status change the backend confirmed, the task table and
    the staff panel are drawn again from the cache, and the modal names the
    task and its new status. *)
Theorem confirmed_status_change_redraws
    (clk : Clock) (s : App) (u : User.t) (id : Z) (newStatus oldStatus : string)
    (taskIndex : nat) (t : Task.t) :
  currentUser s = Some u -> User.role u = "staff" ->
  nth_error (tasks s) taskIndex = Some t ->
  let s' := exec (updateTaskStatus_settled clk id newStatus taskIndex oldStatus (Ok tt))
                 s in
  nth_error (tasks s') taskIndex = Some (statusChanged oldStatus newStatus t)
  /\ renderedTasks (taskTableBody (dom s')) = sortedTasks clk s'
  /\ map cardTask (allTasksContainer (dom s')) = tasks s'
  /\ map cardTask (myTasksContainer (dom s')) = filter (isMyTask u) (tasks s')
  /\ shown (dom s') statusUpdateModal = true
  /\ text (dom s') statusOrderNo = Some (Str (Task.orderNo t))
  /\ text (dom s') statusNewStatus = Some (Str newStatus)
  /\ sent s' = sent s ++ [request GET api_dashboard_stats]
  /\ toasts (dom s')
     = toasts (dom s) ++ [{| toastMessage := "Task status updated successfully!";
                             toastType := ToastSuccess |}].
Proof.
  intros H R N s'.
  assert (E : exists D s0,
            s' = exec (showToast "Task status updated successfully!" ToastSuccess)
                   (with_dom D s0)
            /\ updateStaffPanel s0 = (Returned tt, with_dom D s0)
            /\ s0 = with_sent (sent s ++ [request GET api_dashboard_stats])
                      (rendered clk u
                         (exec (setDisplay statusUpdateModal true)
                            (exec (setText statusNewStatus (Str newStatus))
                               (exec (setText statusOrderNo (Str (Task.orderNo t)))
                                  (with_tasks
                                     (updateAt taskIndex
                                        (statusChanged oldStatus newStatus) (tasks s))
                                     s)))))).
  { unfold s', exec at 1, updateTaskStatus_settled, tryCatch.
    mstep reflexivity.
    mstep (apply (assignTask_found _ _ _ t N)).
    mstep (apply (assignTask_found _ _ _ (Task.with_status newStatus t));
           fields; rewrite nth_error_updateAt_eq, N; reflexivity).
    mstep (apply (assignTask_found _ _ _
                    (Task.with_edited true (Task.with_status newStatus t)));
           fields; rewrite !nth_error_updateAt_eq, N; reflexivity).
    mstep reflexivity. fields. rewrite !nth_error_updateAt_eq, N. cbn [option_map].
    rewrite !updateAt_updateAt.
    change (with_tasks ?a (with_tasks _ (with_tasks _ s))) with (with_tasks a s).
    do 3 (mstep reflexivity).
    mstep (apply (renderTasks_logged_in clk u); exact H).
    mstep reflexivity.
    match goal with |- context [bind updateStaffPanel ?k ?s0] =>
      destruct (updateStaffPanel_staff u s0 H R) as (D & E & _);
      rewrite (bind_eq updateStaffPanel k s0 _ tt E);
      exists D, s0
    end.
    split; [reflexivity|]. split; [exact E|]. reflexivity. }
  destruct E as (D & s0 & -> & E & E0).
  assert (H0 : currentUser s0 = Some u) by (rewrite E0; exact H).
  destruct (updateStaffPanel_staff u s0 H0 R)
    as (D' & E' & A & My & _ & _ & _ & _ & _ & _ & _ & TD & TB & SH & CD & X1 & X2).
  rewrite E in E'. injection E' as <-.
  assert (T0 : tasks s0 = updateAt taskIndex (statusChanged oldStatus newStatus)
                                   (tasks s)) by (rewrite E0; reflexivity).
  unfold exec, showToast, modifyDom, modify, sortedTasks.
  fields. rewrite A, My, !map_cardTask, TD, TB, SH, CD, X1, X2, T0.
  split; [rewrite nth_error_updateAt_eq, N; reflexivity|].
  rewrite E0. unfold rendered, exec, setDisplay, setText, modifyDom, modify. fields.
  rewrite renderedTasks_rowFor.
  repeat split; reflexivity.
Qed.

Lemma confirmed_status_change_redraws_witness :
  currentUser aliceApp = Some alice
  /\ User.role alice = "staff"
  /\ nth_error (tasks aliceApp) 0 = Some (sampleTask 1 "Pending" "alice" "B1" [] (75 * hour))
  /\ shown (dom (exec (updateTaskStatus_settled sampleClock 1 "Completed" 0 "Pending"
                         (Ok tt)) aliceApp)) statusUpdateModal = true.
Proof.
  split; [reflexivity|]. split; [reflexivity|]. split; [reflexivity|].
  exact (proj1 (proj2 (proj2 (proj2 (proj2
    (confirmed_status_change_redraws sampleClock aliceApp alice 1 "Completed" "Pending"
       0 (sampleTask 1 "Pending" "alice" "B1" [] (75 * hour))
       eq_refl eq_refl eq_refl)))))).
Defined.
